(** * The Windows console screen driver of tcell (console_win.go)

    A shallow embedding of [cScreen] and of the functions that drive it:
    the input decoder, the style translator, the renderer, the geometry
    and cursor operations and the lifecycle.  The host console and the Go
    runtime are interfaces; every call made on a console handle is logged
    in program order. *)

From Stdlib Require Import ZArith List Lia DecimalString HexadecimalString.
From stdpp Require Import base option list gmap strings.

Local Open Scope Z_scope.

(** ** Fixed-width integers

    Go's sized integers are carried by [Z]; a conversion wraps. *)

Definition uint16 (z : Z) : Z := z mod 2 ^ 16.
Definition uint32 (z : Z) : Z := z mod 2 ^ 32.
Definition uintptr (z : Z) : Z := z mod 2 ^ 64.
Definition int16 (z : Z) : Z := (z + 2 ^ 15) mod 2 ^ 16 - 2 ^ 15.
Definition int32 (z : Z) : Z := (z + 2 ^ 31) mod 2 ^ 32 - 2 ^ 31.

(** ** Value types declared outside console_win.go *)

(** Modelled from the spec: the modifier mask of key.go (shift, ctrl, alt
    bits; [ModNone] is the empty mask).  [ModMask] is an integer bit set. *)
Definition ModNone : Z := 0.
Definition ModShift : Z := 1.
Definition ModCtrl : Z := 2.
Definition ModAlt : Z := 4.

(** Modelled from the spec: the key codes of key.go.  [Key] is an integer;
    control keys carry their ASCII code and the named keys are numbered
    upwards from [KeyRune]. *)
Definition KeyNUL : Z := 0.
Definition KeyBackspace : Z := 8.
Definition KeyTab : Z := 9.
Definition KeyEnter : Z := 13.
Definition KeyEscape : Z := 27.
Definition KeyRune : Z := 256.
Definition KeyUp : Z := 257.
Definition KeyDown : Z := 258.
Definition KeyRight : Z := 259.
Definition KeyLeft : Z := 260.
Definition KeyPgUp : Z := 266.
Definition KeyPgDn : Z := 267.
Definition KeyHome : Z := 268.
Definition KeyEnd : Z := 269.
Definition KeyInsert : Z := 270.
Definition KeyDelete : Z := 271.
Definition KeyHelp : Z := 272.
Definition KeyClear : Z := 274.
Definition KeyCancel : Z := 275.
Definition KeyPrint : Z := 276.
Definition KeyPause : Z := 277.
Definition KeyBacktab : Z := 278.
Definition KeyF1 : Z := 279.
Definition KeyF2 : Z := 280.
Definition KeyF3 : Z := 281.
Definition KeyF4 : Z := 282.
Definition KeyF5 : Z := 283.
Definition KeyF6 : Z := 284.
Definition KeyF7 : Z := 285.
Definition KeyF8 : Z := 286.
Definition KeyF9 : Z := 287.
Definition KeyF10 : Z := 288.
Definition KeyF11 : Z := 289.
Definition KeyF12 : Z := 290.
Definition KeyF13 : Z := 291.
Definition KeyF14 : Z := 292.
Definition KeyF15 : Z := 293.
Definition KeyF16 : Z := 294.
Definition KeyF17 : Z := 295.
Definition KeyF18 : Z := 296.
Definition KeyF19 : Z := 297.
Definition KeyF20 : Z := 298.
Definition KeyF21 : Z := 299.
Definition KeyF22 : Z := 300.
Definition KeyF23 : Z := 301.
Definition KeyF24 : Z := 302.

(** Modelled from the spec: the button mask of mouse.go; bits 0..7 are
    [Button1]..[Button8], the wheel directions follow. *)
Definition ButtonNone : Z := 0.
Definition Button1 : Z := 1.
Definition Button2 : Z := 2.
Definition Button3 : Z := 4.
Definition Button4 : Z := 8.
Definition Button5 : Z := 16.
Definition Button6 : Z := 32.
Definition Button7 : Z := 64.
Definition Button8 : Z := 128.
Definition WheelUp : Z := 256.
Definition WheelDown : Z := 512.
Definition WheelLeft : Z := 1024.
Definition WheelRight : Z := 2048.

(** Modelled from the spec: the events of the consumer-facing queue, each
    written as the constructor call that console_win.go makes
    ([NewEventKey key rune mods] and so on); the event types themselves
    live in key.go, mouse.go, resize.go and focus.go. *)
Inductive Event : Type :=
| NewEventKey (key : Z) (ch : Z) (mods : Z)
| NewEventMouse (x y : Z) (btns : Z) (mods : Z)
| NewEventResize (w h : Z)
| NewEventFocus (focused : bool).

(** ** Input records *)

Definition keyEvent : Z := 1.
Definition mouseEvent : Z := 2.
Definition resizeEvent : Z := 4.
Definition menuEvent : Z := 8.
Definition focusEvent : Z := 16.

(** [data] is the 16-byte payload of the record. *)
Record inputRecord : Type := {
  typ : Z;
  data : list Z
}.

Record mouseRecord : Type := {
  m_x : Z;
  m_y : Z;
  m_btns : Z;
  m_mod : Z;
  m_flags : Z
}.

Definition mouseHWheeled : Z := 0x8.
Definition mouseVWheeled : Z := 0x4.

Record keyRecord : Type := {
  k_isdown : Z;
  k_repeat : Z;
  k_kcode : Z;
  k_scode : Z;
  k_ch : Z;
  k_mod : Z
}.

Definition vkCancel : Z := 0x03.
Definition vkBack : Z := 0x08.
Definition vkTab : Z := 0x09.
Definition vkClear : Z := 0x0c.
Definition vkReturn : Z := 0x0d.
Definition vkPause : Z := 0x13.
Definition vkEscape : Z := 0x1b.
Definition vkSpace : Z := 0x20.
Definition vkPrior : Z := 0x21.
Definition vkNext : Z := 0x22.
Definition vkEnd : Z := 0x23.
Definition vkHome : Z := 0x24.
Definition vkLeft : Z := 0x25.
Definition vkUp : Z := 0x26.
Definition vkRight : Z := 0x27.
Definition vkDown : Z := 0x28.
Definition vkPrint : Z := 0x2a.
Definition vkPrtScr : Z := 0x2c.
Definition vkInsert : Z := 0x2d.
Definition vkDelete : Z := 0x2e.
Definition vkHelp : Z := 0x2f.
Definition vkF1 : Z := 0x70.
Definition vkF2 : Z := 0x71.
Definition vkF3 : Z := 0x72.
Definition vkF4 : Z := 0x73.
Definition vkF5 : Z := 0x74.
Definition vkF6 : Z := 0x75.
Definition vkF7 : Z := 0x76.
Definition vkF8 : Z := 0x77.
Definition vkF9 : Z := 0x78.
Definition vkF10 : Z := 0x79.
Definition vkF11 : Z := 0x7a.
Definition vkF12 : Z := 0x7b.
Definition vkF13 : Z := 0x7c.
Definition vkF14 : Z := 0x7d.
Definition vkF15 : Z := 0x7e.
Definition vkF16 : Z := 0x7f.
Definition vkF17 : Z := 0x80.
Definition vkF18 : Z := 0x81.
Definition vkF19 : Z := 0x82.
Definition vkF20 : Z := 0x83.
Definition vkF21 : Z := 0x84.
Definition vkF22 : Z := 0x85.
Definition vkF23 : Z := 0x86.
Definition vkF24 : Z := 0x87.

(** The entries of the [vkKeys] map literal, in source order. *)
Definition vkKeys_entries : list (Z * Z) :=
  [ (vkCancel, KeyCancel); (vkBack, KeyBackspace); (vkTab, KeyTab);
    (vkClear, KeyClear); (vkPause, KeyPause); (vkPrint, KeyPrint);
    (vkPrtScr, KeyPrint); (vkPrior, KeyPgUp); (vkNext, KeyPgDn);
    (vkReturn, KeyEnter); (vkEnd, KeyEnd); (vkHome, KeyHome);
    (vkLeft, KeyLeft); (vkUp, KeyUp); (vkRight, KeyRight);
    (vkDown, KeyDown); (vkInsert, KeyInsert); (vkDelete, KeyDelete);
    (vkHelp, KeyHelp); (vkEscape, KeyEscape); (vkSpace, 32);
    (vkF1, KeyF1); (vkF2, KeyF2); (vkF3, KeyF3); (vkF4, KeyF4);
    (vkF5, KeyF5); (vkF6, KeyF6); (vkF7, KeyF7); (vkF8, KeyF8);
    (vkF9, KeyF9); (vkF10, KeyF10); (vkF11, KeyF11); (vkF12, KeyF12);
    (vkF13, KeyF13); (vkF14, KeyF14); (vkF15, KeyF15); (vkF16, KeyF16);
    (vkF17, KeyF17); (vkF18, KeyF18); (vkF19, KeyF19); (vkF20, KeyF20);
    (vkF21, KeyF21); (vkF22, KeyF22); (vkF23, KeyF23); (vkF24, KeyF24) ].

Definition vkKeys : gmap Z Z := list_to_map vkKeys_entries.

(** Little-endian field access.  The slices read here are tails of the
    16-byte payload and every index is a constant within it. *)
Definition getu32 (v : list Z) : Z :=
  uint32 (uint32 (uint32 (uint32 (v !!! 0%nat)
                          + uint32 (uint32 (v !!! 1%nat) ≪ 8))
                  + uint32 (uint32 (v !!! 2%nat) ≪ 16))
          + uint32 (uint32 (v !!! 3%nat) ≪ 24)).

Definition geti32 (v : list Z) : Z := int32 (getu32 v).

Definition getu16 (v : list Z) : Z :=
  uint16 (uint16 (v !!! 0%nat) + uint16 (uint16 (v !!! 1%nat) ≪ 8)).

Definition geti16 (v : list Z) : Z := int16 (getu16 v).

(** Convert windows dwControlKeyState to modifier mask. *)
Definition mod2mask (cks : Z) : Z :=
  let mm := ModNone in
  let ctrl := negb (Z.land cks (Z.lor 0x0008 0x0004) =? 0) in
  let alt := negb (Z.land cks (Z.lor 0x0002 0x0001) =? 0) in
  let mm :=
    if negb (ctrl && alt) then
      let mm := if ctrl then Z.lor mm ModCtrl else mm in
      if alt then Z.lor mm ModAlt else mm
    else mm in
  if negb (Z.land cks 0x0010 =? 0) then Z.lor mm ModShift else mm.

Definition mrec2btns (mbtns flags : Z) : Z :=
  let bit (m b : Z) (btns : Z) :=
    if negb (Z.land mbtns m =? 0) then Z.lor btns b else btns in
  let btns := ButtonNone in
  let btns := bit 0x1 Button1 btns in
  let btns := bit 0x2 Button2 btns in
  let btns := bit 0x4 Button3 btns in
  let btns := bit 0x8 Button4 btns in
  let btns := bit 0x10 Button5 btns in
  let btns := bit 0x20 Button6 btns in
  let btns := bit 0x40 Button7 btns in
  let btns := bit 0x80 Button8 btns in
  let btns :=
    if negb (Z.land flags mouseVWheeled =? 0) then
      if Z.land mbtns 0x80000000 =? 0 then Z.lor btns WheelUp
      else Z.lor btns WheelDown
    else btns in
  if negb (Z.land flags mouseHWheeled =? 0) then
    if Z.land mbtns 0x80000000 =? 0 then Z.lor btns WheelRight
    else Z.lor btns WheelLeft
  else btns.

(** The key record of an input record (getConsoleInput, case keyEvent). *)
Definition read_keyRecord (rec : inputRecord) : keyRecord :=
  {| k_isdown := geti32 (drop 0 (data rec));
     k_repeat := getu16 (drop 4 (data rec));
     k_kcode := getu16 (drop 6 (data rec));
     k_scode := getu16 (drop 8 (data rec));
     k_ch := getu16 (drop 10 (data rec));
     k_mod := getu32 (drop 12 (data rec)) |}.

(** The event posted by one turn of the loop over a synthesized key code:
    shift+tab becomes backtab. *)
Definition key_rune_event (krec : keyRecord) : Event :=
  if (mod2mask (k_mod krec) =? ModShift) && (k_ch krec =? vkTab)
  then NewEventKey KeyBacktab 0 ModNone
  else NewEventKey KeyRune (k_ch krec) (mod2mask (k_mod krec)).

(** The events that getConsoleInput posts for a key record, in order.
    Each loop counts [krec.repeat] down to zero and posts once per turn;
    the record's other fields do not change between turns. *)
Definition key_events (krec : keyRecord) : list Event :=
  if (k_isdown krec =? 0) || (k_repeat krec <? 1) then []
  else if negb (k_ch krec =? 0) then
    replicate (Z.to_nat (k_repeat krec)) (key_rune_event krec)
  else
    match vkKeys !! k_kcode krec with
    | None => []
    | Some key =>
        replicate (Z.to_nat (k_repeat krec))
          (NewEventKey key (k_ch krec) (mod2mask (k_mod krec)))
    end.

(** The 101/105-key set of [HasKey], in source order. *)
Definition HasKey_entries : list (Z * bool) :=
  [ (KeyBackspace, true); (KeyTab, true); (KeyEscape, true);
    (KeyPause, true); (KeyPrint, true); (KeyPgUp, true); (KeyPgDn, true);
    (KeyEnter, true); (KeyEnd, true); (KeyHome, true); (KeyLeft, true);
    (KeyUp, true); (KeyRight, true); (KeyDown, true); (KeyInsert, true);
    (KeyDelete, true); (KeyF1, true); (KeyF2, true); (KeyF3, true);
    (KeyF4, true); (KeyF5, true); (KeyF6, true); (KeyF7, true);
    (KeyF8, true); (KeyF9, true); (KeyF10, true); (KeyF11, true);
    (KeyF12, true); (KeyRune, true) ].

(** A missing key reads as the zero value [false]. *)
Definition HasKey (k : Z) : bool :=
  let valid : gmap Z bool := list_to_map HasKey_entries in
  default false (valid !! k).

(** ** Colors, attributes and styles *)

(** Modelled from the spec: the colors of color.go.  A [Color] is an
    integer: [ColorDefault] is the zero value, a valid color carries the
    [ColorValid] flag and its palette index in the low byte, an RGB color
    carries [ColorIsRGB] as well, and [ColorReset] is a special value.
    The sixteen named colors are palette entries 0..15. *)
Definition ColorDefault : Z := 0.
Definition ColorValid : Z := 2 ^ 32.
Definition ColorIsRGB : Z := 2 ^ 33.
Definition ColorSpecial : Z := 2 ^ 34.
Definition ColorReset : Z := ColorSpecial.
Definition ColorBlack : Z := ColorValid + 0.
Definition ColorMaroon : Z := ColorValid + 1.
Definition ColorGreen : Z := ColorValid + 2.
Definition ColorOlive : Z := ColorValid + 3.
Definition ColorNavy : Z := ColorValid + 4.
Definition ColorPurple : Z := ColorValid + 5.
Definition ColorTeal : Z := ColorValid + 6.
Definition ColorSilver : Z := ColorValid + 7.
Definition ColorGray : Z := ColorValid + 8.
Definition ColorRed : Z := ColorValid + 9.
Definition ColorLime : Z := ColorValid + 10.
Definition ColorYellow : Z := ColorValid + 11.
Definition ColorBlue : Z := ColorValid + 12.
Definition ColorFuchsia : Z := ColorValid + 13.
Definition ColorAqua : Z := ColorValid + 14.
Definition ColorWhite : Z := ColorValid + 15.
Definition ColorGrey : Z := ColorGray.

(** Modelled from the spec: the attribute mask of attr.go (bold, blink,
    reverse, underline bit, dim) and the mark of an invalid style. *)
Definition AttrBold : Z := 1.
Definition AttrBlink : Z := 2.
Definition AttrReverse : Z := 4.
Definition AttrUnderline : Z := 8.
Definition AttrDim : Z := 16.
Definition AttrInvalid : Z := 2 ^ 31.

(** Modelled from the spec: the underline substyles of style.go. *)
Definition UnderlineStyleNone : Z := 0.
Definition UnderlineStyleSolid : Z := 1.
Definition UnderlineStyleDouble : Z := 2.
Definition UnderlineStyleCurly : Z := 3.
Definition UnderlineStyleDotted : Z := 4.
Definition UnderlineStyleDashed : Z := 5.

(** Modelled from the spec: the [Style] aggregate of style.go. *)
Record Style : Type := {
  fg : Z;
  bg : Z;
  ulStyle : Z;
  ulColor : Z;
  attrs : Z;
  url : string;
  urlId : string
}.

#[global] Instance Style_eq_dec : EqDecision Style.
Proof. solve_decision. Defined.

(** Modelled from the spec: the neutral style is the zero value. *)
Definition StyleDefault : Style :=
  {| fg := ColorDefault; bg := ColorDefault; ulStyle := UnderlineStyleNone;
     ulColor := ColorDefault; attrs := 0; url := ""; urlId := "" |}.

(** Modelled from the spec: a sentinel distinct from any style that can be
    emitted. *)
Definition styleInvalid : Style :=
  {| fg := ColorDefault; bg := ColorDefault; ulStyle := UnderlineStyleNone;
     ulColor := ColorDefault; attrs := AttrInvalid; url := ""; urlId := "" |}.

(** Modelled from the spec: the cursor styles of screen.go, numbered 0..6
    as in the escape [ESC [ n SP q]. *)
Definition CursorStyleDefault : Z := 0.
Definition CursorStyleBlinkingBlock : Z := 1.
Definition CursorStyleSteadyBlock : Z := 2.
Definition CursorStyleBlinkingUnderline : Z := 3.
Definition CursorStyleSteadyUnderline : Z := 4.
Definition CursorStyleBlinkingBar : Z := 5.
Definition CursorStyleSteadyBar : Z := 6.

(** ** The cell buffer *)

(** Modelled from the spec: a cell of cell.go holds one primary code
    point, its combining code points, a style, a width in columns and a
    dirty bit. *)
Record cell : Type := {
  c_mainc : Z;
  c_combc : list Z;
  c_style : Style;
  c_width : nat;
  c_dirty : bool
}.

(** Modelled from the spec: [CellBuffer] of cell.go is a dense W x H array
    of cells in row-major order. *)
Record CellBuffer : Type := {
  cb_w : Z;
  cb_h : Z;
  cb_cells : list cell
}.

Definition cb_in_range (cb : CellBuffer) (x y : Z) : bool :=
  (0 <=? x) && (0 <=? y) && (x <? cb_w cb) && (y <? cb_h cb).

Definition cb_index (cb : CellBuffer) (x y : Z) : nat :=
  Z.to_nat (y * cb_w cb + x).

Definition cb_lookup (cb : CellBuffer) (x y : Z) : option cell :=
  if cb_in_range cb x y then cb_cells cb !! cb_index cb x y else None.

(** Modelled from the spec: [GetContent(x,y)] returns (main, combining,
    style, width); an access out of range returns zero values; a stored
    width of 0 reads as 1. *)
Definition GetContent (cb : CellBuffer) (x y : Z)
  : Z * list Z * Style * Z :=
  match cb_lookup cb x y with
  | Some c =>
      (c_mainc c, c_combc c, c_style c,
       if decide (c_width c = 0%nat) then 1 else Z.of_nat (c_width c))
  | None => (0, [], StyleDefault, 0)
  end.

(** Modelled from the spec: [Dirty(x,y)] reads the dirty bit. *)
Definition Dirty (cb : CellBuffer) (x y : Z) : bool :=
  match cb_lookup cb x y with
  | Some c => c_dirty c
  | None => false
  end.

Definition cell_set_dirty (b : bool) (c : cell) : cell :=
  {| c_mainc := c_mainc c; c_combc := c_combc c; c_style := c_style c;
     c_width := c_width c; c_dirty := b |}.

(** Modelled from the spec: [SetDirty(x,y,flag)] writes the dirty bit and
    nothing else; out of range it does nothing. *)
Definition SetDirty (cb : CellBuffer) (x y : Z) (b : bool) : CellBuffer :=
  if cb_in_range cb x y then
    {| cb_w := cb_w cb; cb_h := cb_h cb;
       cb_cells := alter (cell_set_dirty b) (cb_index cb x y) (cb_cells cb) |}
  else cb.

(** Modelled from the spec: [Invalidate()] forces every cell dirty. *)
Definition Invalidate (cb : CellBuffer) : CellBuffer :=
  {| cb_w := cb_w cb; cb_h := cb_h cb;
     cb_cells := cell_set_dirty true <$> cb_cells cb |}.

Definition zero_cell : cell :=
  {| c_mainc := 0; c_combc := []; c_style := StyleDefault; c_width := 0;
     c_dirty := true |}.

(** Modelled from the spec: [Resize(w,h)] reallocates to the new
    dimensions, keeps the overlapping region and leaves every cell
    dirty. *)
Definition Resize (cb : CellBuffer) (w h : Z) : CellBuffer :=
  {| cb_w := w; cb_h := h;
     cb_cells :=
       y ← seqZ 0 h;
       x ← seqZ 0 w;
       [match cb_lookup cb x y with
        | Some c => cell_set_dirty true c
        | None => zero_cell
        end] |}.

(** ** Console structures *)

Record cursorInfo : Type := {
  ci_size : Z;
  ci_visible : Z
}.

Record coord : Type := {
  co_x : Z;
  co_y : Z
}.

(** little endian, put x first *)
Definition coord_uintptr (c : coord) : Z :=
  Z.lor (uintptr (co_x c)) (uintptr (uintptr (co_y c) ≪ 16)).

Record rect : Type := {
  r_left : Z;
  r_top : Z;
  r_right : Z;
  r_bottom : Z
}.

Record consoleInfo : Type := {
  i_size : coord;
  i_pos : coord;
  i_attrs : Z;
  i_win : rect;
  i_maxsz : coord
}.

(** Go errors: a system error number or a message of [errors.New]. *)
Inductive error : Type :=
| Errno (n : Z)
| errorString (msg : string).

(** A channel is nil until made; closing it twice panics. *)
Inductive chanState : Type := ChanNil | ChanOpen | ChanClosed.


(** ** The screen

    The fields of [cScreen].  Handles are integers; a channel is carried
    by its state, the event queue by its buffered events ([None] before
    it is made), the wait group by its counter and the once-latch by a
    flag.  The mutex serializes the public methods and has no state of
    its own here. *)
Record cScreen : Type := {
  s_in : Z;
  s_out : Z;
  cancelflag : Z;
  scandone : chanState;
  quit : chanState;
  curx : Z;
  cury : Z;
  s_style : Style;
  fini : bool;
  vten : bool;
  truecolor : bool;
  running : bool;
  disableAlt : bool;
  title : string;
  s_w : Z;
  s_h : Z;
  oscreen : consoleInfo;
  ocursor : cursorInfo;
  cursorStyle : Z;
  cursorColor : Z;
  oimode : Z;
  oomode : Z;
  cells : CellBuffer;
  focusEnable : bool;
  mouseEnabled : bool;
  wg : Z;
  eventQ : option (list Event);
  stopQ : chanState;
  finiOnce : bool
}.

(** Field assignments [s.f = v]. *)
Definition set_s_in (v : Z) (s : cScreen) : cScreen :=
  {| s_in := v; s_out := s_out s; cancelflag := cancelflag s;
     scandone := scandone s; quit := quit s; curx := curx s;
     cury := cury s; s_style := s_style s; fini := fini s; vten := vten s;
     truecolor := truecolor s; running := running s;
     disableAlt := disableAlt s; title := title s; s_w := s_w s;
     s_h := s_h s; oscreen := oscreen s; ocursor := ocursor s;
     cursorStyle := cursorStyle s; cursorColor := cursorColor s;
     oimode := oimode s; oomode := oomode s; cells := cells s;
     focusEnable := focusEnable s; mouseEnabled := mouseEnabled s;
     wg := wg s; eventQ := eventQ s; stopQ := stopQ s;
     finiOnce := finiOnce s |}.

Definition set_s_out (v : Z) (s : cScreen) : cScreen :=
  {| s_in := s_in s; s_out := v; cancelflag := cancelflag s;
     scandone := scandone s; quit := quit s; curx := curx s;
     cury := cury s; s_style := s_style s; fini := fini s; vten := vten s;
     truecolor := truecolor s; running := running s;
     disableAlt := disableAlt s; title := title s; s_w := s_w s;
     s_h := s_h s; oscreen := oscreen s; ocursor := ocursor s;
     cursorStyle := cursorStyle s; cursorColor := cursorColor s;
     oimode := oimode s; oomode := oomode s; cells := cells s;
     focusEnable := focusEnable s; mouseEnabled := mouseEnabled s;
     wg := wg s; eventQ := eventQ s; stopQ := stopQ s;
     finiOnce := finiOnce s |}.

Definition set_cancelflag (v : Z) (s : cScreen) : cScreen :=
  {| s_in := s_in s; s_out := s_out s; cancelflag := v;
     scandone := scandone s; quit := quit s; curx := curx s;
     cury := cury s; s_style := s_style s; fini := fini s; vten := vten s;
     truecolor := truecolor s; running := running s;
     disableAlt := disableAlt s; title := title s; s_w := s_w s;
     s_h := s_h s; oscreen := oscreen s; ocursor := ocursor s;
     cursorStyle := cursorStyle s; cursorColor := cursorColor s;
     oimode := oimode s; oomode := oomode s; cells := cells s;
     focusEnable := focusEnable s; mouseEnabled := mouseEnabled s;
     wg := wg s; eventQ := eventQ s; stopQ := stopQ s;
     finiOnce := finiOnce s |}.

Definition set_scandone (v : chanState) (s : cScreen) : cScreen :=
  {| s_in := s_in s; s_out := s_out s; cancelflag := cancelflag s;
     scandone := v; quit := quit s; curx := curx s; cury := cury s;
     s_style := s_style s; fini := fini s; vten := vten s;
     truecolor := truecolor s; running := running s;
     disableAlt := disableAlt s; title := title s; s_w := s_w s;
     s_h := s_h s; oscreen := oscreen s; ocursor := ocursor s;
     cursorStyle := cursorStyle s; cursorColor := cursorColor s;
     oimode := oimode s; oomode := oomode s; cells := cells s;
     focusEnable := focusEnable s; mouseEnabled := mouseEnabled s;
     wg := wg s; eventQ := eventQ s; stopQ := stopQ s;
     finiOnce := finiOnce s |}.

Definition set_quit (v : chanState) (s : cScreen) : cScreen :=
  {| s_in := s_in s; s_out := s_out s; cancelflag := cancelflag s;
     scandone := scandone s; quit := v; curx := curx s; cury := cury s;
     s_style := s_style s; fini := fini s; vten := vten s;
     truecolor := truecolor s; running := running s;
     disableAlt := disableAlt s; title := title s; s_w := s_w s;
     s_h := s_h s; oscreen := oscreen s; ocursor := ocursor s;
     cursorStyle := cursorStyle s; cursorColor := cursorColor s;
     oimode := oimode s; oomode := oomode s; cells := cells s;
     focusEnable := focusEnable s; mouseEnabled := mouseEnabled s;
     wg := wg s; eventQ := eventQ s; stopQ := stopQ s;
     finiOnce := finiOnce s |}.

Definition set_curx (v : Z) (s : cScreen) : cScreen :=
  {| s_in := s_in s; s_out := s_out s; cancelflag := cancelflag s;
     scandone := scandone s; quit := quit s; curx := v; cury := cury s;
     s_style := s_style s; fini := fini s; vten := vten s;
     truecolor := truecolor s; running := running s;
     disableAlt := disableAlt s; title := title s; s_w := s_w s;
     s_h := s_h s; oscreen := oscreen s; ocursor := ocursor s;
     cursorStyle := cursorStyle s; cursorColor := cursorColor s;
     oimode := oimode s; oomode := oomode s; cells := cells s;
     focusEnable := focusEnable s; mouseEnabled := mouseEnabled s;
     wg := wg s; eventQ := eventQ s; stopQ := stopQ s;
     finiOnce := finiOnce s |}.

Definition set_cury (v : Z) (s : cScreen) : cScreen :=
  {| s_in := s_in s; s_out := s_out s; cancelflag := cancelflag s;
     scandone := scandone s; quit := quit s; curx := curx s; cury := v;
     s_style := s_style s; fini := fini s; vten := vten s;
     truecolor := truecolor s; running := running s;
     disableAlt := disableAlt s; title := title s; s_w := s_w s;
     s_h := s_h s; oscreen := oscreen s; ocursor := ocursor s;
     cursorStyle := cursorStyle s; cursorColor := cursorColor s;
     oimode := oimode s; oomode := oomode s; cells := cells s;
     focusEnable := focusEnable s; mouseEnabled := mouseEnabled s;
     wg := wg s; eventQ := eventQ s; stopQ := stopQ s;
     finiOnce := finiOnce s |}.

Definition set_s_style (v : Style) (s : cScreen) : cScreen :=
  {| s_in := s_in s; s_out := s_out s; cancelflag := cancelflag s;
     scandone := scandone s; quit := quit s; curx := curx s;
     cury := cury s; s_style := v; fini := fini s; vten := vten s;
     truecolor := truecolor s; running := running s;
     disableAlt := disableAlt s; title := title s; s_w := s_w s;
     s_h := s_h s; oscreen := oscreen s; ocursor := ocursor s;
     cursorStyle := cursorStyle s; cursorColor := cursorColor s;
     oimode := oimode s; oomode := oomode s; cells := cells s;
     focusEnable := focusEnable s; mouseEnabled := mouseEnabled s;
     wg := wg s; eventQ := eventQ s; stopQ := stopQ s;
     finiOnce := finiOnce s |}.

Definition set_fini (v : bool) (s : cScreen) : cScreen :=
  {| s_in := s_in s; s_out := s_out s; cancelflag := cancelflag s;
     scandone := scandone s; quit := quit s; curx := curx s;
     cury := cury s; s_style := s_style s; fini := v; vten := vten s;
     truecolor := truecolor s; running := running s;
     disableAlt := disableAlt s; title := title s; s_w := s_w s;
     s_h := s_h s; oscreen := oscreen s; ocursor := ocursor s;
     cursorStyle := cursorStyle s; cursorColor := cursorColor s;
     oimode := oimode s; oomode := oomode s; cells := cells s;
     focusEnable := focusEnable s; mouseEnabled := mouseEnabled s;
     wg := wg s; eventQ := eventQ s; stopQ := stopQ s;
     finiOnce := finiOnce s |}.

Definition set_vten (v : bool) (s : cScreen) : cScreen :=
  {| s_in := s_in s; s_out := s_out s; cancelflag := cancelflag s;
     scandone := scandone s; quit := quit s; curx := curx s;
     cury := cury s; s_style := s_style s; fini := fini s; vten := v;
     truecolor := truecolor s; running := running s;
     disableAlt := disableAlt s; title := title s; s_w := s_w s;
     s_h := s_h s; oscreen := oscreen s; ocursor := ocursor s;
     cursorStyle := cursorStyle s; cursorColor := cursorColor s;
     oimode := oimode s; oomode := oomode s; cells := cells s;
     focusEnable := focusEnable s; mouseEnabled := mouseEnabled s;
     wg := wg s; eventQ := eventQ s; stopQ := stopQ s;
     finiOnce := finiOnce s |}.

Definition set_truecolor (v : bool) (s : cScreen) : cScreen :=
  {| s_in := s_in s; s_out := s_out s; cancelflag := cancelflag s;
     scandone := scandone s; quit := quit s; curx := curx s;
     cury := cury s; s_style := s_style s; fini := fini s; vten := vten s;
     truecolor := v; running := running s; disableAlt := disableAlt s;
     title := title s; s_w := s_w s; s_h := s_h s; oscreen := oscreen s;
     ocursor := ocursor s; cursorStyle := cursorStyle s;
     cursorColor := cursorColor s; oimode := oimode s; oomode := oomode s;
     cells := cells s; focusEnable := focusEnable s;
     mouseEnabled := mouseEnabled s; wg := wg s; eventQ := eventQ s;
     stopQ := stopQ s; finiOnce := finiOnce s |}.

Definition set_running (v : bool) (s : cScreen) : cScreen :=
  {| s_in := s_in s; s_out := s_out s; cancelflag := cancelflag s;
     scandone := scandone s; quit := quit s; curx := curx s;
     cury := cury s; s_style := s_style s; fini := fini s; vten := vten s;
     truecolor := truecolor s; running := v; disableAlt := disableAlt s;
     title := title s; s_w := s_w s; s_h := s_h s; oscreen := oscreen s;
     ocursor := ocursor s; cursorStyle := cursorStyle s;
     cursorColor := cursorColor s; oimode := oimode s; oomode := oomode s;
     cells := cells s; focusEnable := focusEnable s;
     mouseEnabled := mouseEnabled s; wg := wg s; eventQ := eventQ s;
     stopQ := stopQ s; finiOnce := finiOnce s |}.

Definition set_disableAlt (v : bool) (s : cScreen) : cScreen :=
  {| s_in := s_in s; s_out := s_out s; cancelflag := cancelflag s;
     scandone := scandone s; quit := quit s; curx := curx s;
     cury := cury s; s_style := s_style s; fini := fini s; vten := vten s;
     truecolor := truecolor s; running := running s; disableAlt := v;
     title := title s; s_w := s_w s; s_h := s_h s; oscreen := oscreen s;
     ocursor := ocursor s; cursorStyle := cursorStyle s;
     cursorColor := cursorColor s; oimode := oimode s; oomode := oomode s;
     cells := cells s; focusEnable := focusEnable s;
     mouseEnabled := mouseEnabled s; wg := wg s; eventQ := eventQ s;
     stopQ := stopQ s; finiOnce := finiOnce s |}.

Definition set_title (v : string) (s : cScreen) : cScreen :=
  {| s_in := s_in s; s_out := s_out s; cancelflag := cancelflag s;
     scandone := scandone s; quit := quit s; curx := curx s;
     cury := cury s; s_style := s_style s; fini := fini s; vten := vten s;
     truecolor := truecolor s; running := running s;
     disableAlt := disableAlt s; title := v; s_w := s_w s; s_h := s_h s;
     oscreen := oscreen s; ocursor := ocursor s;
     cursorStyle := cursorStyle s; cursorColor := cursorColor s;
     oimode := oimode s; oomode := oomode s; cells := cells s;
     focusEnable := focusEnable s; mouseEnabled := mouseEnabled s;
     wg := wg s; eventQ := eventQ s; stopQ := stopQ s;
     finiOnce := finiOnce s |}.

Definition set_s_w (v : Z) (s : cScreen) : cScreen :=
  {| s_in := s_in s; s_out := s_out s; cancelflag := cancelflag s;
     scandone := scandone s; quit := quit s; curx := curx s;
     cury := cury s; s_style := s_style s; fini := fini s; vten := vten s;
     truecolor := truecolor s; running := running s;
     disableAlt := disableAlt s; title := title s; s_w := v; s_h := s_h s;
     oscreen := oscreen s; ocursor := ocursor s;
     cursorStyle := cursorStyle s; cursorColor := cursorColor s;
     oimode := oimode s; oomode := oomode s; cells := cells s;
     focusEnable := focusEnable s; mouseEnabled := mouseEnabled s;
     wg := wg s; eventQ := eventQ s; stopQ := stopQ s;
     finiOnce := finiOnce s |}.

Definition set_s_h (v : Z) (s : cScreen) : cScreen :=
  {| s_in := s_in s; s_out := s_out s; cancelflag := cancelflag s;
     scandone := scandone s; quit := quit s; curx := curx s;
     cury := cury s; s_style := s_style s; fini := fini s; vten := vten s;
     truecolor := truecolor s; running := running s;
     disableAlt := disableAlt s; title := title s; s_w := s_w s; s_h := v;
     oscreen := oscreen s; ocursor := ocursor s;
     cursorStyle := cursorStyle s; cursorColor := cursorColor s;
     oimode := oimode s; oomode := oomode s; cells := cells s;
     focusEnable := focusEnable s; mouseEnabled := mouseEnabled s;
     wg := wg s; eventQ := eventQ s; stopQ := stopQ s;
     finiOnce := finiOnce s |}.

Definition set_oscreen (v : consoleInfo) (s : cScreen) : cScreen :=
  {| s_in := s_in s; s_out := s_out s; cancelflag := cancelflag s;
     scandone := scandone s; quit := quit s; curx := curx s;
     cury := cury s; s_style := s_style s; fini := fini s; vten := vten s;
     truecolor := truecolor s; running := running s;
     disableAlt := disableAlt s; title := title s; s_w := s_w s;
     s_h := s_h s; oscreen := v; ocursor := ocursor s;
     cursorStyle := cursorStyle s; cursorColor := cursorColor s;
     oimode := oimode s; oomode := oomode s; cells := cells s;
     focusEnable := focusEnable s; mouseEnabled := mouseEnabled s;
     wg := wg s; eventQ := eventQ s; stopQ := stopQ s;
     finiOnce := finiOnce s |}.

Definition set_ocursor (v : cursorInfo) (s : cScreen) : cScreen :=
  {| s_in := s_in s; s_out := s_out s; cancelflag := cancelflag s;
     scandone := scandone s; quit := quit s; curx := curx s;
     cury := cury s; s_style := s_style s; fini := fini s; vten := vten s;
     truecolor := truecolor s; running := running s;
     disableAlt := disableAlt s; title := title s; s_w := s_w s;
     s_h := s_h s; oscreen := oscreen s; ocursor := v;
     cursorStyle := cursorStyle s; cursorColor := cursorColor s;
     oimode := oimode s; oomode := oomode s; cells := cells s;
     focusEnable := focusEnable s; mouseEnabled := mouseEnabled s;
     wg := wg s; eventQ := eventQ s; stopQ := stopQ s;
     finiOnce := finiOnce s |}.

Definition set_cursorStyle (v : Z) (s : cScreen) : cScreen :=
  {| s_in := s_in s; s_out := s_out s; cancelflag := cancelflag s;
     scandone := scandone s; quit := quit s; curx := curx s;
     cury := cury s; s_style := s_style s; fini := fini s; vten := vten s;
     truecolor := truecolor s; running := running s;
     disableAlt := disableAlt s; title := title s; s_w := s_w s;
     s_h := s_h s; oscreen := oscreen s; ocursor := ocursor s;
     cursorStyle := v; cursorColor := cursorColor s; oimode := oimode s;
     oomode := oomode s; cells := cells s; focusEnable := focusEnable s;
     mouseEnabled := mouseEnabled s; wg := wg s; eventQ := eventQ s;
     stopQ := stopQ s; finiOnce := finiOnce s |}.

Definition set_cursorColor (v : Z) (s : cScreen) : cScreen :=
  {| s_in := s_in s; s_out := s_out s; cancelflag := cancelflag s;
     scandone := scandone s; quit := quit s; curx := curx s;
     cury := cury s; s_style := s_style s; fini := fini s; vten := vten s;
     truecolor := truecolor s; running := running s;
     disableAlt := disableAlt s; title := title s; s_w := s_w s;
     s_h := s_h s; oscreen := oscreen s; ocursor := ocursor s;
     cursorStyle := cursorStyle s; cursorColor := v; oimode := oimode s;
     oomode := oomode s; cells := cells s; focusEnable := focusEnable s;
     mouseEnabled := mouseEnabled s; wg := wg s; eventQ := eventQ s;
     stopQ := stopQ s; finiOnce := finiOnce s |}.

Definition set_oimode (v : Z) (s : cScreen) : cScreen :=
  {| s_in := s_in s; s_out := s_out s; cancelflag := cancelflag s;
     scandone := scandone s; quit := quit s; curx := curx s;
     cury := cury s; s_style := s_style s; fini := fini s; vten := vten s;
     truecolor := truecolor s; running := running s;
     disableAlt := disableAlt s; title := title s; s_w := s_w s;
     s_h := s_h s; oscreen := oscreen s; ocursor := ocursor s;
     cursorStyle := cursorStyle s; cursorColor := cursorColor s;
     oimode := v; oomode := oomode s; cells := cells s;
     focusEnable := focusEnable s; mouseEnabled := mouseEnabled s;
     wg := wg s; eventQ := eventQ s; stopQ := stopQ s;
     finiOnce := finiOnce s |}.

Definition set_oomode (v : Z) (s : cScreen) : cScreen :=
  {| s_in := s_in s; s_out := s_out s; cancelflag := cancelflag s;
     scandone := scandone s; quit := quit s; curx := curx s;
     cury := cury s; s_style := s_style s; fini := fini s; vten := vten s;
     truecolor := truecolor s; running := running s;
     disableAlt := disableAlt s; title := title s; s_w := s_w s;
     s_h := s_h s; oscreen := oscreen s; ocursor := ocursor s;
     cursorStyle := cursorStyle s; cursorColor := cursorColor s;
     oimode := oimode s; oomode := v; cells := cells s;
     focusEnable := focusEnable s; mouseEnabled := mouseEnabled s;
     wg := wg s; eventQ := eventQ s; stopQ := stopQ s;
     finiOnce := finiOnce s |}.

Definition set_cells (v : CellBuffer) (s : cScreen) : cScreen :=
  {| s_in := s_in s; s_out := s_out s; cancelflag := cancelflag s;
     scandone := scandone s; quit := quit s; curx := curx s;
     cury := cury s; s_style := s_style s; fini := fini s; vten := vten s;
     truecolor := truecolor s; running := running s;
     disableAlt := disableAlt s; title := title s; s_w := s_w s;
     s_h := s_h s; oscreen := oscreen s; ocursor := ocursor s;
     cursorStyle := cursorStyle s; cursorColor := cursorColor s;
     oimode := oimode s; oomode := oomode s; cells := v;
     focusEnable := focusEnable s; mouseEnabled := mouseEnabled s;
     wg := wg s; eventQ := eventQ s; stopQ := stopQ s;
     finiOnce := finiOnce s |}.

Definition set_focusEnable (v : bool) (s : cScreen) : cScreen :=
  {| s_in := s_in s; s_out := s_out s; cancelflag := cancelflag s;
     scandone := scandone s; quit := quit s; curx := curx s;
     cury := cury s; s_style := s_style s; fini := fini s; vten := vten s;
     truecolor := truecolor s; running := running s;
     disableAlt := disableAlt s; title := title s; s_w := s_w s;
     s_h := s_h s; oscreen := oscreen s; ocursor := ocursor s;
     cursorStyle := cursorStyle s; cursorColor := cursorColor s;
     oimode := oimode s; oomode := oomode s; cells := cells s;
     focusEnable := v; mouseEnabled := mouseEnabled s; wg := wg s;
     eventQ := eventQ s; stopQ := stopQ s; finiOnce := finiOnce s |}.

Definition set_mouseEnabled (v : bool) (s : cScreen) : cScreen :=
  {| s_in := s_in s; s_out := s_out s; cancelflag := cancelflag s;
     scandone := scandone s; quit := quit s; curx := curx s;
     cury := cury s; s_style := s_style s; fini := fini s; vten := vten s;
     truecolor := truecolor s; running := running s;
     disableAlt := disableAlt s; title := title s; s_w := s_w s;
     s_h := s_h s; oscreen := oscreen s; ocursor := ocursor s;
     cursorStyle := cursorStyle s; cursorColor := cursorColor s;
     oimode := oimode s; oomode := oomode s; cells := cells s;
     focusEnable := focusEnable s; mouseEnabled := v; wg := wg s;
     eventQ := eventQ s; stopQ := stopQ s; finiOnce := finiOnce s |}.

Definition set_wg (v : Z) (s : cScreen) : cScreen :=
  {| s_in := s_in s; s_out := s_out s; cancelflag := cancelflag s;
     scandone := scandone s; quit := quit s; curx := curx s;
     cury := cury s; s_style := s_style s; fini := fini s; vten := vten s;
     truecolor := truecolor s; running := running s;
     disableAlt := disableAlt s; title := title s; s_w := s_w s;
     s_h := s_h s; oscreen := oscreen s; ocursor := ocursor s;
     cursorStyle := cursorStyle s; cursorColor := cursorColor s;
     oimode := oimode s; oomode := oomode s; cells := cells s;
     focusEnable := focusEnable s; mouseEnabled := mouseEnabled s; wg := v;
     eventQ := eventQ s; stopQ := stopQ s; finiOnce := finiOnce s |}.

Definition set_eventQ (v : option (list Event)) (s : cScreen) : cScreen :=
  {| s_in := s_in s; s_out := s_out s; cancelflag := cancelflag s;
     scandone := scandone s; quit := quit s; curx := curx s;
     cury := cury s; s_style := s_style s; fini := fini s; vten := vten s;
     truecolor := truecolor s; running := running s;
     disableAlt := disableAlt s; title := title s; s_w := s_w s;
     s_h := s_h s; oscreen := oscreen s; ocursor := ocursor s;
     cursorStyle := cursorStyle s; cursorColor := cursorColor s;
     oimode := oimode s; oomode := oomode s; cells := cells s;
     focusEnable := focusEnable s; mouseEnabled := mouseEnabled s;
     wg := wg s; eventQ := v; stopQ := stopQ s; finiOnce := finiOnce s |}.

Definition set_stopQ (v : chanState) (s : cScreen) : cScreen :=
  {| s_in := s_in s; s_out := s_out s; cancelflag := cancelflag s;
     scandone := scandone s; quit := quit s; curx := curx s;
     cury := cury s; s_style := s_style s; fini := fini s; vten := vten s;
     truecolor := truecolor s; running := running s;
     disableAlt := disableAlt s; title := title s; s_w := s_w s;
     s_h := s_h s; oscreen := oscreen s; ocursor := ocursor s;
     cursorStyle := cursorStyle s; cursorColor := cursorColor s;
     oimode := oimode s; oomode := oomode s; cells := cells s;
     focusEnable := focusEnable s; mouseEnabled := mouseEnabled s;
     wg := wg s; eventQ := eventQ s; stopQ := v; finiOnce := finiOnce s |}.

Definition set_finiOnce (v : bool) (s : cScreen) : cScreen :=
  {| s_in := s_in s; s_out := s_out s; cancelflag := cancelflag s;
     scandone := scandone s; quit := quit s; curx := curx s;
     cury := cury s; s_style := s_style s; fini := fini s; vten := vten s;
     truecolor := truecolor s; running := running s;
     disableAlt := disableAlt s; title := title s; s_w := s_w s;
     s_h := s_h s; oscreen := oscreen s; ocursor := ocursor s;
     cursorStyle := cursorStyle s; cursorColor := cursorColor s;
     oimode := oimode s; oomode := oomode s; cells := cells s;
     focusEnable := focusEnable s; mouseEnabled := mouseEnabled s;
     wg := wg s; eventQ := eventQ s; stopQ := stopQ s; finiOnce := v |}.

(** ** Escape sequences

    VT100/XTerm escapes understood by the console.  A format with verbs
    is the function of its arguments that [fmt.Sprintf] computes. *)

Definition ESC : string := String (Ascii.ascii_of_nat 27) "".
Definition BEL : string := String (Ascii.ascii_of_nat 7) "".
Definition BSL : string := String (Ascii.ascii_of_nat 92) "".

(** The verb [%d]. *)
Definition fmt_d (z : Z) : string :=
  DecimalString.NilZero.string_of_int (Z.to_int z).

(** The verb [%02x]. *)
Definition fmt_02x (z : Z) : string :=
  let hex (n : Z) :=
    HexadecimalString.NilZero.string_of_uint (N.to_hex_uint (Z.to_N n)) in
  if z <? 0 then "-" +:+ hex (- z)
  else if z <? 16 then "0" +:+ hex z
  else hex z.

Definition vtShowCursor : string := ESC +:+ "[?25h".
Definition vtHideCursor : string := ESC +:+ "[?25l".
(** Note that it is Y then X *)
Definition vtCursorPos (y x : Z) : string :=
  ESC +:+ "[" +:+ fmt_d y +:+ ";" +:+ fmt_d x +:+ "H".
Definition vtSgr0 : string := ESC +:+ "[0m".
Definition vtBold : string := ESC +:+ "[1m".
Definition vtUnderline : string := ESC +:+ "[4m".
Definition vtBlink : string := ESC +:+ "[5m".
Definition vtReverse : string := ESC +:+ "[7m".
Definition vtSetFg (n : Z) : string := ESC +:+ "[38;5;" +:+ fmt_d n +:+ "m".
Definition vtSetBg (n : Z) : string := ESC +:+ "[48;5;" +:+ fmt_d n +:+ "m".
Definition vtSetFgRGB (r g b : Z) : string :=
  ESC +:+ "[38;2;" +:+ fmt_d r +:+ ";" +:+ fmt_d g +:+ ";" +:+ fmt_d b
      +:+ "m".
Definition vtSetBgRGB (r g b : Z) : string :=
  ESC +:+ "[48;2;" +:+ fmt_d r +:+ ";" +:+ fmt_d g +:+ ";" +:+ fmt_d b
      +:+ "m".
Definition vtCursorDefault : string := ESC +:+ "[0 q".
Definition vtCursorBlinkingBlock : string := ESC +:+ "[1 q".
Definition vtCursorSteadyBlock : string := ESC +:+ "[2 q".
Definition vtCursorBlinkingUnderline : string := ESC +:+ "[3 q".
Definition vtCursorSteadyUnderline : string := ESC +:+ "[4 q".
Definition vtCursorBlinkingBar : string := ESC +:+ "[5 q".
Definition vtCursorSteadyBar : string := ESC +:+ "[6 q".
Definition vtDisableAm : string := ESC +:+ "[?7l".
Definition vtEnableAm : string := ESC +:+ "[?7h".
Definition vtEnterCA : string := ESC +:+ "[?1049h" +:+ ESC +:+ "[22;0;0t".
Definition vtExitCA : string := ESC +:+ "[?1049l" +:+ ESC +:+ "[23;0;0t".
Definition vtDoubleUnderline : string := ESC +:+ "[4:2m".
Definition vtCurlyUnderline : string := ESC +:+ "[4:3m".
Definition vtDottedUnderline : string := ESC +:+ "[4:4m".
Definition vtDashedUnderline : string := ESC +:+ "[4:5m".
Definition vtUnderColor (n : Z) : string :=
  ESC +:+ "[58:5:" +:+ fmt_d n +:+ "m".
Definition vtUnderColorRGB (r g b : Z) : string :=
  ESC +:+ "[58:2::" +:+ fmt_d r +:+ ":" +:+ fmt_d g +:+ ":" +:+ fmt_d b
      +:+ "m".
Definition vtUnderColorReset : string := ESC +:+ "[59m".
(** NB arg 1 is id, arg 2 is url *)
Definition vtEnterUrl (id u : string) : string :=
  ESC +:+ "]8;" +:+ id +:+ ";" +:+ u +:+ ESC +:+ BSL.
Definition vtExitUrl : string := ESC +:+ "]8;;" +:+ ESC +:+ BSL.
Definition vtCursorColorRGB (r g b : Z) : string :=
  ESC +:+ "]12;#" +:+ fmt_02x r +:+ fmt_02x g +:+ fmt_02x b +:+ BEL.
Definition vtCursorColorReset : string := ESC +:+ "]112" +:+ BEL.
Definition vtSaveTitle : string := ESC +:+ "[22;2t".
Definition vtRestoreTitle : string := ESC +:+ "[23;2t".
Definition vtSetTitle (t : string) : string :=
  ESC +:+ "]2;" +:+ t +:+ ESC +:+ BSL.

Definition vtCursorStyles_entries : list (Z * string) :=
  [ (CursorStyleDefault, vtCursorDefault);
    (CursorStyleBlinkingBlock, vtCursorBlinkingBlock);
    (CursorStyleSteadyBlock, vtCursorSteadyBlock);
    (CursorStyleBlinkingUnderline, vtCursorBlinkingUnderline);
    (CursorStyleSteadyUnderline, vtCursorSteadyUnderline);
    (CursorStyleBlinkingBar, vtCursorBlinkingBar);
    (CursorStyleSteadyBar, vtCursorSteadyBar) ].

Definition vtCursorStyles : gmap Z string :=
  list_to_map vtCursorStyles_entries.

(** Input modes *)
Definition modeExtendFlg : Z := 0x0080.
Definition modeMouseEn : Z := 0x0010.
Definition modeResizeEn : Z := 0x0008.
(** Output modes *)
Definition modeCookedOut : Z := 0x0001.
Definition modeVtOutput : Z := 0x0004.
Definition modeNoAutoNL : Z := 0x0008.
Definition modeUnderline : Z := 0x0010.

Definition winPalette : list Z :=
  [ ColorBlack; ColorMaroon; ColorGreen; ColorNavy; ColorOlive;
    ColorPurple; ColorTeal; ColorSilver; ColorGray; ColorRed; ColorLime;
    ColorBlue; ColorYellow; ColorFuchsia; ColorAqua; ColorWhite ].

(** The initial contents of the [winColors] cache. *)
Definition winColors_init : gmap Z Z :=
  list_to_map ((λ c, (c, c)) <$> winPalette).

Definition vgaColors_entries : list (Z * Z) :=
  [ (ColorBlack, 0); (ColorMaroon, 0x4); (ColorGreen, 0x2);
    (ColorNavy, 0x1); (ColorOlive, 0x6); (ColorPurple, 0x5);
    (ColorTeal, 0x3); (ColorSilver, 0x7); (ColorGrey, 0x8);
    (ColorRed, 0xc); (ColorLime, 0xa); (ColorBlue, 0x9);
    (ColorYellow, 0xe); (ColorFuchsia, 0xd); (ColorAqua, 0xb);
    (ColorWhite, 0xf) ].

Definition vgaColors : gmap Z Z := list_to_map vgaColors_entries.

(** [utf16.Encode] of the Go library: a code point of the basic plane is
    one unit, one above it a surrogate pair, anything else U+FFFD. *)
Definition utf16_EncodeRune (r : Z) : list Z :=
  if (0x10000 <=? r) && (r <=? 0x10FFFF) then
    let r' := r - 0x10000 in
    [0xd800 + Z.land (r' ≫ 10) 0x3ff; 0xdc00 + Z.land r' 0x3ff]
  else if ((0 <=? r) && (r <? 0xd800)) || ((0xe000 <=? r) && (r <? 0x10000))
  then [r]
  else [0xfffd].

Definition utf16_Encode (s : list Z) : list Z := s ≫= utf16_EncodeRune.

(** ** The host console

    The calls that change the console, as the driver issues them.  The
    first argument of a console call is the handle it is made on. *)
Inductive Call : Type :=
| syscall_Open (name : string)
| syscall_Close (h : Z)
| CreateEvent
| SetEvent (h : Z)
| SetConsoleCursorInfo (h : Z) (info : cursorInfo)
| SetConsoleCursorPosition (h : Z) (pos : Z)
| SetConsoleMode (h : Z) (mode : Z)
| FillConsoleOutputAttribute (h : Z) (attr count pos : Z)
| FillConsoleOutputCharacter (h : Z) (ch count pos : Z)
| SetConsoleWindowInfo (h : Z) (absolute : Z) (r : rect)
| SetConsoleScreenBufferSize (h : Z) (size : Z)
| SetConsoleTextAttribute (h : Z) (attr : Z)
| WriteConsole (h : Z) (buf : list Z).

(** What the driver reads from its host: the process environment, the
    results of opening a console path and of creating the cancellation
    event, and the console queries.  A query that fails answers [None]
    and leaves the caller's structure as it was.  [host_step] is the
    effect of a call on the host. *)
Class Console (H : Type) : Type := {
  host_step : Call → H → H;
  os_Getenv : H → string → string;
  host_Open : H → string → Z * option error;
  host_CreateEvent : H → Z * error;
  GetConsoleCursorInfo : H → Z → option cursorInfo;
  GetConsoleScreenBufferInfo : H → Z → option consoleInfo;
  GetConsoleMode : H → Z → option Z;
  GetLargestConsoleWindowSize : H → Z → Z
}.

(** What the driver uses of the Go runtime and of its collaborators: the
    conversion [[]rune(s)], the width in columns of a glyph, the methods
    [Valid], [IsRGB] and [RGB] of a color of color.go, and the
    nearest-color search [FindColor]. *)
Class Runtime : Type := {
  runes : string → list Z;
  rune_width : Z → list Z → nat;
  Color_Valid : Z → bool;
  Color_IsRGB : Z → bool;
  Color_RGB : Z → Z * Z * Z;
  FindColor : Z → list Z → Z
}.

(** ** The driver *)

Section driver.
Context `{RT : Runtime} {H : Type} `{CH : !Console H}.

(** Modelled from the spec: [SetContent(x,y,main,combining,style)] of
    cell.go stores the tuple with the width of the glyph and dirties the
    cell when the content or the style changed; out of range it does
    nothing. *)
Definition SetContent (cb : CellBuffer) (x y : Z) (mainc : Z)
    (combc : list Z) (style : Style) : CellBuffer :=
  if cb_in_range cb x y then
    {| cb_w := cb_w cb; cb_h := cb_h cb;
       cb_cells :=
         alter
           (λ c,
              {| c_mainc := mainc; c_combc := combc; c_style := style;
                 c_width := rune_width mainc combc;
                 c_dirty :=
                   if decide (c_mainc c = mainc ∧ c_combc c = combc
                              ∧ c_style c = style)
                   then c_dirty c else true |})
           (cb_index cb x y) (cb_cells cb) |}
  else cb.

(** The state the driver runs in: the screen, the host console, the log
    of calls made so far and the process-wide [winColors] cache. *)
Record World : Type := {
  scr : cScreen;
  host : H;
  trace : list Call;
  winColors : gmap Z Z
}.

(** A computation on the world; [None] is a Go panic. *)
Definition M (A : Type) : Type := World → option (A * World).

#[global] Instance M_ret : MRet M := λ A a w, Some (a, w).
#[global] Instance M_bind : MBind M := λ A B k m w,
  match m w with
  | Some (a, w') => k a w'
  | None => None
  end.

Definition panic {A : Type} : M A := λ _, None.

Definition get_s : M cScreen := λ w, Some (scr w, w).

Definition modify_s (f : cScreen → cScreen) : M unit := λ w,
  Some (tt, {| scr := f (scr w); host := host w; trace := trace w;
               winColors := winColors w |}).

(** Read the host. *)
Definition ask {A : Type} (q : H → A) : M A := λ w, Some (q (host w), w).

(** Make a call on the host and log it. *)
Definition call (c : Call) : M unit := λ w,
  Some (tt, {| scr := scr w; host := host_step c (host w);
               trace := trace w ++ [c]; winColors := winColors w |}).

Definition get_winColors : M (gmap Z Z) := λ w, Some (winColors w, w).

Definition put_winColors (m : gmap Z Z) : M unit := λ w,
  Some (tt, {| scr := scr w; host := host w; trace := trace w;
               winColors := m |}).

(** A counted loop [for i := range l]. *)
Fixpoint forM (l : list Z) (body : Z → M unit) : M unit :=
  match l with
  | [] => mret tt
  | i :: l' => body i ;; forM l' body
  end.

(** [close(c)] panics on a nil or closed channel. *)
Definition close (c : chanState) : M chanState :=
  match c with
  | ChanOpen => mret ChanClosed
  | _ => panic
  end.

Definition emitVtString (vs : string) : M unit :=
  let esc := utf16_Encode (runes vs) in
  match esc with
  | [] => panic
  | _ => s ← get_s; call (WriteConsole (s_out s) esc)
  end.

Definition setCursorInfo (info : cursorInfo) : M unit :=
  s ← get_s; call (SetConsoleCursorInfo (s_out s) info).

Definition setCursorPos (x y : Z) (vtEnable : bool) : M unit :=
  if vtEnable then emitVtString (vtCursorPos (y + 1) (x + 1))
  else
    s ← get_s;
    call (SetConsoleCursorPosition (s_out s)
            (coord_uintptr {| co_x := int16 x; co_y := int16 y |})).

Definition setBufferSize (x y : Z) : M unit :=
  s ← get_s;
  call (SetConsoleScreenBufferSize (s_out s)
          (coord_uintptr {| co_x := int16 x; co_y := int16 y |})).

Definition setInMode (mode : Z) : M unit :=
  s ← get_s; call (SetConsoleMode (s_in s) mode).

Definition setOutMode (mode : Z) : M unit :=
  s ← get_s; call (SetConsoleMode (s_out s) mode).

(** The getters write through a pointer; here they return the new value
    of the structure, which is the old one when the query fails. *)
Definition getConsoleInfo (info : consoleInfo) : M consoleInfo :=
  s ← get_s;
  r ← ask (λ h, GetConsoleScreenBufferInfo h (s_out s));
  mret (default info r).

Definition getCursorInfo (info : cursorInfo) : M cursorInfo :=
  s ← get_s;
  r ← ask (λ h, GetConsoleCursorInfo h (s_out s));
  mret (default info r).

Definition getInMode (v : Z) : M Z :=
  s ← get_s;
  r ← ask (λ h, GetConsoleMode h (s_in s));
  mret (default v r).

Definition getOutMode (v : Z) : M Z :=
  s ← get_s;
  r ← ask (λ h, GetConsoleMode h (s_out s));
  mret (default v r).

Definition showCursor : M unit :=
  s ← get_s;
  if vten s then
    emitVtString vtShowCursor ;;
    emitVtString (default "" (vtCursorStyles !! cursorStyle s)) ;;
    if decide (cursorColor s = ColorReset) then
      emitVtString vtCursorColorReset
    else if Color_Valid (cursorColor s) then
      let '(r, g, b) := Color_RGB (cursorColor s) in
      emitVtString (vtCursorColorRGB r g b)
    else mret tt
  else setCursorInfo {| ci_size := 100; ci_visible := 1 |}.

Definition hideCursor : M unit :=
  s ← get_s;
  if vten s then emitVtString vtHideCursor
  else setCursorInfo {| ci_size := 1; ci_visible := 0 |}.

Definition doCursor : M unit :=
  s ← get_s;
  let x := curx s in
  let y := cury s in
  if (x <? 0) || (y <? 0) || (x >=? s_w s) || (y >=? s_h s) then hideCursor
  else setCursorPos x y (vten s) ;; showCursor.

Definition ShowCursor (x y : Z) : M unit :=
  s ← get_s;
  (if negb (fini s) then
     modify_s (set_curx x) ;; modify_s (set_cury y)
   else mret tt) ;;
  doCursor.

Definition SetCursor (cs : Z) (cc : Z) : M unit :=
  s ← get_s;
  if negb (fini s) then
    match vtCursorStyles !! cs with
    | Some _ =>
        modify_s (set_cursorStyle cs) ;;
        modify_s (set_cursorColor cc) ;;
        doCursor
    | None => mret tt
    end
  else mret tt.

Definition HideCursor : M unit := ShowCursor (-1) (-1).

Definition enableMouse (on : bool) : M unit :=
  if on then
    setInMode (Z.lor (Z.lor modeResizeEn modeMouseEn) modeExtendFlg)
  else setInMode (Z.lor modeResizeEn modeExtendFlg).

Definition EnableMouse : M unit :=
  modify_s (set_mouseEnabled true) ;; enableMouse true.

Definition DisableMouse : M unit :=
  modify_s (set_mouseEnabled false) ;; enableMouse false.

Definition EnableFocus : M unit := modify_s (set_focusEnable true).

Definition DisableFocus : M unit := modify_s (set_focusEnable false).

Definition Colors : M Z :=
  s ← get_s;
  if vten s then mret (1 ≪ 24) else mret 16.

(** Windows uses RGB signals.  The lookup is memoized in [winColors]. *)
Definition mapColor2RGB (c : Z) : M Z :=
  wc ← get_winColors;
  c ← match wc !! c with
      | Some v => mret v
      | None =>
          let v := FindColor c winPalette in
          put_winColors (<[c := v]> wc) ;; mret v
      end;
  match vgaColors !! c with
  | Some vc => mret vc
  | None => mret 0
  end.

(** Map a tcell style to Windows attributes. *)
Definition mapStyle (style : Style) : M Z :=
  s ← get_s;
  let f := fg style in
  let b := bg style in
  let a := attrs style in
  let fa := Z.land (i_attrs (oscreen s)) 0xf in
  let ba := Z.land (i_attrs (oscreen s) ≫ 4) 0xf in
  fa ← (if negb (bool_decide (f = ColorDefault))
           && negb (bool_decide (f = ColorReset))
        then mapColor2RGB f else mret fa);
  ba ← (if negb (bool_decide (b = ColorDefault))
           && negb (bool_decide (b = ColorReset))
        then mapColor2RGB b else mret ba);
  let attr :=
    if negb (Z.land a AttrReverse =? 0) then
      Z.lor ba (uint16 (fa ≪ 4))
    else
      Z.lor fa (uint16 (ba ≪ 4)) in
  let attr := if negb (Z.land a AttrBold =? 0) then Z.lor attr 0x8
              else attr in
  let attr := if negb (Z.land a AttrDim =? 0) then Z.ldiff attr 0x8
              else attr in
  let attr := if negb (Z.land a AttrUnderline =? 0) then Z.lor attr 0x8000
              else attr in
  mret attr.

Definition makeVtStyle (style : Style) : string :=
  let fg := fg style in
  let bg := bg style in
  let attrs := attrs style in
  let us := ulStyle style in
  let uc := ulColor style in
  let esc := vtSgr0 in
  let esc :=
    if decide (Z.land attrs (Z.lor AttrBold AttrDim) = AttrBold)
    then esc +:+ vtBold else esc in
  let esc :=
    if negb (Z.land attrs AttrBlink =? 0) then esc +:+ vtBlink else esc in
  let esc :=
    if negb (bool_decide (us = UnderlineStyleNone)) then
      let esc :=
        if decide (uc = ColorReset) then esc +:+ vtUnderColorReset
        else if Color_IsRGB uc then
          let '(r, g, b) := Color_RGB uc in esc +:+ vtUnderColorRGB r g b
        else if Color_Valid uc then esc +:+ vtUnderColor (Z.land uc 0xff)
        else esc in
      let esc := esc +:+ vtUnderline in
      if decide (us = UnderlineStyleSolid) then esc
      else if decide (us = UnderlineStyleDouble)
      then esc +:+ vtDoubleUnderline
      else if decide (us = UnderlineStyleCurly)
      then esc +:+ vtCurlyUnderline
      else if decide (us = UnderlineStyleDotted)
      then esc +:+ vtDottedUnderline
      else if decide (us = UnderlineStyleDashed)
      then esc +:+ vtDashedUnderline
      else esc
    else esc in
  let esc :=
    if negb (Z.land attrs AttrReverse =? 0) then esc +:+ vtReverse
    else esc in
  let esc :=
    if Color_IsRGB fg then
      let '(r, g, b) := Color_RGB fg in esc +:+ vtSetFgRGB r g b
    else if Color_Valid fg then esc +:+ vtSetFg (Z.land fg 0xff)
    else esc in
  let esc :=
    if Color_IsRGB bg then
      let '(r, g, b) := Color_RGB bg in esc +:+ vtSetBgRGB r g b
    else if Color_Valid bg then esc +:+ vtSetBg (Z.land bg 0xff)
    else esc in
  if negb (bool_decide (url style = "")) then
    esc +:+ vtEnterUrl (urlId style) (url style)
  else esc +:+ vtExitUrl.

Definition sendVtStyle (style : Style) : M unit :=
  emitVtString (makeVtStyle style).

(** we assume the caller has hidden the cursor *)
Definition writeString (x y : Z) (style : Style) (vtBuf ch : list Z)
  : M unit :=
  match ch with
  | [] => mret tt
  | _ =>
      s ← get_s;
      if vten s then
        let vtBuf :=
          vtBuf ++ utf16_Encode (runes (vtCursorPos (y + 1) (x + 1))) in
        let styleStr := makeVtStyle style in
        let vtBuf := vtBuf ++ utf16_Encode (runes styleStr) in
        let vtBuf := vtBuf ++ ch in
        call (WriteConsole (s_out s) vtBuf)
      else
        setCursorPos x y (vten s) ;;
        attr ← mapStyle style;
        call (SetConsoleTextAttribute (s_out s) attr) ;;
        call (WriteConsole (s_out s) ch)
  end.

(** The variables that [draw] carries from cell to cell: the code units
    queued so far, the style and the starting position of the run. *)
Record drawState : Type := {
  wcs : list Z;
  lstyle : Style;
  lx : Z;
  ly : Z
}.

(** The rest of the loop body for a dirty cell, after any flush: queue its
    glyph, clear its dirty bits.  Returns the column of the next turn. *)
Definition draw_emit (x y : Z) (mainc : Z) (combc : list Z) (style : Style)
    (width : Z) (d : drawState) : M (Z * drawState) :=
  s ← get_s;
  let '(mainc, combc, width) :=
    if x >? s_w s - width then (32, [], 1) else (mainc, combc, width) in
  let d :=
    if decide (length (wcs d) = 0%nat)
    then {| wcs := wcs d; lstyle := style; lx := x; ly := y |}
    else d in
  let wcs1 := wcs d ++ utf16_Encode [mainc] in
  let wcs2 :=
    if decide (length combc = 0%nat) then wcs1
    else wcs1 ++ utf16_Encode combc in
  forM (seqZ 0 width)
    (λ dx, modify_s (λ s, set_cells (SetDirty (cells s) (x + dx) y false) s)) ;;
  mret (x + (width - 1) + 1,
        {| wcs := wcs2; lstyle := lstyle d; lx := lx d; ly := ly d |}).

(** One turn of the loop over the columns of row [y]. *)
Definition draw_cell (vtBuf : list Z) (x y : Z) (d : drawState)
  : M (Z * drawState) :=
  s ← get_s;
  let '(mainc, combc, style, width) := GetContent (cells s) x y in
  let dirty := Dirty (cells s) x y in
  let style := if decide (style = StyleDefault) then s_style s else style in
  if negb dirty || negb (bool_decide (style = lstyle d)) then
    (* write out any data queued thus far *)
    writeString (lx d) (ly d) (lstyle d) vtBuf (wcs d) ;;
    let d := {| wcs := []; lstyle := StyleDefault; lx := lx d; ly := ly d |} in
    if negb dirty then mret (x + 1, d)
    else draw_emit x y mainc combc style width d
  else draw_emit x y mainc combc style width d.

(** The loop over the columns, from column [x] on.  A turn advances by at
    least one column, so [s.w - x] turns are enough; running out of turns
    is a failure. *)
Fixpoint draw_cols (fuel : nat) (vtBuf : list Z) (x y : Z) (d : drawState)
  : M drawState :=
  s ← get_s;
  if x <? s_w s then
    match fuel with
    | O => panic
    | S fuel' =>
        r ← draw_cell vtBuf x y d;
        draw_cols fuel' vtBuf (fst r) y (snd r)
    end
  else mret d.

(** One turn of the loop over the rows. *)
Definition draw_row (vtBuf : list Z) (y : Z) (d : drawState) : M drawState :=
  s ← get_s;
  d ← draw_cols (Z.to_nat (s_w s)) vtBuf 0 y d;
  writeString (lx d) (ly d) (lstyle d) vtBuf (wcs d) ;;
  mret {| wcs := []; lstyle := styleInvalid; lx := lx d; ly := ly d |}.

Fixpoint draw_rows (vtBuf : list Z) (ys : list Z) (d : drawState)
  : M drawState :=
  match ys with
  | [] => mret d
  | y :: ys' => d ← draw_row vtBuf y d; draw_rows vtBuf ys' d
  end.

(** [make] panics on a negative capacity. *)
Definition draw : M unit :=
  s ← get_s;
  if s_w s <? 0 then panic
  else
    let vtBuf : list Z := [] in
    let d := {| wcs := []; lstyle := styleInvalid; lx := -1; ly := -1 |} in
    draw_rows vtBuf (seqZ 0 (s_h s)) d ;;
    mret tt.

(** The non-blocking send of [resize]: the event is queued when the
    channel has room and dropped otherwise. *)
Definition try_send (ev : Event) (q : option (list Event))
  : option (list Event) :=
  match q with
  | Some l => if decide (length l < 10)%nat then Some (l ++ [ev]) else Some l
  | None => None
  end.

Definition resize : M unit :=
  info ← getConsoleInfo
    {| i_size := {| co_x := 0; co_y := 0 |};
       i_pos := {| co_x := 0; co_y := 0 |};
       i_attrs := 0;
       i_win := {| r_left := 0; r_top := 0; r_right := 0; r_bottom := 0 |};
       i_maxsz := {| co_x := 0; co_y := 0 |} |};
  let w := int16 (int16 (r_right (i_win info) - r_left (i_win info)) + 1) in
  let h := int16 (int16 (r_bottom (i_win info) - r_top (i_win info)) + 1) in
  s ← get_s;
  if (s_w s =? w) && (s_h s =? h) then mret tt
  else
    modify_s (λ s, set_cells (Resize (cells s) w h) s) ;;
    modify_s (set_s_w w) ;;
    modify_s (set_s_h h) ;;
    setBufferSize w h ;;
    let r := {| r_left := 0; r_top := 0; r_right := int16 (w - 1);
                r_bottom := int16 (h - 1) |} in
    s ← get_s;
    call (SetConsoleWindowInfo (s_out s) 1 r) ;;
    modify_s (λ s, set_eventQ (try_send (NewEventResize w h) (eventQ s)) s).

Definition Show : M unit :=
  s ← get_s;
  if negb (fini s) then
    hideCursor ;; resize ;; draw ;; doCursor
  else mret tt.

Definition Sync : M unit :=
  s ← get_s;
  if negb (fini s) then
    modify_s (λ s, set_cells (Invalidate (cells s)) s) ;;
    hideCursor ;; resize ;; draw ;; doCursor
  else mret tt.

Definition Size : M (Z * Z) :=
  s ← get_s; mret (s_w s, s_h s).

Definition SetSize (w h : Z) : M unit :=
  s ← get_s;
  xy ← ask (λ hst, uintptr (GetLargestConsoleWindowSize hst (s_out s)));
  (* xy is little endian packed *)
  let y := xy ≫ 16 in
  let x := Z.land xy 0xffff in
  if (x =? 0) || (y =? 0) then mret tt
  else if x >=? 500 then mret tt
  else
    setBufferSize x y ;;
    let r := {| r_left := 0; r_top := 0; r_right := int16 (w - 1);
                r_bottom := int16 (h - 1) |} in
    call (SetConsoleWindowInfo (s_out s) 1 r) ;;
    resize.

(** [strings.Repeat] panics on a negative count. *)
Definition strings_Repeat (t : string) (n : Z) : M string :=
  if n <? 0 then panic
  else mret (String.concat "" (replicate (Z.to_nat n) t)).

Definition clearScreen (style : Style) (vtEnable : bool) : M unit :=
  if vtEnable then
    sendVtStyle style ;;
    s ← get_s;
    row ← strings_Repeat " " (s_w s);
    forM (seqZ 0 (s_h s))
      (λ y, setCursorPos 0 y vtEnable ;; emitVtString row) ;;
    setCursorPos 0 0 vtEnable
  else
    let pos := {| co_x := 0; co_y := 0 |} in
    attr ← mapStyle style;
    s ← get_s;
    let count := uint32 (s_w s * s_h s) in
    call (FillConsoleOutputAttribute (s_out s) attr count
            (coord_uintptr pos)) ;;
    call (FillConsoleOutputCharacter (s_out s) 32 count (coord_uintptr pos)).

Definition SetStyle (style : Style) : M unit := modify_s (set_s_style style).

Definition SetTitle (t : string) : M unit :=
  modify_s (set_title t) ;;
  s ← get_s;
  if vten s then emitVtString (vtSetTitle t) else mret tt.

(** The scanner task is not run here: [engage] counts it in the wait
    group and [disengage], having signalled it, waits for it to finish. *)
Definition disengage : M unit :=
  s ← get_s;
  if negb (running s) then mret tt
  else
    modify_s (set_running false) ;;
    call (SetEvent (cancelflag s)) ;;
    c ← close (stopQ s);
    modify_s (set_stopQ c) ;;
    modify_s (set_wg 0) ;;
    s ← get_s;
    (if vten s then
       emitVtString (default "" (vtCursorStyles !! CursorStyleDefault)) ;;
       emitVtString vtCursorColorReset ;;
       emitVtString vtEnableAm ;;
       if negb (disableAlt s) then
         emitVtString vtRestoreTitle ;;
         emitVtString vtExitCA
       else mret tt
     else if negb (disableAlt s) then
       clearScreen StyleDefault (vten s) ;;
       setCursorPos 0 0 false
     else mret tt) ;;
    setCursorInfo (ocursor s) ;;
    setBufferSize (co_x (i_size (oscreen s))) (co_y (i_size (oscreen s))) ;;
    setInMode (oimode s) ;;
    setOutMode (oomode s) ;;
    attr ← mapStyle StyleDefault;
    call (SetConsoleTextAttribute (s_out s) attr).

Definition vt_out_mode : Z :=
  Z.lor (Z.lor (Z.lor modeVtOutput modeNoAutoNL) modeCookedOut) modeUnderline.

Definition engage : M (option error) :=
  s ← get_s;
  if running s then mret (Some (errorString "already engaged"))
  else
    modify_s (set_stopQ ChanOpen) ;;
    r ← ask host_CreateEvent;
    call CreateEvent ;;
    let '(cf, e) := r in
    if cf =? 0 then mret (Some e)
    else
      modify_s (set_running true) ;;
      modify_s (set_cancelflag cf) ;;
      enableMouse (mouseEnabled s) ;;
      (if vten s then
         setOutMode vt_out_mode ;;
         (if negb (disableAlt s) then
            emitVtString vtSaveTitle ;;
            emitVtString vtEnterCA
          else mret tt) ;;
         emitVtString vtDisableAm ;;
         if negb (bool_decide (title s = "")) then
           emitVtString (vtSetTitle (title s))
         else mret tt
       else setOutMode 0) ;;
      clearScreen (s_style s) (vten s) ;;
      hideCursor ;;
      modify_s (λ s, set_cells (Invalidate (cells s)) s) ;;
      hideCursor ;;
      resize ;;
      draw ;;
      doCursor ;;
      modify_s (λ s, set_wg (wg s + 1) s) ;;
      mret None.

(** [syscall.Open]: the host decides the handle and the error. *)
Definition Open (name : string) : M (Z * option error) :=
  r ← ask (λ h, host_Open h name);
  call (syscall_Open name) ;;
  mret r.

Definition Getenv (name : string) : M string :=
  ask (λ h, os_Getenv h name).

(** Init, the lines on the truecolor flag: the flag starts on, ConEmu
    turns it and the local [tryVt] off, and TCELL_TRUECOLOR has the last
    word.  Returns [tryVt]. *)
Definition Init_truecolor : M bool :=
  modify_s (set_truecolor true) ;;
  let tryVt := true in
  conemu ← Getenv "ConEmuPID";
  tryVt ← (if negb (bool_decide (conemu = "")) then
             modify_s (set_truecolor false) ;; mret false
           else mret tryVt);
  tc ← Getenv "TCELL_TRUECOLOR";
  if decide (tc = "disable") then
    modify_s (set_truecolor false) ;; mret tryVt
  else if decide (tc = "enable") then
    modify_s (set_truecolor true) ;; mret true
  else mret tryVt.

(** Init, the switch on TCELL_VTMODE.  Returns [tryVt]. *)
Definition Init_vtmode (tryVt : bool) : M bool :=
  vm ← Getenv "TCELL_VTMODE";
  if decide (vm = "disable") then mret false
  else if decide (vm = "enable") then mret true
  else mret tryVt.

(** Init, the VT attempt: ask for the VT output mode and read the mode
    back to see whether it stuck. *)
Definition Init_vt (tryVt : bool) : M unit :=
  if tryVt then
    setOutMode vt_out_mode ;;
    om ← getOutMode 0;
    if decide (Z.land om modeVtOutput = modeVtOutput) then
      modify_s (set_vten true)
    else
      modify_s (set_truecolor false) ;;
      setOutMode 0
  else setOutMode 0.

(** Init, from the capture of the original console state to engage. *)
Definition Init_console (tryVt : bool) : M (option error) :=
  modify_s (set_curx (-1)) ;;
  modify_s (set_cury (-1)) ;;
  modify_s (set_s_style StyleDefault) ;;
  s ← get_s;
  ci ← getCursorInfo (ocursor s);
  modify_s (set_ocursor ci) ;;
  info ← getConsoleInfo (oscreen s);
  modify_s (set_oscreen info) ;;
  om ← getOutMode (oomode s);
  modify_s (set_oomode om) ;;
  im ← getInMode (oimode s);
  modify_s (set_oimode im) ;;
  resize ;;
  modify_s (set_fini false) ;;
  setInMode (Z.lor modeResizeEn modeExtendFlg) ;;
  tryVt ← Init_vtmode tryVt;
  alt ← Getenv "TCELL_ALTSCREEN";
  (if decide (alt = "enable") then modify_s (set_disableAlt false)
   else if decide (alt = "disable") then modify_s (set_disableAlt true)
   else mret tt) ;;
  Init_vt tryVt ;;
  engage.

Definition Init : M (option error) :=
  modify_s (set_eventQ (Some [])) ;;
  modify_s (set_quit ChanOpen) ;;
  modify_s (set_scandone ChanOpen) ;;
  r ← Open "CONIN$";
  match snd r with
  | Some e => mret (Some e)
  | None =>
      modify_s (set_s_in (fst r)) ;;
      r ← Open "CONOUT$";
      match snd r with
      | Some e => s ← get_s; call (syscall_Close (s_in s)) ;; mret (Some e)
      | None =>
          modify_s (set_s_out (fst r)) ;;
          tryVt ← Init_truecolor;
          Init_console tryVt
      end
  end.

Definition Fini : M unit :=
  s ← get_s;
  if finiOnce s then mret tt
  else
    c ← close (quit s);
    modify_s (set_quit c) ;;
    disengage ;;
    modify_s (set_finiOnce true).

Definition Suspend : M (option error) := disengage ;; mret None.

Definition Resume : M (option error) := engage.

End driver.

(** ** The input scanner *)

(** What one wait-and-read on the console delivers to getConsoleInput:
    the result of the wait with its error, and the result, the error, the
    record and the record count of the read. *)
Record consoleRead : Type := {
  wait_rv : Z;
  wait_er : error;
  read_rv : Z;
  read_er : error;
  read_rec : inputRecord;
  read_nrec : Z
}.

(** getConsoleInput, as the error it returns and the events it hands to
    [postEvent], in order.  [postEvent] waits for room in the queue or for
    the quit channel; the delivery is not modelled. *)
Definition getConsoleInput (s : cScreen) (i : consoleRead)
  : option error * list Event :=
  if wait_rv i =? 0 then (Some (errorString "cancelled"), [])
  else if wait_rv i =? 0 + 1 then
    if read_rv i =? 0 then (Some (read_er i), [])
    else if negb (read_nrec i =? 1) then (None, [])
    else
      let rec := read_rec i in
      if typ rec =? keyEvent then
        (None, key_events (read_keyRecord rec))
      else if typ rec =? mouseEvent then
        let mrec :=
          {| m_x := geti16 (drop 0 (data rec));
             m_y := geti16 (drop 2 (data rec));
             m_btns := getu32 (drop 4 (data rec));
             m_mod := getu32 (drop 8 (data rec));
             m_flags := getu32 (drop 12 (data rec)) |} in
        let btns := mrec2btns (m_btns mrec) (m_flags mrec) in
        (None, [NewEventMouse (m_x mrec) (m_y mrec) btns
                  (mod2mask (m_mod mrec))])
      else if typ rec =? resizeEvent then
        (None, [NewEventResize (geti16 (drop 0 (data rec)))
                  (geti16 (drop 2 (data rec)))])
      else if typ rec =? focusEvent then
        if focusEnable s then
          (None, [NewEventFocus
                    (negb (geti32 (drop 0 (data rec)) =? 0))])
        else (None, [])
      else (None, [])
  else (Some (wait_er i), []).

(** ** A reference host

    A console that grants what it is asked, for running the driver on
    concrete inputs: it hands out the handles 3 and 4 for the two console
    paths, records modes, cursor shape and window rectangle, and accepts
    the VT output mode when [h_vt] is set. *)

Record conhost : Type := {
  h_env : list (string * string);
  h_vt : bool;
  h_inmode : Z;
  h_outmode : Z;
  h_cursor : cursorInfo;
  h_info : consoleInfo;
  h_largest : Z
}.

Fixpoint env_lookup (env : list (string * string)) (name : string)
  : string :=
  match env with
  | [] => ""
  | (k, v) :: env' => if decide (k = name) then v else env_lookup env' name
  end.

Definition conhost_step (c : Call) (h : conhost) : conhost :=
  match c with
  | SetConsoleMode hd m =>
      if hd =? 3 then
        {| h_env := h_env h; h_vt := h_vt h; h_inmode := m;
           h_outmode := h_outmode h; h_cursor := h_cursor h;
           h_info := h_info h; h_largest := h_largest h |}
      else
        {| h_env := h_env h; h_vt := h_vt h; h_inmode := h_inmode h;
           h_outmode := if h_vt h then m else Z.ldiff m modeVtOutput;
           h_cursor := h_cursor h; h_info := h_info h;
           h_largest := h_largest h |}
  | SetConsoleCursorInfo _ ci =>
      {| h_env := h_env h; h_vt := h_vt h; h_inmode := h_inmode h;
         h_outmode := h_outmode h; h_cursor := ci; h_info := h_info h;
         h_largest := h_largest h |}
  | SetConsoleWindowInfo _ _ r =>
      {| h_env := h_env h; h_vt := h_vt h; h_inmode := h_inmode h;
         h_outmode := h_outmode h; h_cursor := h_cursor h;
         h_info :=
           {| i_size := i_size (h_info h); i_pos := i_pos (h_info h);
              i_attrs := i_attrs (h_info h); i_win := r;
              i_maxsz := i_maxsz (h_info h) |};
         h_largest := h_largest h |}
  | _ => h
  end.

#[global] Instance conhost_console : Console conhost := {|
  host_step := conhost_step;
  os_Getenv := λ h name, env_lookup (h_env h) name;
  host_Open := λ h name,
    if decide (name = "CONIN$") then (3, None)
    else if decide (name = "CONOUT$") then (4, None)
    else (-1, Some (Errno 2));
  host_CreateEvent := λ _, (5, Errno 0);
  GetConsoleCursorInfo := λ h _, Some (h_cursor h);
  GetConsoleScreenBufferInfo := λ h _, Some (h_info h);
  GetConsoleMode := λ h hd,
    Some (if hd =? 3 then h_inmode h else h_outmode h);
  GetLargestConsoleWindowSize := λ h _, h_largest h
|}.

(** A runtime for strings of ASCII characters and colors laid out as in
    the constants above; the glyph width (two columns from U+1100 on) and
    the nearest color are stand-ins. *)
#[global] Instance ascii_runtime : Runtime := {|
  runes := λ s,
    (λ a, Z.of_nat (Ascii.nat_of_ascii a)) <$> String.list_ascii_of_string s;
  rune_width := λ r _, if r <? 0x1100 then 1%nat else 2%nat;
  Color_Valid := λ c, negb (Z.land c ColorValid =? 0);
  Color_IsRGB := λ c,
    Z.land c (Z.lor ColorValid ColorIsRGB) =? Z.lor ColorValid ColorIsRGB;
  Color_RGB := λ c,
    (Z.land (c ≫ 16) 0xff, Z.land (c ≫ 8) 0xff, Z.land c 0xff);
  FindColor := λ c pal, List.hd c pal
|}.

(** The zero value of [cScreen]. *)
Definition cScreen_zero : cScreen :=
  {| s_in := 0; s_out := 0; cancelflag := 0; scandone := ChanNil;
     quit := ChanNil; curx := 0; cury := 0; s_style := StyleDefault;
     fini := false; vten := false; truecolor := false; running := false;
     disableAlt := false; title := ""; s_w := 0; s_h := 0;
     oscreen :=
       {| i_size := {| co_x := 0; co_y := 0 |};
          i_pos := {| co_x := 0; co_y := 0 |}; i_attrs := 0;
          i_win := {| r_left := 0; r_top := 0; r_right := 0; r_bottom := 0 |};
          i_maxsz := {| co_x := 0; co_y := 0 |} |};
     ocursor := {| ci_size := 0; ci_visible := 0 |};
     cursorStyle := 0; cursorColor := 0; oimode := 0; oomode := 0;
     cells := {| cb_w := 0; cb_h := 0; cb_cells := [] |};
     focusEnable := false; mouseEnabled := false; wg := 0; eventQ := None;
     stopQ := ChanNil; finiOnce := false |}.

(** A console of [w] columns and [h] rows with the given environment. *)
Definition conhost_init (env : list (string * string)) (vt : bool)
    (w h : Z) (largest : Z) : conhost :=
  {| h_env := env; h_vt := vt; h_inmode := 0x1f7; h_outmode := 0x3;
     h_cursor := {| ci_size := 25; ci_visible := 1 |};
     h_info :=
       {| i_size := {| co_x := w; co_y := 300 |};
          i_pos := {| co_x := 0; co_y := 0 |}; i_attrs := 0x07;
          i_win := {| r_left := 0; r_top := 0; r_right := w - 1;
                      r_bottom := h - 1 |};
          i_maxsz := {| co_x := w; co_y := h |} |};
     h_largest := largest |}.

(** A new screen on that console. *)
Definition world_init (env : list (string * string)) (vt : bool)
    (w h : Z) (largest : Z) : World :=
  {| scr := cScreen_zero; host := conhost_init env vt w h largest;
     trace := []; winColors := winColors_init |}.

(** ** Vocabulary of the statements and concrete inputs *)

(** The control-key-state word has a ctrl bit (right 0x4, left 0x8) and
    an alt bit (right 0x1, left 0x2). *)
Definition ctrl_and_alt (cks : Z) : Prop :=
  (Z.testbit cks 2 = true ∨ Z.testbit cks 3 = true)
  ∧ (Z.testbit cks 0 = true ∨ Z.testbit cks 1 = true).

(** Two presses of e-acute with left ctrl and right alt held. *)
Definition altgr_read : consoleRead :=
  {| wait_rv := 1; wait_er := Errno 0; read_rv := 1; read_er := Errno 0;
     read_rec :=
       {| typ := keyEvent;
          data := [1; 0; 0; 0; 2; 0; 0x32; 0; 3; 0; 233; 0; 9; 0; 0; 0] |};
     read_nrec := 1 |}.

(** Three presses of tab with shift held. *)
Definition shift_tab_read : consoleRead :=
  {| wait_rv := 1; wait_er := Errno 0; read_rv := 1; read_er := Errno 0;
     read_rec :=
       {| typ := keyEvent;
          data := [1; 0; 0; 0; 3; 0; 9; 0; 15; 0; 9; 0; 0x10; 0; 0; 0] |};
     read_nrec := 1 |}.


(** The keys F13 to F24, in the order of their virtual key codes
    0x7c..0x87. *)
Definition keys_F13_F24 : list Z :=
  [ KeyF13; KeyF14; KeyF15; KeyF16; KeyF17; KeyF18; KeyF19; KeyF20;
    KeyF21; KeyF22; KeyF23; KeyF24 ].

(** A press of F13 (virtual key 0x7c, no character), repeated twice. *)
Definition f13_read : consoleRead :=
  {| wait_rv := 1; wait_er := Errno 0; read_rv := 1; read_er := Errno 0;
     read_rec :=
       {| typ := keyEvent;
          data := [1; 0; 0; 0; 2; 0; 0x7c; 0; 0x64; 0; 0; 0; 0; 0; 0; 0] |};
     read_nrec := 1 |}.


(** The world once the calls [cs] have been made, in order. *)
Definition after_calls {H : Type} `{CH : !Console H} (cs : list Call)
    (wd : World) : World :=
  {| scr := scr wd; host := foldl (λ h c, host_step c h) (host wd) cs;
     trace := trace wd ++ cs; winColors := winColors wd |}.

(** The world a computation leaves behind (the one it started in when it
    panics). *)
Definition exec {H : Type} {A : Type} (m : @M H A) (wd : World) : World :=
  match m wd with
  | Some (_, wd') => wd'
  | None => wd
  end.

(** The styles of the [vtCursorStyles] table. *)
Definition known_cursor_styles : list Z :=
  [ CursorStyleDefault; CursorStyleBlinkingBlock; CursorStyleSteadyBlock;
    CursorStyleBlinkingUnderline; CursorStyleSteadyUnderline;
    CursorStyleBlinkingBar; CursorStyleSteadyBar ].

(** The largest window size that the host reports, as [SetSize] unpacks
    it. *)
Definition largest_xy {H : Type} `{CH : !Console H} (wd : World) : Z :=
  uintptr (GetLargestConsoleWindowSize (host wd) (s_out (scr wd))).
Definition largest_x {H : Type} `{CH : !Console H} (wd : World) : Z :=
  Z.land (largest_xy wd) 0xffff.
Definition largest_y {H : Type} `{CH : !Console H} (wd : World) : Z :=
  largest_xy wd ≫ 16.

(** A screen initialized on a legacy console of 4 columns and 2 rows
    whose largest window is [maxw] columns wide and [maxh] rows high. *)
Definition legacy_world (maxw maxh : Z) : World :=
  exec Init (world_init [("TCELL_VTMODE", "disable")] false 4 2
              (maxw + maxh * 65536)).


(** The test [a & m != 0] of an attribute mask. *)
Definition has_attr (a m : Z) : bool := negb (Z.land a m =? 0).

(** What the claim says of an attribute word [word] built for the color
    indices [fa] (foreground) and [ba] (background) under the attribute
    mask [a]: reverse swaps the two nibbles first; bold sets and dim
    clears bit 0x8 of the low nibble only; the high nibble is the other
    color; bit 0x8000 is the underline bit; no other bit is set. *)
Definition legacy_word_ok (a fa ba word : Z) : bool :=
  let lo := if has_attr a AttrReverse then ba else fa in
  let hi := if has_attr a AttrReverse then fa else ba in
  (Z.land word 0x7 =? Z.land lo 0x7)
  && bool_decide (Z.testbit word 3
                  = if has_attr a AttrDim then false
                    else if has_attr a AttrBold then true
                    else Z.testbit lo 3)
  && (Z.land (word ≫ 4) 0xf =? hi)
  && bool_decide (Z.testbit word 15 = has_attr a AttrUnderline)
  && (Z.land word 0x7f00 =? 0)
  && (0 <=? word) && (word <? 2 ^ 16).

(** The sixteen color indices. *)
Definition nibbles : list Z := seqZ 0 16.

(** A bold, reversed red on default. *)
Definition style_red_bold_reverse : Style :=
  {| fg := ColorRed; bg := ColorDefault; ulStyle := UnderlineStyleNone;
     ulColor := ColorDefault; attrs := Z.lor AttrBold AttrReverse;
     url := ""; urlId := "" |}.


(** The world with another state of the color cache. *)
Definition with_winColors {H : Type} (wc : gmap Z Z) (wd : @World H)
  : World :=
  {| scr := scr wd; host := host wd; trace := trace wd; winColors := wc |}.


(** [m] leaves the view [f] of the screen as it found it. *)
Definition keeps {H A B : Type} (f : cScreen → B) (m : @M H A) : Prop :=
  ∀ wd a wd', m wd = Some (a, wd') → f (scr wd') = f (scr wd).


(** The legacy screen of above after [Fini]. *)
Definition finished_world : World := exec Fini (legacy_world 120 50).


(** The application writes a cell through [GetCells]. *)
Definition put_cell {H : Type} `{RT : Runtime} (x y : Z) (mainc : Z)
    (combc : list Z) (style : Style) : @M H unit :=
  modify_s (λ s, set_cells (SetContent (cells s) x y mainc combc style) s).


(** The calls that [m] adds to the log of [wd]. *)
Definition calls_of {H A : Type} (m : @M H A) (wd : World) : list Call :=
  drop (length (trace wd)) (trace (exec m wd)).


(** [m] carries the property [P] of the screen from start to end. *)
Definition preserves {H A : Type} (P : cScreen → Prop) (m : @M H A) : Prop :=
  ∀ wd a wd', m wd = Some (a, wd') → P (scr wd) → P (scr wd').

(** The world with another value of the truecolor flag. *)
Definition with_truecolor {H : Type} (b : bool) (wd : @World H) : World :=
  {| scr := set_truecolor b (scr wd); host := host wd; trace := trace wd;
     winColors := winColors wd |}.

(** A console that accepts the VT output mode, with TCELL_TRUECOLOR set
    to [disable]. *)
Definition truecolor_disabled_world : World :=
  world_init [("TCELL_TRUECOLOR", "disable")] true 4 2 (120 + 50 * 65536).

(** The same with TCELL_TRUECOLOR set to [enable] under ConEmu. *)
Definition truecolor_enabled_world : World :=
  world_init [("ConEmuPID", "4242"); ("TCELL_TRUECOLOR", "enable")] true 4 2
    (120 + 50 * 65536).


(** The host when Init reads the environment: the two console paths have
    been opened. *)
Definition host_at_switch {H : Type} `{CH : !Console H} (wd : World) : H :=
  host_step (syscall_Open "CONOUT$")
    (host_step (syscall_Open "CONIN$") (host wd)).


(** The style a cell is drawn in: the screen's style stands in for the
    default style. *)
Definition effective_style (s : cScreen) (style : Style) : Style :=
  if decide (style = StyleDefault) then s_style s else style.

(** The world with another cell buffer. *)
Definition with_cells {H : Type} (cb : CellBuffer) (wd : @World H) : World :=
  {| scr := set_cells cb (scr wd); host := host wd; trace := trace wd;
     winColors := winColors wd |}.


(** Scenario S4: on the screen of 4 columns, a glyph two columns wide is
    written at column 3. *)
Definition wide_world : World :=
  exec (put_cell 3 0 0x4e2d [] StyleDefault) (legacy_world 120 50).

(** The variables of [draw] at the start of a row. *)
Definition row_start : drawState :=
  {| wcs := []; lstyle := styleInvalid; lx := -1; ly := -1 |}.


(** *** The reference renderer

    What a draw pass writes when every cell of the viewport is dirty,
    stated on the contents of the cell buffer alone. *)

(** A run: the column it starts at, its style and its code units. *)
Record run : Type := {
  run_x : Z;
  run_style : Style;
  run_units : list Z
}.

(** The code units that stand for the cell at column [x] of row [y], and
    the columns they take: the glyph with its combining marks, or one
    space when the glyph would pass the right edge. *)
Definition cell_glyph (s : cScreen) (x y : Z) : list Z * Z :=
  let '(mainc, combc, _, width) := GetContent (cells s) x y in
  if x >? s_w s - width then ([32], 1)
  else
    (utf16_Encode [mainc]
       ++ (if decide (length combc = 0%nat) then [] else utf16_Encode combc),
     width).

Definition cell_style (s : cScreen) (x y : Z) : Style :=
  effective_style s (GetContent (cells s) x y).1.2.

(** The run in progress, closed. *)
Definition close_run (cur : option run) : list run :=
  match cur with
  | Some r => [r]
  | None => []
  end.

(** The runs of row [y] from column [x] on, [cur] being the run in
    progress: a cell of the same style extends it, a cell of another
    style closes it and starts the next. *)
Fixpoint row_runs (fuel : nat) (s : cScreen) (y x : Z) (cur : option run)
  : list run :=
  if x <? s_w s then
    match fuel with
    | O => close_run cur
    | S fuel' =>
        let g := cell_glyph s x y in
        let st := cell_style s x y in
        match cur with
        | Some r =>
            if decide (st = run_style r) then
              row_runs fuel' s y (x + g.2)
                (Some {| run_x := run_x r; run_style := run_style r;
                         run_units := run_units r ++ g.1 |})
            else
              r :: row_runs fuel' s y (x + g.2)
                     (Some {| run_x := x; run_style := st;
                              run_units := g.1 |})
        | None =>
            row_runs fuel' s y (x + g.2)
              (Some {| run_x := x; run_style := st; run_units := g.1 |})
        end
    end
  else close_run cur.

(** Writing the runs of row [y]: one [writeString] each. *)
Fixpoint write_runs {H : Type} `{RT : Runtime} `{CH : !Console H}
    (vtBuf : list Z) (y : Z) (rs : list run) : @M H unit :=
  match rs with
  | [] => mret tt
  | r :: rs' =>
      writeString (run_x r) y (run_style r) vtBuf (run_units r) ;;
      write_runs vtBuf y rs'
  end.

(** Writing the runs of the rows [ys] of the screen [s], row by row. *)
Fixpoint write_rows {H : Type} `{RT : Runtime} `{CH : !Console H}
    (vtBuf : list Z) (s : cScreen) (ys : list Z) : @M H unit :=
  match ys with
  | [] => mret tt
  | y :: ys' =>
      write_runs vtBuf y (row_runs (Z.to_nat (s_w s)) s y 0 None) ;;
      write_rows vtBuf s ys'
  end.

(** The run that the variables of [draw] hold. *)
Definition pending (d : drawState) : option run :=
  match wcs d with
  | [] => None
  | _ => Some {| run_x := lx d; run_style := lstyle d; run_units := wcs d |}
  end.

(** Every cell of the viewport is dirty. *)
Definition viewport_dirty (s : cScreen) : Prop :=
  ∀ x y, 0 ≤ x < s_w s → 0 ≤ y < s_h s → Dirty (cells s) x y = true.

(** No cell of the viewport is dirty. *)
Definition viewport_clean (s : cScreen) : Prop :=
  ∀ x y, 0 ≤ x < s_w s → 0 ≤ y < s_h s → Dirty (cells s) x y = false.

(** The cell buffer has the dimensions of the viewport. *)
Definition cells_fit (s : cScreen) : Prop :=
  cb_w (cells s) = s_w s ∧ cb_h (cells s) = s_h s
  ∧ length (cb_cells (cells s)) = (Z.to_nat (s_h s) * Z.to_nat (s_w s))%nat.

(** The world with every cell marked dirty: what is left of a world when
    the dirty bits are disregarded. *)
Definition forget_dirty {H : Type} (wd : @World H) : World :=
  with_cells (Invalidate (cells (scr wd))) wd.

(** [s.cells.Invalidate()] as a step of its own. *)
Definition invalidate {H : Type} : @M H unit :=
  modify_s (λ s, set_cells (Invalidate (cells s)) s).


(** [m] neither reads nor writes the cell buffer. *)
Definition cells_blind {H A : Type} (m : @M H A) : Prop :=
  ∀ cb wd, m (with_cells cb wd) = (λ r, (r.1, with_cells cb r.2)) <$> m wd.


(** The cells that [draw] marks clean for a glyph at column [x] that
    takes [n] columns. *)
Definition clear_cols (cb : CellBuffer) (x y n : Z) : CellBuffer :=
  foldl (λ cb dx, SetDirty cb (x + dx) y false) cb (seqZ 0 n).


(** The variables of [draw] once the glyph [units] of style [style] at
    column [x] of row [y] is queued. *)
Definition queued (x y : Z) (style : Style) (units : list Z)
    (d : drawState) : drawState :=
  {| wcs := wcs d ++ units;
     lstyle := if decide (length (wcs d) = 0%nat) then style else lstyle d;
     lx := if decide (length (wcs d) = 0%nat) then x else lx d;
     ly := if decide (length (wcs d) = 0%nat) then y else ly d |}.

(** The variables of [draw] after a flush. *)
Definition flushed (d : drawState) : drawState :=
  {| wcs := []; lstyle := StyleDefault; lx := lx d; ly := ly d |}.

(** Two screens show the same contents in the same viewport width. *)
Definition agree (s s0 : cScreen) : Prop :=
  s_w s = s_w s0 ∧ s_style s = s_style s0
  ∧ ∀ x y, GetContent (cells s) x y = GetContent (cells s0) x y.

(** The cell buffer [cbF] is [cb] with the columns from [x] up to [w] of
    row [y] marked clean. *)
Definition cols_cleared (y x w : Z) (cb cbF : CellBuffer) : Prop :=
  (∀ x' y', GetContent cbF x' y' = GetContent cb x' y')
  ∧ (∀ x' y', y' ≠ y ∨ x' < x ∨ w ≤ x' → Dirty cbF x' y' = Dirty cb x' y')
  ∧ (∀ x', x ≤ x' < w → Dirty cbF x' y = false).


(** The rows [ys] of [cb] are marked clean in [cbF] over the columns of
    the viewport of width [w]; nothing else differs. *)
Definition rows_cleared (ys : list Z) (w : Z) (cb cbF : CellBuffer) : Prop :=
  (∀ x y, GetContent cbF x y = GetContent cb x y)
  ∧ (∀ x y, y ∉ ys ∨ x < 0 ∨ w ≤ x → Dirty cbF x y = Dirty cb x y)
  ∧ (∀ x y, y ∈ ys → 0 ≤ x < w → Dirty cbF x y = false).


(** The code units of row [y] from column [x] on: the glyph of every
    cell, a wide glyph standing for the columns it covers. *)
Fixpoint row_text (fuel : nat) (s : cScreen) (y x : Z) : list Z :=
  if x <? s_w s then
    match fuel with
    | O => []
    | S fuel' =>
        (cell_glyph s x y).1 ++ row_text fuel' s y (x + (cell_glyph s x y).2)
    end
  else [].

(** Scenario S3 on the legacy screen: 'A' and 'C' in the default style
    around a bold 'B', over an older dirty state. *)
Definition bold_style : Style :=
  {| fg := ColorDefault; bg := ColorDefault; ulStyle := UnderlineStyleNone;
     ulColor := ColorDefault; attrs := AttrBold; url := ""; urlId := "" |}.

Definition mixed_world : World :=
  exec (put_cell 0 0 65 [] StyleDefault ;;
        put_cell 1 0 66 [] bold_style ;;
        put_cell 2 0 67 [] StyleDefault)
    (legacy_world 120 50).

(** * Properties *)

(** ** The input decoder *)

Example HasKey_F12 : HasKey KeyF12 = true.
Proof. reflexivity. Qed.

(** Scenario S5: shift+tab, pressed once. *)
Example shift_tab_S5 :
  key_events {| k_isdown := 1; k_repeat := 1; k_kcode := 9; k_scode := 15;
                k_ch := 0x09; k_mod := 0x0010 |}
  = [NewEventKey KeyBacktab 0 0].
Proof. reflexivity. Qed.

(** Scenario S6: e-acute typed with AltGr (right alt and left ctrl). *)
Example altgr_S6 :
  key_events {| k_isdown := 1; k_repeat := 1; k_kcode := 0x32; k_scode := 3;
                k_ch := 233; k_mod := Z.lor 0x0008 0x0001 |}
  = [NewEventKey KeyRune 233 0].
Proof. reflexivity. Qed.

(** A mask [m] has a bit of [5 = 0b101] exactly when the word has bit 0 or
    bit 2, and so on: the test [cks & m != 0] of [mod2mask], bit by bit. *)
Lemma land_two_bits (cks : Z) (i j : Z) :
  0 ≤ i → 0 ≤ j → i ≠ j →
  (Z.land cks (Z.lor (2 ^ i) (2 ^ j)) =? 0)
  = negb (Z.testbit cks i || Z.testbit cks j).
Proof.
  intros Hi Hj Hij.
  destruct (Z.eqb_spec (Z.land cks (Z.lor (2 ^ i) (2 ^ j))) 0) as [E|E].
  - assert (Bi := f_equal (λ z, Z.testbit z i) E).
    assert (Bj := f_equal (λ z, Z.testbit z j) E).
    cbn beta in Bi, Bj.
    rewrite Z.land_spec, Z.lor_spec, Z.bits_0 in Bi, Bj.
    rewrite Z.pow2_bits_true in Bi by done.
    rewrite (Z.pow2_bits_true j) in Bj by done.
    rewrite orb_true_r in Bj. rewrite orb_true_l in Bi.
    rewrite andb_true_r in Bi, Bj. by rewrite Bi, Bj.
  - destruct (Z.testbit cks i) eqn:Bi; [done|].
    destruct (Z.testbit cks j) eqn:Bj; [done|].
    exfalso. apply E. apply Z.bits_inj'. intros n Hn.
    rewrite Z.land_spec, Z.lor_spec, Z.bits_0.
    destruct (decide (n = i)) as [->|Hni]; [by rewrite Bi|].
    destruct (decide (n = j)) as [->|Hnj]; [by rewrite Bj|].
    rewrite !Z.pow2_bits_false by done. apply andb_false_r.
Qed.

Lemma land_one_bit (cks : Z) (i : Z) :
  0 ≤ i → (Z.land cks (2 ^ i) =? 0) = negb (Z.testbit cks i).
Proof.
  intros Hi.
  destruct (Z.eqb_spec (Z.land cks (2 ^ i)) 0) as [E|E].
  - assert (Bi := f_equal (λ z, Z.testbit z i) E). cbn beta in Bi.
    rewrite Z.land_spec, Z.bits_0, Z.pow2_bits_true in Bi by done.
    rewrite andb_true_r in Bi. by rewrite Bi.
  - destruct (Z.testbit cks i) eqn:Bi; [done|].
    exfalso. apply E. apply Z.bits_inj'. intros n Hn.
    rewrite Z.land_spec, Z.bits_0.
    destruct (decide (n = i)) as [->|Hni]; [by rewrite Bi|].
    rewrite Z.pow2_bits_false by done. apply andb_false_r.
Qed.

Lemma mod2mask_ctrl_alt (cks : Z) :
  ctrl_and_alt cks →
  mod2mask cks = if Z.testbit cks 4 then ModShift else ModNone.
Proof.
  intros [Hc Ha]. unfold mod2mask.
  change (Z.lor 8 4) with (Z.lor (2 ^ 3) (2 ^ 2)).
  change (Z.lor 2 1) with (Z.lor (2 ^ 1) (2 ^ 0)).
  change 16 with (2 ^ 4).
  rewrite !land_two_bits, land_one_bit by lia.
  replace (Z.testbit cks 3 || Z.testbit cks 2) with true
    by (destruct Hc as [->| ->]; by rewrite ?orb_true_r).
  replace (Z.testbit cks 1 || Z.testbit cks 0) with true
    by (destruct Ha as [->| ->]; by rewrite ?orb_true_r).
  by destruct (Z.testbit cks 4).
Qed.



(** C5: a key-down record with a repeat count of at least 1, a decoded
    mask of exactly shift and the tab character posts, once per repeat,
    the backtab key with rune 0 and no modifiers. *)
Theorem shift_tab_is_backtab (s : cScreen) (i : consoleRead) :
  wait_rv i = 1 → read_rv i ≠ 0 → read_nrec i = 1 →
  typ (read_rec i) = keyEvent →
  k_isdown (read_keyRecord (read_rec i)) ≠ 0 →
  1 ≤ k_repeat (read_keyRecord (read_rec i)) →
  mod2mask (k_mod (read_keyRecord (read_rec i))) = ModShift →
  k_ch (read_keyRecord (read_rec i)) = vkTab →
  getConsoleInput s i
  = (None, replicate (Z.to_nat (k_repeat (read_keyRecord (read_rec i))))
             (NewEventKey KeyBacktab 0 ModNone)).
Proof.
  intros Hw Hr Hn Ht Hd Hrep Hm Hc. unfold getConsoleInput.
  rewrite Hw, Hn, Ht. cbn [Z.eqb keyEvent Pos.eqb Z.add Pos.add negb].
  destruct (Z.eqb_spec (read_rv i) 0) as [|_]; [done|].
  f_equal. unfold key_events, key_rune_event.
  destruct (Z.eqb_spec (k_isdown (read_keyRecord (read_rec i))) 0); [done|].
  destruct (Z.ltb_spec (k_repeat (read_keyRecord (read_rec i))) 1); [lia|].
  rewrite Hm, Hc. reflexivity.
Qed.

Lemma shift_tab_is_backtab_witness :
  getConsoleInput cScreen_zero shift_tab_read
  = (None, [NewEventKey KeyBacktab 0 0; NewEventKey KeyBacktab 0 0;
            NewEventKey KeyBacktab 0 0]).
Proof.
  apply (shift_tab_is_backtab cScreen_zero shift_tab_read);
    vm_compute; congruence.
Defined.

(** ** Key capabilities *)

Lemma HasKey_true_iff (k : Z) : HasKey k = true ↔ k ∈ HasKey_entries.*1.
Proof.
  unfold HasKey. split.
  - destruct (list_to_map HasKey_entries !! k) as [b|] eqn:E; [|done].
    intros Hb. simpl in Hb. subst b.
    apply (elem_of_list_to_map_2 (M := gmap Z)) in E.
    exact (list_elem_of_fmap_2 fst _ _ E).
  - intros Hk. cbn in Hk.
    repeat (apply elem_of_cons in Hk as [->|Hk]; [reflexivity|]).
    by apply elem_of_nil in Hk.
Qed.

(** C9: [HasKey] answers false for F13 to F24, although a key record with
    one of the virtual key codes 0x7c..0x87 and no character posts that
    very key; it answers true exactly for the keys of its table, which
    ends at F12 and [KeyRune]. *)
Theorem HasKey_misses_F13_F24 :
  Forall (λ k, HasKey k = false) keys_F13_F24
  ∧ (∀ k, HasKey k = true ↔ k ∈ HasKey_entries.*1)
  ∧ (∀ (s : cScreen) (i : consoleRead),
       wait_rv i = 1 → read_rv i ≠ 0 → read_nrec i = 1 →
       typ (read_rec i) = keyEvent →
       k_isdown (read_keyRecord (read_rec i)) ≠ 0 →
       1 ≤ k_repeat (read_keyRecord (read_rec i)) →
       k_ch (read_keyRecord (read_rec i)) = 0 →
       0x7c ≤ k_kcode (read_keyRecord (read_rec i)) ≤ 0x87 →
       ∃ key,
         keys_F13_F24
           !! Z.to_nat (k_kcode (read_keyRecord (read_rec i)) - 0x7c)
         = Some key
         ∧ HasKey key = false
         ∧ getConsoleInput s i
           = (None,
              replicate (Z.to_nat (k_repeat (read_keyRecord (read_rec i))))
                (NewEventKey key 0
                   (mod2mask (k_mod (read_keyRecord (read_rec i))))))).
Proof.
  split; [|split].
  - repeat constructor.
  - apply HasKey_true_iff.
  - intros s i Hw Hr Hn Ht Hd Hrep Hc Hk. unfold getConsoleInput.
    rewrite Hw, Hn, Ht. cbn [Z.eqb keyEvent Pos.eqb Z.add Pos.add negb].
    destruct (Z.eqb_spec (read_rv i) 0) as [|_]; [done|].
    unfold key_events.
    destruct (Z.eqb_spec (k_isdown (read_keyRecord (read_rec i))) 0);
      [done|].
    destruct (Z.ltb_spec (k_repeat (read_keyRecord (read_rec i))) 1);
      [lia|].
    rewrite Hc. cbn [orb Z.eqb negb].
    remember (k_kcode (read_keyRecord (read_rec i))) as vk eqn:Hvk.
    clear Hvk.
    assert (Hcases : vk ∈ [0x7c; 0x7d; 0x7e; 0x7f; 0x80; 0x81; 0x82; 0x83;
                           0x84; 0x85; 0x86; 0x87]).
    { change (vk ∈ seqZ 0x7c 12). apply elem_of_seqZ. lia. }
    repeat (apply elem_of_cons in Hcases as [->|Hcases];
            [eexists; split; [reflexivity|]; split; reflexivity|]).
    by apply elem_of_nil in Hcases.
Qed.

Lemma HasKey_misses_F13_F24_witness :
  HasKey KeyF13 = false
  ∧ getConsoleInput cScreen_zero f13_read
    = (None, [NewEventKey KeyF13 0 0; NewEventKey KeyF13 0 0]).
Proof.
  destruct HasKey_misses_F13_F24 as (_ & _ & Hpost).
  destruct (Hpost cScreen_zero f13_read eq_refl
              ltac:(vm_compute; congruence) eq_refl eq_refl
              ltac:(vm_compute; congruence) ltac:(vm_compute; congruence)
              eq_refl ltac:(vm_compute; intuition congruence))
    as (key & Hkey & Hhas & Hin).
  vm_compute in Hkey. injection Hkey as <-.
  split; [exact Hhas | exact Hin].
Defined.

(** ** Geometry and cursor *)

Section driver_facts.
Context `{RT : Runtime} {H : Type} `{CH : !Console H}.
Implicit Types (wd : @World H) (s : cScreen).

Lemma vtCursorStyles_unknown (cs : Z) :
  cs ∉ known_cursor_styles → vtCursorStyles !! cs = None.
Proof.
  intros Hcs. by apply (not_elem_of_list_to_map_1 (M := gmap Z)).
Qed.

(** C10: [SetCursor] with a style outside the seven known ones changes
    nothing and emits nothing; so a call that changes the stored cursor
    color was given a known style. *)
Theorem SetCursor_unknown_style (cs cc : Z) wd :
  (cs ∉ known_cursor_styles → SetCursor cs cc wd = Some (tt, wd))
  ∧ (∀ wd', SetCursor cs cc wd = Some (tt, wd') →
            cursorColor (scr wd') ≠ cursorColor (scr wd) →
            cs ∈ known_cursor_styles).
Proof.
  assert (Hnop : cs ∉ known_cursor_styles →
                 SetCursor cs cc wd = Some (tt, wd)).
  { intros Hcs. unfold SetCursor, mbind, M_bind, get_s.
    rewrite (vtCursorStyles_unknown _ Hcs).
    by destruct (fini (scr wd)), wd. }
  split; [exact Hnop|].
  intros wd' Hrun Hcc.
  destruct (decide (cs ∈ known_cursor_styles)) as [|Hcs]; [done|].
  rewrite (Hnop Hcs) in Hrun. by injection Hrun as <-.
Qed.

(** C2, as the code has it: [SetSize] does nothing when the largest
    window has a zero dimension or is more than 500 columns wide; when it
    is less than 500 columns wide it sets the buffer size to the largest
    window size, the window rectangle to the requested size, and
    resettles. *)
Theorem SetSize_spec (w h : Z) wd :
  (largest_x wd = 0 ∨ largest_y wd = 0 ∨ 500 < largest_x wd →
   SetSize w h wd = Some (tt, wd))
  ∧ (0 < largest_x wd < 500 → largest_y wd ≠ 0 →
     SetSize w h wd
     = resize
         (after_calls
            [ SetConsoleScreenBufferSize (s_out (scr wd))
                (coord_uintptr {| co_x := int16 (largest_x wd);
                                  co_y := int16 (largest_y wd) |});
              SetConsoleWindowInfo (s_out (scr wd)) 1
                {| r_left := 0; r_top := 0; r_right := int16 (w - 1);
                   r_bottom := int16 (h - 1) |} ]
            wd)).
Proof.
  unfold largest_x, largest_y, largest_xy.
  unfold SetSize, mbind, M_bind, get_s, ask. cbn beta iota.
  set (xy := uintptr _).
  split.
  - intros [Hx|[Hy|Hx]].
    + rewrite Hx. by destruct wd.
    + rewrite Hy, orb_true_r. by destruct wd.
    + destruct (_ || _); [by destruct wd|].
      destruct (Z.geb_spec (Z.land xy 65535) 500); [by destruct wd|lia].
  - intros Hx Hy.
    destruct (Z.eqb_spec (Z.land xy 65535) 0); [lia|].
    destruct (Z.eqb_spec (xy ≫ 16) 0); [done|].
    destruct (Z.geb_spec (Z.land xy 65535) 500); [lia|].
    cbn [orb]. unfold setBufferSize, call, mbind, M_bind, get_s.
    cbn. unfold after_calls. cbn. by rewrite <- app_assoc.
Qed.

End driver_facts.

Lemma SetCursor_unknown_style_witness :
  (7 ∉ known_cursor_styles)
  ∧ SetCursor 7 ColorRed (legacy_world 120 50) = Some (tt, legacy_world 120 50).
Proof.
  assert (Hcs : 7 ∉ known_cursor_styles).
  { unfold known_cursor_styles. intros Hin.
    repeat (apply elem_of_cons in Hin as [Hin|Hin]; [discriminate|]).
    by apply elem_of_nil in Hin. }
  split; [exact Hcs|].
  exact (proj1 (SetCursor_unknown_style 7 ColorRed (legacy_world 120 50)) Hcs).
Defined.

Lemma SetSize_spec_witness :
  SetSize 3 1 (legacy_world 600 50) = Some (tt, legacy_world 600 50)
  ∧ 0 < largest_x (legacy_world 120 50) < 500
  ∧ largest_y (legacy_world 120 50) ≠ 0
  ∧ SetSize 3 1 (legacy_world 120 50)
    = resize
        (after_calls
           [ SetConsoleScreenBufferSize (s_out (scr (legacy_world 120 50)))
               (coord_uintptr
                  {| co_x := int16 (largest_x (legacy_world 120 50));
                     co_y := int16 (largest_y (legacy_world 120 50)) |});
             SetConsoleWindowInfo (s_out (scr (legacy_world 120 50))) 1
               {| r_left := 0; r_top := 0; r_right := int16 (3 - 1);
                  r_bottom := int16 (1 - 1) |} ]
           (legacy_world 120 50)).
Proof.
  assert (Hx : 0 < largest_x (legacy_world 120 50) < 500)
    by (vm_compute; split; reflexivity).
  assert (Hy : largest_y (legacy_world 120 50) ≠ 0)
    by (vm_compute; discriminate).
  split; [|split; [exact Hx|split; [exact Hy|]]].
  - apply (proj1 (SetSize_spec 3 1 (legacy_world 600 50))).
    right; right. vm_compute. reflexivity.
  - exact (proj2 (SetSize_spec 3 1 (legacy_world 120 50)) Hx Hy).
Defined.

(** C2 as stated fails twice.  With a largest window of 120 x 600 the
    height exceeds 500, yet the call is not a no-op.  With a largest
    window of 120 x 50 the buffer size set together with the window
    rectangle is 120 x 50, not the requested 3 x 1; the last two calls are
    those of the resettling [resize]. *)
Lemma SetSize_counterexample :
  (largest_x (legacy_world 120 600) = 120
   ∧ largest_y (legacy_world 120 600) = 600
   ∧ SetSize 3 1 (legacy_world 120 600) ≠ Some (tt, legacy_world 120 600))
  ∧ drop (length (trace (legacy_world 120 50)))
         (trace (exec (SetSize 3 1) (legacy_world 120 50)))
    = [ SetConsoleScreenBufferSize 4 (120 + 50 * 65536);
        SetConsoleWindowInfo 4 1
          {| r_left := 0; r_top := 0; r_right := 2; r_bottom := 0 |};
        SetConsoleScreenBufferSize 4 (3 + 1 * 65536);
        SetConsoleWindowInfo 4 1
          {| r_left := 0; r_top := 0; r_right := 2; r_bottom := 0 |} ].
Proof.
  split; [split; [|split]|].
  - vm_compute. reflexivity.
  - vm_compute. reflexivity.
  - intros E.
    apply (f_equal (λ r, match r with
                         | Some (_, wd) => length (trace wd)
                         | None => 0%nat
                         end)) in E.
    vm_compute in E. discriminate.
  - vm_compute. reflexivity.
Qed.

(** ** The style translator *)

Lemma vgaColors_range (c v : Z) : vgaColors !! c = Some v → 0 ≤ v ≤ 15.
Proof.
  intros E. apply (elem_of_list_to_map_2 (M := gmap Z)) in E.
  unfold vgaColors_entries in E.
  repeat (apply elem_of_cons in E as [E|E]; [injection E as -> ->; lia|]).
  by apply elem_of_nil in E.
Qed.

Section style_facts.
Context `{RT : Runtime} {H : Type} `{CH : !Console H}.
Implicit Types (wd : @World H).

Lemma mapColor2RGB_spec (c : Z) wd :
  ∃ v wc, mapColor2RGB c wd = Some (v, with_winColors wc wd) ∧ 0 ≤ v ≤ 15.
Proof.
  unfold mapColor2RGB, mbind, M_bind, get_winColors, put_winColors, mret,
    M_ret, with_winColors.
  destruct wd as [s h tr wc0]; cbn [winColors scr host trace].
  destruct (wc0 !! c) as [v|] eqn:E.
  - destruct (vgaColors !! v) as [vc|] eqn:V.
    + exists vc, wc0. split; [done|]. by eapply vgaColors_range.
    + exists 0, wc0. split; [done|lia].
  - destruct (vgaColors !! _) as [vc|] eqn:V.
    + eexists vc, _. split; [done|]. by eapply vgaColors_range.
    + eexists 0, _. split; [done|lia].
Qed.

Lemma nibble_forall (P : Z → Z → bool) :
  forallb (λ fa, forallb (P fa) nibbles) nibbles = true →
  ∀ fa ba, 0 ≤ fa ≤ 15 → 0 ≤ ba ≤ 15 → P fa ba = true.
Proof.
  intros Hall fa ba Hfa Hba.
  rewrite forallb_forall in Hall.
  assert (Hfa' : In fa nibbles)
    by (apply list_elem_of_In, elem_of_seqZ; lia).
  specialize (Hall fa Hfa'). rewrite forallb_forall in Hall.
  apply Hall. apply list_elem_of_In, elem_of_seqZ. lia.
Qed.

(** The word that [mapStyle] assembles from two color indices. *)
Lemma legacy_word_assembled (a fa ba : Z) :
  0 ≤ fa ≤ 15 → 0 ≤ ba ≤ 15 →
  legacy_word_ok a fa ba
    (let attr :=
       if negb (Z.land a AttrReverse =? 0) then Z.lor ba (uint16 (fa ≪ 4))
       else Z.lor fa (uint16 (ba ≪ 4)) in
     let attr := if negb (Z.land a AttrBold =? 0) then Z.lor attr 0x8
                 else attr in
     let attr := if negb (Z.land a AttrDim =? 0) then Z.ldiff attr 0x8
                 else attr in
     if negb (Z.land a AttrUnderline =? 0) then Z.lor attr 0x8000
     else attr) = true.
Proof.
  intros Hfa Hba. unfold legacy_word_ok, has_attr. cbn zeta.
  destruct (Z.land a AttrReverse =? 0), (Z.land a AttrBold =? 0),
    (Z.land a AttrDim =? 0), (Z.land a AttrUnderline =? 0);
    cbn [negb];
    match goal with
    | |- ?b = true =>
        let f := eval pattern fa, ba in b in
        match f with
        | ?F _ _ =>
            refine (nibble_forall F _ fa ba Hfa Hba); vm_compute; reflexivity
        end
    end.
Qed.

Lemma color_test (c : Z) :
  negb (bool_decide (c = ColorDefault)) && negb (bool_decide (c = ColorReset))
  = negb (bool_decide (c = ColorDefault ∨ c = ColorReset)).
Proof. repeat case_bool_decide; cbn; tauto. Qed.

(** C6: the legacy attribute word of a style.  Both color indices are in
    0..15; a default or reset color takes the nibble of the attribute
    captured at Init, any other color its mapped index; reverse swaps the
    nibbles before bold sets, or dim clears, bit 0x8 of the low nibble;
    underline sets bit 0x8000; no other bit is set. *)
Theorem mapStyle_legacy_word (style : Style) wd :
  ∃ fa ba wc1 wc2 word,
    mapStyle style wd = Some (word, with_winColors wc2 wd)
    ∧ 0 ≤ fa ≤ 15 ∧ 0 ≤ ba ≤ 15
    ∧ (if bool_decide (fg style = ColorDefault ∨ fg style = ColorReset)
       then fa = Z.land (i_attrs (oscreen (scr wd))) 0xf ∧ wc1 = winColors wd
       else mapColor2RGB (fg style) wd = Some (fa, with_winColors wc1 wd))
    ∧ (if bool_decide (bg style = ColorDefault ∨ bg style = ColorReset)
       then ba = Z.land (i_attrs (oscreen (scr wd)) ≫ 4) 0xf ∧ wc2 = wc1
       else mapColor2RGB (bg style) (with_winColors wc1 wd)
            = Some (ba, with_winColors wc2 wd))
    ∧ legacy_word_ok (attrs style) fa ba word = true.
Proof.
  unfold mapStyle. unfold mbind at 1, M_bind at 1, get_s at 1.
  cbn beta iota zeta.
  set (fa0 := Z.land (i_attrs (oscreen (scr wd))) 15).
  set (ba0 := Z.land (i_attrs (oscreen (scr wd)) ≫ 4) 15).
  assert (Hfa0 : 0 ≤ fa0 ≤ 15).
  { unfold fa0.
    change (0 ≤ Z.land (i_attrs (oscreen (scr wd))) (Z.ones 4) ≤ 15).
    rewrite Z.land_ones by lia.
    pose proof (Z.mod_pos_bound (i_attrs (oscreen (scr wd))) (2 ^ 4)). lia. }
  assert (Hba0 : 0 ≤ ba0 ≤ 15).
  { unfold ba0.
    change (0 ≤ Z.land (i_attrs (oscreen (scr wd)) ≫ 4) (Z.ones 4) ≤ 15).
    rewrite Z.land_ones by lia.
    pose proof (Z.mod_pos_bound (i_attrs (oscreen (scr wd)) ≫ 4) (2 ^ 4)).
    lia. }
  assert (Hf : ∃ fa wc1,
             (if negb (bool_decide (fg style = ColorDefault))
                 && negb (bool_decide (fg style = ColorReset))
              then mapColor2RGB (fg style) else mret fa0) wd
             = Some (fa, with_winColors wc1 wd)
             ∧ 0 ≤ fa ≤ 15
             ∧ (if bool_decide (fg style = ColorDefault
                                ∨ fg style = ColorReset)
                then fa = fa0 ∧ wc1 = winColors wd
                else mapColor2RGB (fg style) wd
                     = Some (fa, with_winColors wc1 wd))).
  { rewrite color_test.
    destruct (bool_decide (fg style = ColorDefault ∨ fg style = ColorReset));
      cbn [negb].
    - exists fa0, (winColors wd). by destruct wd.
    - destruct (mapColor2RGB_spec (fg style) wd) as (v & wc & E & Hv).
      by exists v, wc. }
  destruct Hf as (fa & wc1 & Ef & Hfa & Hf).
  assert (Hb : ∃ ba wc2,
             (if negb (bool_decide (bg style = ColorDefault))
                 && negb (bool_decide (bg style = ColorReset))
              then mapColor2RGB (bg style) else mret ba0)
               (with_winColors wc1 wd)
             = Some (ba, with_winColors wc2 wd)
             ∧ 0 ≤ ba ≤ 15
             ∧ (if bool_decide (bg style = ColorDefault
                                ∨ bg style = ColorReset)
                then ba = ba0 ∧ wc2 = wc1
                else mapColor2RGB (bg style) (with_winColors wc1 wd)
                     = Some (ba, with_winColors wc2 wd))).
  { rewrite color_test.
    destruct (bool_decide (bg style = ColorDefault ∨ bg style = ColorReset));
      cbn [negb].
    - by exists ba0, wc1.
    - destruct (mapColor2RGB_spec (bg style) (with_winColors wc1 wd))
        as (v & wc & E & Hv).
      by exists v, wc. }
  destruct Hb as (ba & wc2 & Eb & Hba & Hb).
  eexists fa, ba, wc1, wc2, _.
  split; [|split; [exact Hfa|split; [exact Hba|split; [exact Hf|split;
    [exact Hb|]]]]].
  - unfold mbind, M_bind. rewrite Ef, Eb. reflexivity.
  - by apply legacy_word_assembled.
Qed.

End style_facts.

(** Scenario S1: red on default maps to the low nibble 0xC over the
    original background nibble. *)
Example mapStyle_S1 :
  fst <$> mapStyle
            {| fg := ColorRed; bg := ColorDefault;
               ulStyle := UnderlineStyleNone; ulColor := ColorDefault;
               attrs := 0; url := ""; urlId := "" |}
            (legacy_world 120 50)
  = Some 0x0c.
Proof. vm_compute. reflexivity. Qed.

(** Reverse moves red to the high nibble; bold then intensifies the low
    nibble, which holds the original background. *)
Example mapStyle_red_bold_reverse :
  fst <$> mapStyle style_red_bold_reverse (legacy_world 120 50) = Some 0xc8.
Proof. vm_compute. reflexivity. Qed.

(** ** What the operations leave alone *)

Section frames.
Context `{RT : Runtime} {H : Type} `{CH : !Console H}.
Context {B : Type} (f : cScreen → B).
Implicit Types (wd : @World H).

Lemma keeps_ret {A : Type} (a : A) : keeps f (mret a : @M H A).
Proof. intros wd a' wd' E. by injection E as <- <-. Qed.

Lemma keeps_panic {A : Type} : keeps f (panic : @M H A).
Proof. by intros wd a' wd' E. Qed.

Lemma keeps_bind {A C : Type} (m : @M H A) (k : A → @M H C) :
  keeps f m → (∀ a, keeps f (k a)) → keeps f (m ≫= k).
Proof.
  intros Hm Hk wd c wd' E. unfold mbind, M_bind in E.
  destruct (m wd) as [[a wd1]|] eqn:E1; [|done].
  rewrite (Hk a _ _ _ E). by eapply Hm.
Qed.

Lemma keeps_get_s : keeps f (get_s (H:=H)).
Proof. intros wd a wd' E. by injection E as <- <-. Qed.

Lemma keeps_ask {A : Type} (q : H → A) : keeps f (ask q).
Proof. intros wd a wd' E. by injection E as <- <-. Qed.

Lemma keeps_call (c : Call) : keeps f (call c).
Proof. intros wd a wd' E. by injection E as <- <-. Qed.

Lemma keeps_get_winColors : keeps f (get_winColors (H:=H)).
Proof. intros wd a wd' E. by injection E as <- <-. Qed.

Lemma keeps_put_winColors (m : gmap Z Z) : keeps f (put_winColors (H:=H) m).
Proof. intros wd a wd' E. by injection E as <- <-. Qed.

Lemma keeps_modify (g : cScreen → cScreen) :
  (∀ s, f (g s) = f s) → keeps f (modify_s (H:=H) g).
Proof. intros Hg wd a wd' E. injection E as <- <-. apply Hg. Qed.

Lemma keeps_forM (l : list Z) (body : Z → @M H unit) :
  (∀ i, keeps f (body i)) → keeps f (forM l body).
Proof.
  intros Hb. induction l as [|i l IH]; cbn [forM].
  - apply keeps_ret.
  - apply keeps_bind; [apply Hb|]. by intros _.
Qed.

Lemma keeps_close (c : chanState) : keeps f (close (H:=H) c).
Proof. destruct c; [apply keeps_panic|apply keeps_ret|apply keeps_panic]. Qed.

End frames.

Create HintDb keeps discriminated.

#[global] Hint Resolve keeps_ret keeps_panic keeps_get_s keeps_ask keeps_call
  keeps_get_winColors keeps_put_winColors keeps_close : keeps.
#[global] Hint Extern 1 (_ = _) => reflexivity : keeps.

(** One step of a frame proof: split a bind, enter a branch, or close the
    goal from the hints. *)
Ltac keeps_step :=
  match goal with
  | |- keeps _ (_ ≫= _) => apply keeps_bind; [|intros ?]
  | |- keeps _ (forM _ _) => apply keeps_forM; intros ?
  | |- keeps _ (modify_s _) =>
      apply keeps_modify; intros ?; cbn beta; solve [eauto with keeps]
  | |- keeps _ (if ?c then _ else _) => destruct c
  | |- keeps _ (match ?c with _ => _ end) => destruct c
  | |- keeps _ _ => solve [eauto with keeps]
  end.

Ltac keeps_tac := repeat keeps_step.

Section frames_emit.
Context `{RT : Runtime} {H : Type} `{CH : !Console H}.
Context {B : Type} (f : cScreen → B).

Lemma keeps_emitVtString vs : keeps f (emitVtString (H:=H) vs).
Proof. unfold emitVtString. keeps_tac. Qed.
#[local] Hint Resolve keeps_emitVtString : keeps.

Lemma keeps_setCursorInfo info : keeps f (setCursorInfo (H:=H) info).
Proof. unfold setCursorInfo. keeps_tac. Qed.
#[local] Hint Resolve keeps_setCursorInfo : keeps.

Lemma keeps_setCursorPos x y vt : keeps f (setCursorPos (H:=H) x y vt).
Proof. unfold setCursorPos. keeps_tac. Qed.
#[local] Hint Resolve keeps_setCursorPos : keeps.

Lemma keeps_setBufferSize x y : keeps f (setBufferSize (H:=H) x y).
Proof. unfold setBufferSize. keeps_tac. Qed.
#[local] Hint Resolve keeps_setBufferSize : keeps.

Lemma keeps_setInMode mode : keeps f (setInMode (H:=H) mode).
Proof. unfold setInMode. keeps_tac. Qed.
#[local] Hint Resolve keeps_setInMode : keeps.

Lemma keeps_setOutMode mode : keeps f (setOutMode (H:=H) mode).
Proof. unfold setOutMode. keeps_tac. Qed.
#[local] Hint Resolve keeps_setOutMode : keeps.

Lemma keeps_getConsoleInfo info : keeps f (getConsoleInfo (H:=H) info).
Proof. unfold getConsoleInfo. keeps_tac. Qed.
#[local] Hint Resolve keeps_getConsoleInfo : keeps.

Lemma keeps_getCursorInfo info : keeps f (getCursorInfo (H:=H) info).
Proof. unfold getCursorInfo. keeps_tac. Qed.
#[local] Hint Resolve keeps_getCursorInfo : keeps.

Lemma keeps_getInMode v : keeps f (getInMode (H:=H) v).
Proof. unfold getInMode. keeps_tac. Qed.
#[local] Hint Resolve keeps_getInMode : keeps.

Lemma keeps_getOutMode v : keeps f (getOutMode (H:=H) v).
Proof. unfold getOutMode. keeps_tac. Qed.
#[local] Hint Resolve keeps_getOutMode : keeps.

Lemma keeps_showCursor : keeps f (showCursor (H:=H)).
Proof. unfold showCursor. keeps_tac. Qed.
#[local] Hint Resolve keeps_showCursor : keeps.

Lemma keeps_hideCursor : keeps f (hideCursor (H:=H)).
Proof. unfold hideCursor. keeps_tac. Qed.
#[local] Hint Resolve keeps_hideCursor : keeps.

Lemma keeps_doCursor : keeps f (doCursor (H:=H)).
Proof. unfold doCursor. keeps_tac. Qed.
#[local] Hint Resolve keeps_doCursor : keeps.

Lemma keeps_enableMouse on : keeps f (enableMouse (H:=H) on).
Proof. unfold enableMouse. keeps_tac. Qed.
#[local] Hint Resolve keeps_enableMouse : keeps.

Lemma keeps_mapColor2RGB c : keeps f (mapColor2RGB (H:=H) c).
Proof. unfold mapColor2RGB. keeps_tac. Qed.
#[local] Hint Resolve keeps_mapColor2RGB : keeps.

Lemma keeps_mapStyle style : keeps f (mapStyle (H:=H) style).
Proof. unfold mapStyle. keeps_tac. Qed.
#[local] Hint Resolve keeps_mapStyle : keeps.

Lemma keeps_sendVtStyle style : keeps f (sendVtStyle (H:=H) style).
Proof. unfold sendVtStyle. keeps_tac. Qed.
#[local] Hint Resolve keeps_sendVtStyle : keeps.

Lemma keeps_writeString x y style vtBuf ch :
  keeps f (writeString (H:=H) x y style vtBuf ch).
Proof. unfold writeString. keeps_tac. Qed.
#[local] Hint Resolve keeps_writeString : keeps.

Lemma keeps_strings_Repeat t n : keeps f (strings_Repeat (H:=H) t n).
Proof. unfold strings_Repeat. keeps_tac. Qed.
#[local] Hint Resolve keeps_strings_Repeat : keeps.

Lemma keeps_clearScreen style vt : keeps f (clearScreen (H:=H) style vt).
Proof. unfold clearScreen. keeps_tac. Qed.
#[local] Hint Resolve keeps_clearScreen : keeps.

Lemma keeps_Open name : keeps f (Open (H:=H) name).
Proof. unfold Open. keeps_tac. Qed.

Lemma keeps_Getenv name : keeps f (Getenv (H:=H) name).
Proof. unfold Getenv. keeps_tac. Qed.

End frames_emit.

#[global] Hint Resolve keeps_emitVtString keeps_setCursorInfo
  keeps_setCursorPos keeps_setBufferSize keeps_setInMode keeps_setOutMode
  keeps_getConsoleInfo keeps_getCursorInfo keeps_getInMode keeps_getOutMode
  keeps_showCursor keeps_hideCursor keeps_doCursor keeps_enableMouse
  keeps_mapColor2RGB keeps_mapStyle keeps_sendVtStyle keeps_writeString
  keeps_strings_Repeat keeps_clearScreen keeps_Open keeps_Getenv : keeps.

Section frames_draw.
Context `{RT : Runtime} {H : Type} `{CH : !Console H}.
Context {B : Type} (f : cScreen → B).
Hypothesis f_cells : ∀ c s, f (set_cells c s) = f s.

Lemma keeps_draw_emit x y mainc combc style width d :
  keeps f (draw_emit (H:=H) x y mainc combc style width d).
Proof. unfold draw_emit. keeps_tac. Qed.
#[local] Hint Resolve keeps_draw_emit : keeps.

Lemma keeps_draw_cell vtBuf x y d :
  keeps f (draw_cell (H:=H) vtBuf x y d).
Proof. unfold draw_cell. keeps_tac. Qed.
#[local] Hint Resolve keeps_draw_cell : keeps.

Lemma keeps_draw_cols fuel vtBuf x y d :
  keeps f (draw_cols (H:=H) fuel vtBuf x y d).
Proof.
  revert x d. induction fuel as [|fuel IH]; intros x d; cbn [draw_cols];
    keeps_tac.
Qed.
#[local] Hint Resolve keeps_draw_cols : keeps.

Lemma keeps_draw_row vtBuf y d : keeps f (draw_row (H:=H) vtBuf y d).
Proof. unfold draw_row. keeps_tac. Qed.
#[local] Hint Resolve keeps_draw_row : keeps.

Lemma keeps_draw_rows vtBuf ys d : keeps f (draw_rows (H:=H) vtBuf ys d).
Proof.
  revert d. induction ys as [|y ys IH]; intros d; cbn [draw_rows];
    keeps_tac.
Qed.
#[local] Hint Resolve keeps_draw_rows : keeps.

Lemma keeps_draw : keeps f (draw (H:=H)).
Proof. unfold draw. keeps_tac. Qed.
#[local] Hint Resolve keeps_draw : keeps.

Hypothesis f_w : ∀ v s, f (set_s_w v s) = f s.
Hypothesis f_h : ∀ v s, f (set_s_h v s) = f s.
Hypothesis f_eventQ : ∀ v s, f (set_eventQ v s) = f s.

Lemma keeps_resize : keeps f (resize (H:=H)).
Proof. unfold resize. keeps_tac. Qed.
#[local] Hint Resolve keeps_resize : keeps.

Lemma keeps_Show : keeps f (Show (H:=H)).
Proof. unfold Show. keeps_tac. Qed.

Lemma keeps_Sync : keeps f (Sync (H:=H)).
Proof. unfold Sync. keeps_tac. Qed.

Hypothesis f_running : ∀ v s, f (set_running v s) = f s.
Hypothesis f_stopQ : ∀ v s, f (set_stopQ v s) = f s.
Hypothesis f_wg : ∀ v s, f (set_wg v s) = f s.
Hypothesis f_cancelflag : ∀ v s, f (set_cancelflag v s) = f s.

Lemma keeps_disengage : keeps f (disengage (H:=H)).
Proof. unfold disengage. keeps_tac. Qed.
#[local] Hint Resolve keeps_disengage : keeps.

Lemma keeps_engage : keeps f (engage (H:=H)).
Proof. unfold engage. keeps_tac. Qed.

Hypothesis f_quit : ∀ v s, f (set_quit v s) = f s.
Hypothesis f_finiOnce : ∀ v s, f (set_finiOnce v s) = f s.

Lemma keeps_Fini : keeps f (Fini (H:=H)).
Proof. unfold Fini. keeps_tac. Qed.

End frames_draw.

(** ** The guard flag *)

(** Only [Init] assigns the guard flag [fini]; the other operations leave
    it as it is. *)
Lemma Fini_keeps_fini {H : Type} `{RT : Runtime} `{CH : !Console H} :
  keeps fini (Fini (H:=H)).
Proof. apply keeps_Fini; reflexivity. Qed.

Lemma engage_keeps_fini {H : Type} `{RT : Runtime} `{CH : !Console H} :
  keeps fini (engage (H:=H)).
Proof. apply keeps_engage; reflexivity. Qed.

Lemma Show_keeps_fini {H : Type} `{RT : Runtime} `{CH : !Console H} :
  keeps fini (Show (H:=H)).
Proof. apply keeps_Show; reflexivity. Qed.

(** C1, where the code departs from it: [Fini] returns and the guard flag
    is still false.  A cell written afterwards is drawn by [Show],
    [ShowCursor] moves and shows the cursor, and [SetCursor] stores its
    arguments. *)
Theorem guard_open_after_Fini :
  Init (world_init [("TCELL_VTMODE", "disable")] false 4 2 (120 + 50 * 65536))
  = Some (None, legacy_world 120 50)
  ∧ Fini (legacy_world 120 50) = Some (tt, finished_world)
  ∧ fini (scr finished_world) = false
  ∧ calls_of (put_cell 1 0 66 [] StyleDefault ;; Show) finished_world
    = [ SetConsoleCursorInfo 4 {| ci_size := 1; ci_visible := 0 |};
        SetConsoleCursorPosition 4 1; SetConsoleTextAttribute 4 7;
        WriteConsole 4 [66];
        SetConsoleCursorInfo 4 {| ci_size := 1; ci_visible := 0 |} ]
  ∧ calls_of (ShowCursor 1 1) finished_world
    = [ SetConsoleCursorPosition 4 (1 + 1 * 65536);
        SetConsoleCursorInfo 4 {| ci_size := 100; ci_visible := 1 |} ]
  ∧ curx (scr (exec (ShowCursor 1 1) finished_world)) = 1
  ∧ cursorStyle
      (scr (exec (SetCursor CursorStyleSteadyBar ColorRed) finished_world))
    = CursorStyleSteadyBar.
Proof.
  refine (conj _ (conj _ (conj _ (conj _ (conj _ (conj _ _))))));
    vm_compute; reflexivity.
Qed.

(** ** Init and the environment *)

#[global] Hint Resolve keeps_draw keeps_resize keeps_engage keeps_disengage
  : keeps.

Section init_facts.
Context `{RT : Runtime} {H : Type} `{CH : !Console H}.
Implicit Types (wd : @World H).

Lemma bind_inv {A C : Type} (m : @M H A) (k : A → @M H C) wd c wd' :
  (m ≫= k) wd = Some (c, wd') →
  ∃ a wd1, m wd = Some (a, wd1) ∧ k a wd1 = Some (c, wd').
Proof.
  unfold mbind, M_bind. destruct (m wd) as [[a wd1]|]; [|done]. eauto.
Qed.

Lemma keeps_preserves {A B : Type} (f : cScreen → B) (b : B) (m : @M H A) :
  keeps f m → preserves (λ s, f s = b) m.
Proof. intros Hk wd a wd' E Hb. by rewrite (Hk _ _ _ E). Qed.

Lemma preserves_bind {A C : Type} (P : cScreen → Prop) (m : @M H A)
    (k : A → @M H C) :
  preserves P m → (∀ a, preserves P (k a)) → preserves P (m ≫= k).
Proof.
  intros Hm Hk wd c wd' E HP.
  apply bind_inv in E as (a & wd1 & E1 & E2).
  eapply Hk; [exact E2|]. by eapply Hm.
Qed.

Lemma preserves_modify (P : cScreen → Prop) (g : cScreen → cScreen) :
  (∀ s, P s → P (g s)) → preserves P (modify_s (H:=H) g).
Proof. intros Hg wd a wd' E HP. injection E as <- <-. by apply Hg. Qed.

(** The part of Init after the truecolor switch never turns the flag
    on. *)
Lemma Init_console_truecolor (tryVt : bool) :
  preserves (λ s, truecolor s = false) (Init_console (H:=H) tryVt).
Proof.
  unfold Init_console, Init_vt, Init_vtmode.
  repeat first
    [ apply preserves_bind; [|intros ?]
    | apply preserves_modify; intros ? ?; solve [reflexivity|assumption]
    | match goal with
      | |- preserves _ (if ?c then _ else _) => destruct c
      end
    | apply keeps_preserves; solve [keeps_tac] ].
Qed.

Lemma Init_truecolor_enable wd :
  os_Getenv (host wd) "TCELL_TRUECOLOR" = "enable" →
  Init_truecolor wd = Some (true, with_truecolor true wd).
Proof.
  intros E.
  unfold Init_truecolor, Getenv, ask, modify_s, mbind, M_bind, mret, M_ret.
  cbn [host scr trace winColors].
  destruct (negb _); cbn [host scr trace winColors]; rewrite E;
    (destruct (decide ("enable" = "disable")); [done|]);
    (destruct (decide ("enable" = "enable")); [|done]); reflexivity.
Qed.

Lemma Init_truecolor_disable wd :
  os_Getenv (host wd) "TCELL_TRUECOLOR" = "disable" →
  Init_truecolor wd
  = Some (bool_decide (os_Getenv (host wd) "ConEmuPID" = ""),
          with_truecolor false wd).
Proof.
  intros E.
  unfold Init_truecolor, Getenv, ask, modify_s, mbind, M_bind, mret, M_ret.
  cbn [host scr trace winColors].
  destruct (bool_decide _); cbn [negb host scr trace winColors]; rewrite E;
    (destruct (decide ("disable" = "disable")); [|done]); reflexivity.
Qed.

Lemma Init_disable_final wd0 wd' :
  Init wd0 = Some (None, wd') →
  os_Getenv (host_at_switch wd0) "TCELL_TRUECOLOR" = "disable" →
  truecolor (scr wd') = false.
Proof.
  intros E Henv. unfold Init in E.
  do 3 (apply bind_inv in E as (? & ? & Hs & E); injection Hs as <- <-).
  apply bind_inv in E as ([hin e] & wd1 & Hs & E).
  unfold Open, ask, call, mbind, M_bind, mret, M_ret in Hs. cbn in Hs.
  injection Hs as _ <-. cbn [fst snd] in E.
  destruct e as [e|]; [discriminate E|].
  apply bind_inv in E as (? & ? & Hs & E); injection Hs as <- <-.
  apply bind_inv in E as ([hout e] & wd2 & Hs & E).
  unfold Open, ask, call, mbind, M_bind, mret, M_ret in Hs. cbn in Hs.
  injection Hs as _ <-. cbn [fst snd] in E.
  destruct e as [e|].
  { do 2 (apply bind_inv in E as (? & ? & Hs & E); injection Hs as <- <-).
    discriminate E. }
  apply bind_inv in E as (? & ? & Hs & E); injection Hs as <- <-.
  apply bind_inv in E as (tryVt & wd3 & Hs & E).
  rewrite Init_truecolor_disable in Hs by exact Henv.
  injection Hs as _ <-.
  by apply (Init_console_truecolor _ _ _ _ E).
Qed.

(** C8, as the code has it: at the switch on TCELL_TRUECOLOR, [enable]
    turns the truecolor flag and the decision to try the VT path on;
    [disable] turns the truecolor flag off and leaves the decision as
    ConEmuPID set it, on when ConEmuPID is empty.  After [disable] the
    flag is off when Init returns without error. *)
Theorem TCELL_TRUECOLOR_switch wd :
  (os_Getenv (host wd) "TCELL_TRUECOLOR" = "enable" →
   Init_truecolor wd = Some (true, with_truecolor true wd))
  ∧ (os_Getenv (host wd) "TCELL_TRUECOLOR" = "disable" →
     Init_truecolor wd
     = Some (bool_decide (os_Getenv (host wd) "ConEmuPID" = ""),
             with_truecolor false wd))
  ∧ (∀ wd', Init wd = Some (None, wd') →
            os_Getenv (host_at_switch wd) "TCELL_TRUECOLOR" = "disable" →
            truecolor (scr wd') = false).
Proof.
  split; [apply Init_truecolor_enable|].
  split; [apply Init_truecolor_disable|].
  intros wd'. apply Init_disable_final.
Qed.

End init_facts.

Lemma TCELL_TRUECOLOR_switch_witness :
  Init_truecolor truecolor_enabled_world
  = Some (true, with_truecolor true truecolor_enabled_world)
  ∧ Init_truecolor truecolor_disabled_world
    = Some (bool_decide
              (os_Getenv (host truecolor_disabled_world) "ConEmuPID" = ""),
            with_truecolor false truecolor_disabled_world)
  ∧ truecolor (scr (exec Init truecolor_disabled_world)) = false.
Proof.
  split; [|split].
  - apply (proj1 (TCELL_TRUECOLOR_switch truecolor_enabled_world)).
    vm_compute. reflexivity.
  - apply (proj1 (proj2 (TCELL_TRUECOLOR_switch truecolor_disabled_world))).
    vm_compute. reflexivity.
  - apply (proj2 (proj2 (TCELL_TRUECOLOR_switch truecolor_disabled_world))
             (exec Init truecolor_disabled_world));
      vm_compute; reflexivity.
Defined.

(** C8 as stated fails for [disable]: on a console that accepts the VT
    output mode, the decision to try the VT path stays on, Init asks for
    the VT output mode (its sixth call) and the VT path is enabled. *)
Lemma TCELL_TRUECOLOR_counterexample :
  os_Getenv (host truecolor_disabled_world) "TCELL_TRUECOLOR" = "disable"
  ∧ fst <$> Init_truecolor truecolor_disabled_world = Some true
  ∧ Init truecolor_disabled_world
    = Some (None, exec Init truecolor_disabled_world)
  ∧ trace (exec Init truecolor_disabled_world) !! 5%nat
    = Some (SetConsoleMode 4 vt_out_mode)
  ∧ vten (scr (exec Init truecolor_disabled_world)) = true
  ∧ truecolor (scr (exec Init truecolor_disabled_world)) = false.
Proof.
  refine (conj _ (conj _ (conj _ (conj _ (conj _ _)))));
    vm_compute; reflexivity.
Qed.

(** ** The renderer *)

Section cell_facts.
Implicit Types (cb : CellBuffer).

Lemma cb_lookup_SetDirty cb x' y' b x y :
  cb_lookup (SetDirty cb x' y' b) x y = cb_lookup cb x y
  ∨ cb_lookup (SetDirty cb x' y' b) x y
    = cell_set_dirty b <$> cb_lookup cb x y.
Proof.
  unfold SetDirty. destruct (cb_in_range cb x' y') eqn:R'; [|by left].
  unfold cb_lookup, cb_in_range, cb_index. cbn [cb_w cb_h cb_cells].
  destruct (_ && _); [|by left].
  destruct (decide (Z.to_nat (y' * cb_w cb + x') = Z.to_nat (y * cb_w cb + x)))
    as [->|Hne].
  - right. apply list_lookup_alter_eq.
  - left. by apply list_lookup_alter_ne.
Qed.

Lemma cb_lookup_SetDirty_eq cb x y b :
  cb_lookup (SetDirty cb x y b) x y = cell_set_dirty b <$> cb_lookup cb x y.
Proof.
  unfold SetDirty. destruct (cb_in_range cb x y) eqn:R.
  - unfold cb_lookup, cb_in_range, cb_index in *.
    cbn [cb_w cb_h cb_cells]. rewrite R. apply list_lookup_alter_eq.
  - unfold cb_lookup. by rewrite R.
Qed.

(** [SetDirty] changes no content. *)
Lemma GetContent_SetDirty cb x' y' b x y :
  GetContent (SetDirty cb x' y' b) x y = GetContent cb x y.
Proof.
  unfold GetContent.
  destruct (cb_lookup_SetDirty cb x' y' b x y) as [-> | ->]; [done|].
  by destruct (cb_lookup cb x y).
Qed.

Lemma Dirty_SetDirty_eq cb x y :
  Dirty (SetDirty cb x y false) x y = false.
Proof.
  unfold Dirty. rewrite cb_lookup_SetDirty_eq.
  by destruct (cb_lookup cb x y).
Qed.

(** A dirty cell lies within the buffer, and its width reads as at least
    one column. *)
Lemma Dirty_GetContent_width cb x y :
  Dirty cb x y = true → 1 ≤ (GetContent cb x y).2.
Proof.
  unfold Dirty, GetContent. destruct (cb_lookup cb x y) as [c|]; [|done].
  intros _. cbn [snd]. case_decide; lia.
Qed.

End cell_facts.

Section render_facts.
Context `{RT : Runtime} {H : Type} `{CH : !Console H}.
Implicit Types (wd : @World H).

Lemma mapStyle_total style wd :
  ∃ word wc, mapStyle style wd = Some (word, with_winColors wc wd).
Proof.
  destruct (mapStyle_legacy_word style wd) as (_ & _ & _ & wc & word & E & _).
  eauto.
Qed.

(** [writeString] always returns and leaves the screen alone; a run that
    is not empty ends the buffer of the last call it makes. *)
Lemma writeString_spec x y style vtBuf ch wd :
  ∃ wd', writeString x y style vtBuf ch wd = Some (tt, wd')
    ∧ scr wd' = scr wd
    ∧ (ch ≠ [] →
       ∃ calls buf,
         trace wd' = trace wd ++ calls
                     ++ [WriteConsole (s_out (scr wd)) (buf ++ ch)]).
Proof.
  unfold writeString. destruct ch as [|c ch].
  { exists wd. by split. }
  unfold mbind at 1, M_bind at 1, get_s at 1.
  destruct (vten (scr wd)) eqn:V.
  - eexists. split; [reflexivity|]. split; [reflexivity|]. intros _.
    exists [], (vtBuf ++ utf16_Encode (runes (vtCursorPos (y + 1) (x + 1)))
                 ++ utf16_Encode (runes (makeVtStyle style))).
    cbn [trace app]. by rewrite <- !app_assoc.
  - unfold setCursorPos, mbind, M_bind, get_s, call.
    cbn [scr trace host winColors].
    match goal with
    | |- context [mapStyle style ?w] =>
        destruct (mapStyle_total style w) as (word & wc & ->)
    end.
    cbn [scr trace host winColors with_winColors].
    eexists. split; [reflexivity|]. split; [reflexivity|]. intros _.
    cbn [trace]. eexists [_; _], []. by rewrite <- !app_assoc.
Qed.

Lemma draw_emit_overflow x y mainc combc style width d wd :
  s_w (scr wd) < x + width →
  draw_emit x y mainc combc style width d wd
  = Some ((x + 1,
           {| wcs := wcs d ++ [32];
              lstyle := if decide (length (wcs d) = 0%nat) then style
                        else lstyle d;
              lx := if decide (length (wcs d) = 0%nat) then x else lx d;
              ly := if decide (length (wcs d) = 0%nat) then y else ly d |}),
          with_cells (SetDirty (cells (scr wd)) x y false) wd).
Proof.
  intros Hw. unfold draw_emit. unfold mbind at 1, M_bind at 1, get_s at 1.
  destruct (Z.gtb_spec x (s_w (scr wd) - width)); [|lia].
  cbn beta iota zeta.
  change (seqZ 0 1) with [0]. cbn [forM].
  unfold mbind, M_bind, modify_s, mret, M_ret. cbn [scr host trace winColors].
  rewrite Z.add_0_r. replace (x + (1 - 1) + 1) with (x + 1) by lia.
  unfold with_cells. do 3 f_equal.
  - destruct (decide (length (wcs d) = 0%nat)), d; cbn;
      by rewrite decide_True.
  - by rewrite Z.add_0_r.
Qed.

(** The turn of the loop at a dirty cell whose width takes it past the
    right edge. *)
(** A clean cell is skipped: the run in progress is flushed and nothing
    is queued or changed for the cell. *)
Lemma draw_cell_clean vtBuf x y d wd :
  Dirty (cells (scr wd)) x y = false →
  draw_cell vtBuf x y d wd
  = (writeString (lx d) (ly d) (lstyle d) vtBuf (wcs d) ;;
     mret (x + 1, flushed d)) wd.
Proof.
  intros Hd. unfold draw_cell.
  unfold mbind at 1, M_bind at 1, get_s at 1.
  destruct (GetContent (cells (scr wd)) x y) as [[[mainc combc] style] width].
  rewrite Hd. reflexivity.
Qed.

(** C7: when [draw] reaches a cell at column [x] whose width takes it
    past the right edge ([x + width > w]), it queues one space and no
    combining mark for it and moves on by one column; the next flush
    writes that space to the console.  The stored cell keeps its rune,
    combining sequence, style and width: only its dirty bit is cleared,
    and no other cell changes.  This is the turn for a dirty cell, the
    only ones [draw] renders: a clean cell is skipped before its width is
    looked at. *)
Theorem draw_wide_overflow vtBuf x y d wd :
  Dirty (cells (scr wd)) x y = true →
  s_w (scr wd) < x + (GetContent (cells (scr wd)) x y).2 →
  ∃ wd' d',
    draw_cell vtBuf x y d wd = Some ((x + 1, d'), wd')
    ∧ wcs d'
      = (if decide (effective_style (scr wd)
                      (GetContent (cells (scr wd)) x y).1.2 = lstyle d)
         then wcs d else []) ++ [32]
    ∧ cells (scr wd') = SetDirty (cells (scr wd)) x y false
    ∧ cb_lookup (cells (scr wd')) x y
      = cell_set_dirty false <$> cb_lookup (cells (scr wd)) x y
    ∧ GetContent (cells (scr wd')) x y = GetContent (cells (scr wd)) x y
    ∧ Dirty (cells (scr wd')) x y = false
    ∧ ∃ wd'' calls buf,
        writeString (lx d') (ly d') (lstyle d') vtBuf (wcs d') wd'
        = Some (tt, wd'')
        ∧ trace wd'' = trace wd' ++ calls
                       ++ [WriteConsole (s_out (scr wd)) (buf ++ [32])].
Proof.
  intros Hd Hw. unfold draw_cell.
  unfold mbind at 1, M_bind at 1, get_s at 1.
  destruct (GetContent (cells (scr wd)) x y) as [[[mainc combc] style] width]
    eqn:G.
  cbn [fst snd] in *. rewrite Hd. cbn [negb orb].
  fold (effective_style (scr wd) style).
  set (st := effective_style (scr wd) style).
  assert (Hfin : ∀ wd1 d1 pre,
             scr wd1 = scr wd →
             wcs d1 = pre →
             ∃ wd' d',
               draw_emit x y mainc combc st width d1 wd1
               = Some ((x + 1, d'), wd')
               ∧ wcs d' = pre ++ [32]
               ∧ cells (scr wd') = SetDirty (cells (scr wd)) x y false
               ∧ cb_lookup (cells (scr wd')) x y
                 = cell_set_dirty false <$> cb_lookup (cells (scr wd)) x y
               ∧ GetContent (cells (scr wd')) x y = (mainc, combc, style, width)
               ∧ Dirty (cells (scr wd')) x y = false
               ∧ ∃ wd'' calls buf,
                   writeString (lx d') (ly d') (lstyle d') vtBuf (wcs d') wd'
                   = Some (tt, wd'')
                   ∧ trace wd'' = trace wd' ++ calls
                         ++ [WriteConsole (s_out (scr wd)) (buf ++ [32])]).
  { intros wd1 d1 pre Hs Hpre.
    rewrite draw_emit_overflow by (rewrite Hs; lia).
    eexists _, _. split; [reflexivity|].
    cbn [wcs lstyle lx ly scr with_cells cells set_cells]. rewrite Hs, Hpre.
    refine (conj eq_refl (conj eq_refl (conj (cb_lookup_SetDirty_eq _ _ _ _)
             (conj _ (conj (Dirty_SetDirty_eq _ _ _) _)))));
      [by rewrite GetContent_SetDirty|].
    match goal with
    | |- context [writeString ?a ?b ?c ?v ?ch ?w] =>
        destruct (writeString_spec a b c v ch w) as (wd2 & E & _ & Hc)
    end.
    destruct Hc as (calls & buf & Htr); [by destruct pre|].
    exists wd2, calls, (buf ++ pre). split; [exact E|].
    rewrite Htr. cbn [scr with_cells s_out set_cells]. rewrite Hs.
    by rewrite <- (app_assoc buf). }
  destruct (decide (st = lstyle d)) as [E|E].
  - rewrite (bool_decide_eq_true_2 _ E). cbn [negb].
    by apply Hfin.
  - rewrite (bool_decide_eq_false_2 _ E). cbn [negb].
    destruct (writeString_spec (lx d) (ly d) (lstyle d) vtBuf (wcs d) wd)
      as (wd1 & Ew & Hs & _).
    unfold mbind, M_bind. rewrite Ew.
    by apply Hfin.
Qed.

End render_facts.

Lemma draw_wide_overflow_witness :
  GetContent (cells (scr wide_world)) 3 0 = (0x4e2d, [], StyleDefault, 2)
  ∧ ∃ wd' d',
      draw_cell [] 3 0 row_start wide_world = Some ((4, d'), wd')
      ∧ wcs d' = [32]
      ∧ GetContent (cells (scr wd')) 3 0 = (0x4e2d, [], StyleDefault, 2)
      ∧ Dirty (cells (scr wd')) 3 0 = false.
Proof.
  split; [vm_compute; reflexivity|].
  destruct (draw_wide_overflow [] 3 0 row_start wide_world)
    as (wd' & d' & E & Hw & _ & _ & Hg & Hd & _).
  - vm_compute. reflexivity.
  - vm_compute. reflexivity.
  - exists wd', d'. split; [exact E|]. split; [exact Hw|].
    split; [|exact Hd]. rewrite Hg. vm_compute. reflexivity.
Defined.

(** Scenario S4, through [Show]: column 3 is written as one space. *)
Example wide_glyph_S4 :
  calls_of Show wide_world
  = [ SetConsoleCursorInfo 4 {| ci_size := 1; ci_visible := 0 |};
      SetConsoleCursorPosition 4 3; SetConsoleTextAttribute 4 7;
      WriteConsole 4 [32];
      SetConsoleCursorInfo 4 {| ci_size := 1; ci_visible := 0 |} ].
Proof. vm_compute. reflexivity. Qed.

Section blind_facts.
Context `{RT : Runtime} {H : Type} `{CH : !Console H}.
Implicit Types (wd : @World H).

Lemma cells_blind_ret {A : Type} (a : A) : cells_blind (mret a : @M H A).
Proof. by intros cb wd. Qed.

Lemma cells_blind_panic {A : Type} : cells_blind (panic : @M H A).
Proof. by intros cb wd. Qed.

Lemma cells_blind_call (c : Call) : cells_blind (call (H:=H) c).
Proof. by intros cb wd. Qed.

Lemma cells_blind_get_winColors : cells_blind (get_winColors (H:=H)).
Proof. by intros cb wd. Qed.

Lemma cells_blind_put_winColors m : cells_blind (put_winColors (H:=H) m).
Proof. by intros cb wd. Qed.

Lemma cells_blind_bind {A C : Type} (m : @M H A) (k : A → @M H C) :
  cells_blind m → (∀ a, cells_blind (k a)) → cells_blind (m ≫= k).
Proof.
  intros Hm Hk cb wd. unfold mbind, M_bind. rewrite Hm.
  destruct (m wd) as [[a wd1]|]; [|done]. cbn. apply Hk.
Qed.

(** Reading the screen is allowed when the rest does not look at the
    cells. *)
Lemma cells_blind_get_s {C : Type} (k : cScreen → @M H C) :
  (∀ s, cells_blind (k s)) → (∀ s cb, k (set_cells cb s) = k s) →
  cells_blind (get_s ≫= k).
Proof.
  intros Hk Hs cb wd. unfold mbind, M_bind, get_s.
  cbn [scr with_cells]. rewrite Hs. apply Hk.
Qed.

Ltac blind_step :=
  match goal with
  | |- cells_blind (get_s ≫= _) =>
      apply cells_blind_get_s; [intros ?|intros ? ?; reflexivity]
  | |- cells_blind (_ ≫= _) => apply cells_blind_bind; [|intros ?]
  | |- cells_blind (if ?c then _ else _) => destruct c
  | |- cells_blind (match ?c with _ => _ end) => destruct c
  | |- cells_blind _ =>
      first [ apply cells_blind_ret | apply cells_blind_panic
            | apply cells_blind_call | apply cells_blind_get_winColors
            | apply cells_blind_put_winColors | assumption ]
  end.

Lemma cells_blind_emitVtString vs : cells_blind (emitVtString (H:=H) vs).
Proof. unfold emitVtString. repeat blind_step. Qed.

Lemma cells_blind_setCursorPos x y vt :
  cells_blind (setCursorPos (H:=H) x y vt).
Proof.
  unfold setCursorPos. destruct vt; [apply cells_blind_emitVtString|].
  repeat blind_step.
Qed.

Lemma cells_blind_mapColor2RGB c : cells_blind (mapColor2RGB (H:=H) c).
Proof. unfold mapColor2RGB. repeat blind_step. Qed.

Lemma cells_blind_mapStyle style : cells_blind (mapStyle (H:=H) style).
Proof.
  unfold mapStyle.
  repeat first [apply cells_blind_mapColor2RGB | blind_step].
Qed.

Lemma cells_blind_writeString x y style vtBuf ch :
  cells_blind (writeString (H:=H) x y style vtBuf ch).
Proof.
  unfold writeString.
  repeat first [ apply cells_blind_mapStyle | apply cells_blind_setCursorPos
               | blind_step ].
Qed.

Lemma cells_blind_write_runs vtBuf y rs :
  cells_blind (write_runs (H:=H) vtBuf y rs).
Proof.
  induction rs as [|r rs IH]; cbn [write_runs].
  - apply cells_blind_ret.
  - apply cells_blind_bind; [apply cells_blind_writeString|by intros _].
Qed.

End blind_facts.

Section clear_facts.
Implicit Types (cb : CellBuffer).

Lemma cb_in_range_SetDirty cb x' y' b x y :
  cb_in_range (SetDirty cb x' y' b) x y = cb_in_range cb x y.
Proof. unfold SetDirty. by destruct (cb_in_range cb x' y'). Qed.

(** Marking one cell leaves the dirty bit of any other cell alone. *)
Lemma Dirty_SetDirty_ne cb x' y' b x y :
  (x', y') ≠ (x, y) → Dirty (SetDirty cb x' y' b) x y = Dirty cb x y.
Proof.
  intros Hne. unfold Dirty, cb_lookup. rewrite cb_in_range_SetDirty.
  destruct (cb_in_range cb x y) eqn:R; [|done].
  unfold SetDirty. destruct (cb_in_range cb x' y') eqn:R'; [|done].
  unfold cb_index. cbn [cb_w cb_h cb_cells].
  rewrite list_lookup_alter_ne; [done|].
  unfold cb_in_range in R, R'.
  apply andb_prop in R as [R Ry], R' as [R' Ry'].
  apply andb_prop in R as [R Rx], R' as [R' Rx'].
  apply andb_prop in R as [Rx0 Ry0], R' as [Rx0' Ry0'].
  apply Z.leb_le in Rx0, Ry0, Rx0', Ry0'.
  apply Z.ltb_lt in Rx, Ry, Rx', Ry'.
  intros E. apply Hne.
  assert (y' * cb_w cb + x' = y * cb_w cb + x) as E' by nia.
  assert (y' = y) by nia. subst y'. f_equal. lia.
Qed.

(** Clearing a dirty bit sets none. *)
Lemma Dirty_SetDirty_false cb x' y' x y :
  Dirty cb x y = false → Dirty (SetDirty cb x' y' false) x y = false.
Proof.
  intros Hd. destruct (decide ((x', y') = (x, y))) as [[= -> ->]|Hne].
  - apply Dirty_SetDirty_eq.
  - by rewrite Dirty_SetDirty_ne.
Qed.

Lemma GetContent_clear_cols cb x' y' n x y :
  GetContent (clear_cols cb x' y' n) x y = GetContent cb x y.
Proof.
  unfold clear_cols. generalize (seqZ 0 n). intros l. revert cb.
  induction l as [|dx l IH]; intros cb; cbn [foldl]; [done|].
  by rewrite IH, GetContent_SetDirty.
Qed.

Lemma Dirty_clear_cols_other cb x' y' n x y :
  (y ≠ y' ∨ x < x' ∨ x' + n ≤ x) →
  Dirty (clear_cols cb x' y' n) x y = Dirty cb x y.
Proof.
  intros Hout. unfold clear_cols.
  assert (Hl : ∀ dx, dx ∈ seqZ 0 n → (x' + dx, y') ≠ (x, y)).
  { intros dx Hdx [= E1 E2]. apply elem_of_seqZ in Hdx. lia. }
  revert Hl. generalize (seqZ 0 n). intros l. revert cb.
  induction l as [|dx l IH]; intros cb Hl; cbn [foldl]; [done|].
  rewrite IH by (intros; apply Hl; by right).
  apply Dirty_SetDirty_ne, Hl. by left.
Qed.

Lemma Dirty_fold_false cb x' y' (l : list Z) x y :
  Dirty cb x y = false →
  Dirty (foldl (λ cb dx, SetDirty cb (x' + dx) y' false) cb l) x y = false.
Proof.
  revert cb. induction l as [|dx l IH]; intros cb Hd; cbn [foldl]; [done|].
  by apply IH, Dirty_SetDirty_false.
Qed.

Lemma Dirty_clear_cols_false cb x' y' n x y :
  Dirty cb x y = false → Dirty (clear_cols cb x' y' n) x y = false.
Proof. apply Dirty_fold_false. Qed.

Lemma Dirty_clear_cols_in cb x' y n x :
  x' ≤ x < x' + n → Dirty (clear_cols cb x' y n) x y = false.
Proof.
  intros Hin. unfold clear_cols.
  assert (Hl : (x - x') ∈ seqZ 0 n) by (apply elem_of_seqZ; lia).
  revert Hl. generalize (seqZ 0 n). intros l. revert cb.
  induction l as [|dx l IH]; intros cb Hl; cbn [foldl].
  - by apply elem_of_nil in Hl.
  - apply elem_of_cons in Hl as [E|Hl]; [|by apply IH].
    apply Dirty_fold_false. replace (x' + dx) with x by lia.
    apply Dirty_SetDirty_eq.
Qed.

End clear_facts.

Section draw_facts.
Context `{RT : Runtime} {H : Type} `{CH : !Console H}.
Implicit Types (wd : @World H) (d : drawState).

Lemma with_cells_id wd : with_cells (cells (scr wd)) wd = wd.
Proof. by destruct wd as [[] ? ? ?]. Qed.

Lemma with_cells_twice cb1 cb2 wd :
  with_cells cb2 (with_cells cb1 wd) = with_cells cb2 wd.
Proof. done. Qed.

Lemma forM_SetDirty x y (l : list Z) wd :
  forM l (λ dx, modify_s
                  (λ s, set_cells (SetDirty (cells s) (x + dx) y false) s)) wd
  = Some (tt, with_cells
                (foldl (λ cb dx, SetDirty cb (x + dx) y false)
                   (cells (scr wd)) l) wd).
Proof.
  revert wd. induction l as [|dx l IH]; intros wd; cbn [forM foldl].
  - by rewrite with_cells_id.
  - unfold mbind, M_bind, modify_s. rewrite IH. done.
Qed.

Lemma draw_emit_spec x y style d wd :
  draw_emit x y (GetContent (cells (scr wd)) x y).1.1.1
    (GetContent (cells (scr wd)) x y).1.1.2 style
    (GetContent (cells (scr wd)) x y).2 d wd
  = Some ((x + (cell_glyph (scr wd) x y).2,
           queued x y style (cell_glyph (scr wd) x y).1 d),
          with_cells
            (clear_cols (cells (scr wd)) x y (cell_glyph (scr wd) x y).2) wd).
Proof.
  unfold draw_emit, cell_glyph.
  unfold mbind at 1, M_bind at 1, get_s at 1.
  destruct (GetContent (cells (scr wd)) x y) as [[[mainc combc] st] width].
  cbn [fst snd].
  destruct (x >? s_w (scr wd) - width); cbn [fst snd].
  - unfold mbind, M_bind. rewrite forM_SetDirty.
    unfold mret, M_ret, queued, clear_cols.
    replace (x + (1 - 1) + 1) with (x + 1) by lia.
    destruct (decide (length (wcs d) = 0%nat)); cbn [wcs lstyle lx ly];
      rewrite decide_True by done; reflexivity.
  - unfold mbind, M_bind. rewrite forM_SetDirty.
    unfold mret, M_ret, queued, clear_cols.
    replace (x + (width - 1) + 1) with (x + width) by lia.
    destruct (decide (length (wcs d) = 0%nat)), (decide (length combc = 0%nat));
      cbn [wcs lstyle lx ly]; rewrite ?app_nil_r, <- ?app_assoc; reflexivity.
Qed.


Lemma cell_glyph_agree s s0 x y :
  agree s s0 → cell_glyph s x y = cell_glyph s0 x y.
Proof. intros (Hw & _ & Hg). unfold cell_glyph. by rewrite Hg, Hw. Qed.

Lemma cell_style_agree s s0 x y :
  agree s s0 → cell_style s x y = cell_style s0 x y.
Proof.
  intros (_ & Hs & Hg). unfold cell_style, effective_style.
  by rewrite Hg, Hs.
Qed.

Lemma utf16_Encode_cons r rs : utf16_Encode (r :: rs) ≠ [].
Proof.
  unfold utf16_Encode. cbn [mbind list_bind]. unfold utf16_EncodeRune.
  by repeat destruct (_ : bool).
Qed.

(** A dirty cell is drawn with at least one code unit and takes at least
    one column, within the viewport. *)
Lemma cell_glyph_dirty s x y :
  Dirty (cells s) x y = true → x < s_w s →
  (cell_glyph s x y).1 ≠ []
  ∧ 1 ≤ (cell_glyph s x y).2 ∧ x + (cell_glyph s x y).2 ≤ s_w s.
Proof.
  intros Hd Hx. pose proof (Dirty_GetContent_width _ _ _ Hd) as Hw.
  unfold cell_glyph.
  destruct (GetContent (cells s) x y) as [[[mainc combc] st] width].
  cbn [snd] in Hw.
  destruct (Z.gtb_spec x (s_w s - width)); cbn [fst snd].
  - split; [done|lia].
  - split; [|lia]. intros E. apply app_eq_nil in E as [E _].
    by apply utf16_Encode_cons in E.
Qed.

(** One turn of the loop at a dirty cell: flush when the style changes,
    then queue the glyph and mark its columns clean. *)
Lemma draw_cell_dirty vtBuf x y d wd :
  Dirty (cells (scr wd)) x y = true →
  ∃ wd1,
    (if decide (cell_style (scr wd) x y = lstyle d) then wd1 = wd
     else writeString (lx d) (ly d) (lstyle d) vtBuf (wcs d) wd
          = Some (tt, wd1))
    ∧ scr wd1 = scr wd
    ∧ draw_cell vtBuf x y d wd
      = Some ((x + (cell_glyph (scr wd) x y).2,
               queued x y (cell_style (scr wd) x y)
                 (cell_glyph (scr wd) x y).1
                 (if decide (cell_style (scr wd) x y = lstyle d) then d
                  else flushed d)),
              with_cells
                (clear_cols (cells (scr wd)) x y (cell_glyph (scr wd) x y).2)
                wd1).
Proof.
  intros Hd. unfold draw_cell.
  unfold mbind at 1, M_bind at 1, get_s at 1.
  pose proof (λ st d', draw_emit_spec x y st d' wd) as Hemit.
  unfold cell_style.
  destruct (GetContent (cells (scr wd)) x y) as [[[mainc combc] style] width]
    eqn:G.
  cbn [fst snd] in *. rewrite Hd. cbn [negb orb].
  change (if decide (style = StyleDefault) then s_style (scr wd) else style)
    with (effective_style (scr wd) style).
  set (st := effective_style (scr wd) style) in *.
  destruct (decide (st = lstyle d)) as [E|E].
  - rewrite (bool_decide_eq_true_2 _ E). cbn [negb].
    exists wd. split; [done|]. split; [done|]. apply Hemit.
  - rewrite (bool_decide_eq_false_2 _ E). cbn [negb].
    destruct (writeString_spec (lx d) (ly d) (lstyle d) vtBuf (wcs d) wd)
      as (wd1 & Ew & Hs & _).
    exists wd1. split; [done|]. split; [done|].
    unfold mbind, M_bind. rewrite Ew.
    pose proof (draw_emit_spec x y st (flushed d) wd1) as Hemit1.
    rewrite Hs, G in Hemit1. cbn [fst snd] in Hemit1.
    rewrite <- Hs at 1 2. 
    unfold cell_glyph in *. rewrite Hs. exact Hemit1.
Qed.

End draw_facts.

Section row_facts.
Context `{RT : Runtime} {H : Type} `{CH : !Console H}.
Implicit Types (wd : @World H) (d : drawState).

Lemma pending_nil d : wcs d = [] → pending d = None.
Proof. unfold pending. by intros ->. Qed.

Lemma pending_cons d :
  wcs d ≠ [] →
  pending d
  = Some {| run_x := lx d; run_style := lstyle d; run_units := wcs d |}.
Proof. unfold pending. by destruct (wcs d). Qed.

Lemma agree_with_cells cb s s0 :
  agree s s0 → (∀ x y, GetContent cb x y = GetContent (cells s) x y) →
  agree (set_cells cb s) s0.
Proof.
  intros (Hw & Hs & Hg) Hcb. split; [done|]. split; [done|].
  intros x y. cbn [cells set_cells]. by rewrite Hcb.
Qed.

Lemma keeps_write_runs {B : Type} (f : cScreen → B) vtBuf y rs :
  keeps f (write_runs (H:=H) vtBuf y rs).
Proof.
  induction rs as [|r rs IH]; cbn [write_runs]; keeps_tac.
Qed.

(** The loop over the columns of a row whose cells are dirty from column
    [x] on, with the flush that ends the row: it writes the runs of the
    row, one [writeString] each, and marks the columns from [x] on
    clean. *)
Lemma draw_cols_runs vtBuf y s0 fuel : ∀ x d wd,
  agree (scr wd) s0 →
  (∀ x', x ≤ x' < s_w s0 → Dirty (cells (scr wd)) x' y = true) →
  (wcs d ≠ [] → ly d = y) →
  (Z.to_nat (s_w s0 - x) ≤ fuel)%nat →
  ∃ wdw cbF dF,
    write_runs vtBuf y (row_runs fuel s0 y x (pending d)) wd = Some (tt, wdw)
    ∧ scr wdw = scr wd
    ∧ (draw_cols fuel vtBuf x y d
       ≫= λ d', writeString (lx d') (ly d') (lstyle d') vtBuf (wcs d') ;;
                mret {| wcs := []; lstyle := styleInvalid; lx := lx d';
                        ly := ly d' |}) wd
      = Some (dF, with_cells cbF wdw)
    ∧ wcs dF = []
    ∧ cols_cleared y x (s_w s0) (cells (scr wd)) cbF.
Proof.
  assert (Hend : ∀ x d wd n,
             agree (scr wd) s0 → s_w s0 ≤ x → (wcs d ≠ [] → ly d = y) →
             ∃ wdw cbF dF,
               write_runs vtBuf y (row_runs n s0 y x (pending d)) wd
               = Some (tt, wdw)
               ∧ scr wdw = scr wd
               ∧ (draw_cols n vtBuf x y d
                  ≫= λ d', writeString (lx d') (ly d') (lstyle d') vtBuf
                             (wcs d') ;;
                           mret {| wcs := []; lstyle := styleInvalid;
                                   lx := lx d'; ly := ly d' |}) wd
                 = Some (dF, with_cells cbF wdw)
               ∧ wcs dF = []
               ∧ cols_cleared y x (s_w s0) (cells (scr wd)) cbF).
  { intros x d wd n Hag Hx Hly.
    assert (Hcols : draw_cols n vtBuf x y d wd = Some (d, wd)).
    { destruct n; cbn [draw_cols]; unfold mbind, M_bind, get_s;
        destruct Hag as (-> & _);
        destruct (Z.ltb_spec x (s_w s0)); (lia || done). }
    assert (Hruns : row_runs n s0 y x (pending d)
                    = close_run (pending d)).
    { destruct n; cbn [row_runs];
        destruct (Z.ltb_spec x (s_w s0)); (lia || done). }
    rewrite Hruns. unfold mbind at 1, M_bind at 1. rewrite Hcols.
    destruct (writeString_spec (lx d) (ly d) (lstyle d) vtBuf (wcs d) wd)
      as (wd1 & Ew & Hs & _).
    exists wd1, (cells (scr wd)),
      {| wcs := []; lstyle := styleInvalid; lx := lx d; ly := ly d |}.
    split; [|split; [exact Hs|split; [|split; [reflexivity|]]]].
    - destruct (decide (wcs d = [])) as [Ewcs|Ewcs].
      + rewrite pending_nil by done. cbn [close_run write_runs].
        unfold writeString in Ew. rewrite Ewcs in Ew. by injection Ew as <-.
      + rewrite pending_cons by done.
        cbn [close_run write_runs run_x run_style run_units].
        unfold mbind, M_bind. rewrite <- (Hly Ewcs), Ew. done.
    - unfold mbind, M_bind. rewrite Ew. cbn [mret M_ret].
      rewrite <- Hs, with_cells_id. reflexivity.
    - split; [done|]. split; [done|]. intros; lia. }
  induction fuel as [|fuel IH]; intros x d wd Hag Hdirty Hly Hfuel.
  { apply Hend; [done| |done]. lia. }
  destruct (decide (s_w s0 ≤ x)) as [Hx|Hx]; [by apply Hend|].
  assert (Hd : Dirty (cells (scr wd)) x y = true) by (apply Hdirty; lia).
  destruct (draw_cell_dirty vtBuf x y d wd Hd) as (wd1 & Hflush & Hs1 & Hcell).
  rewrite (cell_glyph_agree _ _ _ _ Hag), (cell_style_agree _ _ _ _ Hag)
    in Hcell.
  rewrite (cell_style_agree _ _ _ _ Hag) in Hflush.
  destruct (cell_glyph_dirty (scr wd) x y Hd) as (Hu & Hg1 & Hg2).
  { destruct Hag as (-> & _). lia. }
  rewrite (cell_glyph_agree _ _ _ _ Hag) in Hu, Hg1, Hg2.
  destruct Hag as (Hw & Hsty & Hgc).
  set (g := cell_glyph s0 x y) in *. set (st := cell_style s0 x y) in *.
  set (cb1 := clear_cols (cells (scr wd)) x y g.2) in *.
  set (d1 := queued x y st g.1 (if decide (st = lstyle d) then d
                                else flushed d)) in *.
  assert (Hwcs1 : wcs d1 ≠ []).
  { unfold d1, queued. cbn [wcs]. intros E.
    by apply app_eq_nil in E as [_ E]. }
  destruct (IH (x + g.2) d1 (with_cells cb1 wd1)) as
    (wdw & cbF & dF & Hruns & Hsw & Hrest & HdF & Hcl).
  { cbn [scr with_cells]. rewrite Hs1. apply agree_with_cells; [done|].
    intros x' y'. unfold cb1. apply GetContent_clear_cols. }
  { intros x' Hx'. cbn [scr with_cells cells set_cells]. unfold cb1.
    rewrite Dirty_clear_cols_other by lia. apply Hdirty. lia. }
  { intros _. unfold d1, queued. cbn [ly].
    destruct (decide (st = lstyle d)) as [E|E].
    - case_decide as El; [done|]. apply Hly. intros E0. apply El.
      by rewrite E0.
    - cbn [flushed wcs]. by rewrite decide_True. }
  { lia. }
  rewrite cells_blind_write_runs in Hruns.
  destruct (write_runs vtBuf y (row_runs fuel s0 y (x + g.2) (pending d1))
              wd1) as [[[] wdw1]|] eqn:Hruns1; [|done].
  cbn in Hruns. injection Hruns as <-.
  exists wdw1, cbF, dF.
  assert (Hsw1 : scr wdw1 = scr wd).
  { rewrite <- Hs1. exact (keeps_write_runs (λ s, s) _ _ _ _ _ _ Hruns1). }
  split; [|split; [exact Hsw1|split; [|split; [exact HdF|]]]].
  - (* the runs *)
    cbn [row_runs]. rewrite <- Hw.
    destruct (Z.ltb_spec x (s_w (scr wd))); [|lia].
    fold g st. cbn zeta.
    rewrite pending_cons in Hruns1 by done.
    destruct (decide (wcs d = [])) as [Ewcs|Ewcs].
    + rewrite pending_nil by done.
      assert (wd1 = wd) as ->.
      { destruct (decide (st = lstyle d)); [done|].
        unfold writeString in Hflush. rewrite Ewcs in Hflush.
        by injection Hflush. }
      rewrite <- Hruns1. do 3 f_equal.
      unfold d1, queued.
      destruct (decide (st = lstyle d)); cbn [flushed wcs lstyle lx ly];
        rewrite ?Ewcs; cbn [length app]; by rewrite !decide_True.
    + rewrite pending_cons by done.
      cbn [run_style run_x run_units].
      assert (El : length (wcs d) ≠ 0%nat) by (by destruct (wcs d)).
      destruct (decide (st = lstyle d)) as [E|E].
      * subst wd1. rewrite <- Hruns1. do 3 f_equal.
        unfold d1, queued. cbn [wcs lstyle lx ly].
        by destruct (decide (length (wcs d) = 0%nat)).
      * cbn [write_runs run_x run_style run_units].
        unfold mbind, M_bind. rewrite (Hly Ewcs) in Hflush.
        rewrite Hflush, <- Hruns1. do 3 f_equal.
  - (* the loop *)
    cbn [draw_cols]. unfold mbind, M_bind, get_s.
    rewrite Hw. destruct (Z.ltb_spec x (s_w s0)); [|lia].
    rewrite Hcell. cbn [fst snd]. exact Hrest.
  - (* the cells *)
    destruct Hcl as (Hc1 & Hc2 & Hc3).
    cbn [scr with_cells cells set_cells] in Hc1, Hc2, Hc3.
    split; [|split].
    + intros x' y'. rewrite Hc1. unfold cb1. apply GetContent_clear_cols.
    + intros x' y' Hout. rewrite Hc2 by lia. unfold cb1.
      apply Dirty_clear_cols_other. lia.
    + intros x' Hx'. destruct (decide (x' < x + g.2)).
      * rewrite Hc2 by lia. unfold cb1. apply Dirty_clear_cols_in. lia.
      * apply Hc3. lia.
Qed.

End row_facts.

Section pass_facts.
Context `{RT : Runtime} {H : Type} `{CH : !Console H}.
Implicit Types (wd : @World H) (d : drawState).

Lemma cells_blind_write_rows vtBuf s ys :
  cells_blind (write_rows (H:=H) vtBuf s ys).
Proof.
  induction ys as [|y ys IH]; cbn [write_rows].
  - apply cells_blind_ret.
  - apply cells_blind_bind; [apply cells_blind_write_runs|by intros _].
Qed.

Lemma keeps_write_rows {B : Type} (f : cScreen → B) vtBuf s ys :
  keeps f (write_rows (H:=H) vtBuf s ys).
Proof.
  induction ys as [|y ys IH]; cbn [write_rows]; keeps_tac.
  apply keeps_write_runs.
Qed.

(** One row of the draw pass, all of its cells being dirty. *)
Lemma draw_row_runs vtBuf y s0 d wd :
  agree (scr wd) s0 →
  (∀ x, 0 ≤ x < s_w s0 → Dirty (cells (scr wd)) x y = true) →
  wcs d = [] →
  ∃ wdw cbF dF,
    write_runs vtBuf y (row_runs (Z.to_nat (s_w s0)) s0 y 0 None) wd
    = Some (tt, wdw)
    ∧ scr wdw = scr wd
    ∧ draw_row vtBuf y d wd = Some (dF, with_cells cbF wdw)
    ∧ wcs dF = []
    ∧ cols_cleared y 0 (s_w s0) (cells (scr wd)) cbF.
Proof.
  intros Hag Hdirty Hwcs.
  destruct (draw_cols_runs vtBuf y s0 (Z.to_nat (s_w s0)) 0 d wd)
    as (wdw & cbF & dF & Hruns & Hs & Hloop & HdF & Hcl);
    [done|done|by rewrite Hwcs|lia|].
  rewrite pending_nil in Hruns by done.
  exists wdw, cbF, dF.
  refine (conj Hruns (conj Hs (conj _ (conj HdF Hcl)))).
  unfold draw_row. unfold mbind at 1, M_bind at 1, get_s at 1.
  destruct Hag as (-> & _). exact Hloop.
Qed.

(** The rows [ys] of the draw pass, all of their cells being dirty. *)
Lemma draw_rows_runs vtBuf s0 ys : ∀ d wd,
  agree (scr wd) s0 → NoDup ys →
  (∀ x y, y ∈ ys → 0 ≤ x < s_w s0 → Dirty (cells (scr wd)) x y = true) →
  wcs d = [] →
  ∃ wdw cbF dF,
    write_rows vtBuf s0 ys wd = Some (tt, wdw)
    ∧ scr wdw = scr wd
    ∧ draw_rows vtBuf ys d wd = Some (dF, with_cells cbF wdw)
    ∧ rows_cleared ys (s_w s0) (cells (scr wd)) cbF.
Proof.
  induction ys as [|y ys IH]; intros d wd Hag Hnd Hdirty Hwcs.
  { exists wd, (cells (scr wd)), d. cbn [write_rows draw_rows].
    rewrite with_cells_id.
    refine (conj _ (conj _ (conj _ (conj _ (conj _ _))))); try done.
    intros x y Hy. by apply elem_of_nil in Hy. }
  apply NoDup_cons in Hnd as [Hy Hnd].
  destruct (draw_row_runs vtBuf y s0 d wd) as
    (wdw1 & cb1 & d1 & Hruns & Hs1 & Hrow & Hd1 & Hc1 & Hc2 & Hc3);
    [done| |done|].
  { intros x Hx. apply Hdirty; [by left|done]. }
  destruct (IH d1 (with_cells cb1 wdw1)) as
    (wdw & cbF & dF & Hrows & Hs & Hrest & Hr1 & Hr2 & Hr3); [|done| |done|].
  { cbn [scr with_cells]. rewrite Hs1. by apply agree_with_cells. }
  { intros x y' Hy' Hx. cbn [scr with_cells cells set_cells].
    rewrite Hc2 by (left; intros ->; done). apply Hdirty; [by right|done]. }
  rewrite cells_blind_write_rows in Hrows.
  destruct (write_rows vtBuf s0 ys wdw1) as [[[] wdw2]|] eqn:Hrows2; [|done].
  cbn in Hrows. injection Hrows as <-.
  cbn [scr with_cells cells set_cells] in Hr1, Hr2, Hr3.
  exists wdw2, cbF, dF.
  split; [|split; [|split]].
  - cbn [write_rows]. unfold mbind, M_bind. by rewrite Hruns.
  - rewrite <- Hs1. exact (keeps_write_rows (λ s, s) _ _ _ _ _ _ Hrows2).
  - cbn [draw_rows]. unfold mbind, M_bind. rewrite Hrow. exact Hrest.
  - split; [|split].
    + intros x y'. by rewrite Hr1, Hc1.
    + intros x y' Hout. rewrite Hr2.
      * apply Hc2. destruct Hout as [Hout|Hout]; [|lia].
        left. intros ->. apply Hout. by left.
      * destruct Hout as [Hout|Hout]; [|by right].
        left. intros Hin. apply Hout. by right.
    + intros x y' Hy' Hx. apply elem_of_cons in Hy' as [->|Hy'].
      * rewrite Hr2 by (by left). apply Hc3. lia.
      * by apply Hr3.
Qed.

(** The draw pass on a viewport whose cells are all dirty: it writes the
    runs of every row, top to bottom, and leaves the viewport clean. *)
Lemma draw_runs wd :
  0 ≤ s_w (scr wd) → viewport_dirty (scr wd) →
  ∃ wdw cbF,
    write_rows [] (scr wd) (seqZ 0 (s_h (scr wd))) wd = Some (tt, wdw)
    ∧ scr wdw = scr wd
    ∧ draw wd = Some (tt, with_cells cbF wdw)
    ∧ rows_cleared (seqZ 0 (s_h (scr wd))) (s_w (scr wd)) (cells (scr wd)) cbF.
Proof.
  intros Hw Hdirty.
  destruct (draw_rows_runs [] (scr wd) (seqZ 0 (s_h (scr wd)))
              {| wcs := []; lstyle := styleInvalid; lx := -1; ly := -1 |} wd)
    as (wdw & cbF & dF & Hrows & Hs & Hdraw & Hcl).
  - done.
  - apply NoDup_seqZ.
  - intros x y Hy Hx. apply elem_of_seqZ in Hy. apply Hdirty; lia.
  - done.
  - exists wdw, cbF. refine (conj Hrows (conj Hs (conj _ Hcl))).
    unfold draw. unfold mbind at 1, M_bind at 1, get_s at 1.
    destruct (Z.ltb_spec (s_w (scr wd)) 0); [lia|].
    unfold mbind, M_bind. by rewrite Hdraw.
Qed.

End pass_facts.

Section sync_facts.
Context `{RT : Runtime} {H : Type} `{CH : !Console H}.
Implicit Types (wd : @World H) (cb : CellBuffer).

Lemma Invalidate_all_dirty cb :
  Forall (λ c, c_dirty c = true) (cb_cells (Invalidate cb)).
Proof. cbn [Invalidate cb_cells]. by apply Forall_fmap, Forall_true. Qed.

Lemma Invalidate_idemp cb : Invalidate (Invalidate cb) = Invalidate cb.
Proof.
  unfold Invalidate. cbn [cb_w cb_h cb_cells]. f_equal.
  rewrite <- list_fmap_compose. by apply list_fmap_ext.
Qed.

Lemma Resize_all_dirty cb w h :
  Forall (λ c, c_dirty c = true) (cb_cells (Resize cb w h)).
Proof.
  cbn [Resize cb_cells]. apply Forall_bind, Forall_true. intros y.
  apply Forall_bind, Forall_true. intros x. apply Forall_singleton.
  by destruct (cb_lookup cb x y).
Qed.

Lemma Resize_length cb w h :
  length (cb_cells (Resize cb w h)) = (Z.to_nat h * Z.to_nat w)%nat.
Proof.
  cbn [Resize cb_cells].
  assert (Hrow : ∀ y, length (x ← seqZ 0 w;
                               [match cb_lookup cb x y with
                                | Some c => cell_set_dirty true c
                                | None => zero_cell
                                end]) = Z.to_nat w).
  { intros y. rewrite <- (length_seqZ 0 w).
    generalize (seqZ 0 w). intros l.
    induction l as [|x l IH]; [done|]. cbn. by rewrite <- IH. }
  rewrite <- (length_seqZ 0 h). generalize (seqZ 0 h). intros l.
  induction l as [|y l IH]; [done|].
  cbn [mbind list_bind]. rewrite length_app, IH.
  change (length (y :: l)) with (S (length l)).
  specialize (Hrow y). cbn [mbind list_bind] in Hrow. rewrite Hrow. lia.
Qed.

(** In a buffer that fits the viewport and whose cells are all dirty,
    every cell of the viewport is dirty. *)
Lemma all_dirty_viewport (s : cScreen) :
  cells_fit s → Forall (λ c, c_dirty c = true) (cb_cells (cells s)) →
  viewport_dirty s.
Proof.
  intros (Hw & Hh & Hlen) Hall x y Hx Hy.
  unfold Dirty, cb_lookup, cb_in_range, cb_index. rewrite Hw, Hh.
  destruct (Z.leb_spec 0 x); [|lia]. destruct (Z.leb_spec 0 y); [|lia].
  destruct (Z.ltb_spec x (s_w s)); [|lia].
  destruct (Z.ltb_spec y (s_h s)); [|lia]. cbn [andb].
  destruct (cb_cells (cells s) !! Z.to_nat (y * s_w s + x)) as [c|] eqn:E.
  - by eapply (Forall_lookup_1 _ _ _ _ Hall).
  - apply lookup_ge_None in E. rewrite Hlen in E.
    assert (Z.to_nat (y * s_w s + x) < Z.to_nat (s_h s) * Z.to_nat (s_w s))%nat;
      [|lia].
    rewrite <- Z2Nat.inj_mul by lia. apply Z2Nat.inj_lt; nia.
Qed.

(** [resize] keeps a buffer that fits and is all dirty that way. *)
Lemma resize_all_dirty wd wd2 :
  resize wd = Some (tt, wd2) →
  cells_fit (scr wd) →
  Forall (λ c, c_dirty c = true) (cb_cells (cells (scr wd))) →
  cells_fit (scr wd2)
  ∧ Forall (λ c, c_dirty c = true) (cb_cells (cells (scr wd2))).
Proof.
  unfold resize, getConsoleInfo, setBufferSize.
  unfold mbind, M_bind, get_s, ask, call, modify_s, mret, M_ret.
  cbn [scr host trace winColors].
  destruct (_ && _).
  - intros [= <-]. done.
  - intros [= <-] _ _. cbn [scr]. split.
    + split; [done|]. split; [done|]. apply Resize_length.
    + apply Resize_all_dirty.
Qed.

End sync_facts.

Section sync_theorem.
Context `{RT : Runtime} {H : Type} `{CH : !Console H}.
Implicit Types (wd : @World H) (cb : CellBuffer).

Lemma Sync_unfold wd :
  fini (scr wd) = false →
  Sync wd = (hideCursor ;; resize ;; draw ;; doCursor) (forget_dirty wd).
Proof.
  intros Hf. unfold Sync. unfold mbind at 1, M_bind at 1, get_s at 1.
  rewrite Hf. cbn [negb]. reflexivity.
Qed.

Lemma Show_unfold wd :
  fini (scr wd) = false →
  Show wd = (hideCursor ;; resize ;; draw ;; doCursor) wd.
Proof.
  intros Hf. unfold Show. unfold mbind at 1, M_bind at 1, get_s at 1.
  by rewrite Hf.
Qed.

Lemma forget_dirty_idemp wd : forget_dirty (forget_dirty wd) = forget_dirty wd.
Proof.
  unfold forget_dirty, with_cells. cbn [scr cells set_cells host trace
    winColors]. by rewrite Invalidate_idemp.
Qed.

(** Coalescing loses nothing: the runs of a row hold the glyph of every
    cell of the row, in order. *)
Lemma row_runs_text fuel s y : ∀ x cur,
  mjoin (run_units <$> row_runs fuel s y x cur)
  = from_option run_units [] cur ++ row_text fuel s y x.
Proof.
  induction fuel as [|fuel IH]; intros x cur; cbn [row_runs row_text].
  - destruct (x <? s_w s), cur; cbn; by rewrite ?app_nil_r.
  - destruct (x <? s_w s); [|destruct cur; cbn; by rewrite ?app_nil_r].
    cbn zeta. destruct cur as [r|]; [case_decide|];
      cbn [fmap list_fmap mjoin list_join from_option]; rewrite IH;
      cbn [from_option run_units]; by rewrite ?app_assoc.
Qed.


End sync_theorem.


(** Scenario S3, through [Sync]: three bursts on row 0, position then
    attribute then text, and the run of row 1. *)
Example mixed_styles_S3 :
  calls_of Sync mixed_world
  = [ SetConsoleCursorInfo 4 {| ci_size := 1; ci_visible := 0 |};
      SetConsoleCursorPosition 4 0; SetConsoleTextAttribute 4 7;
      WriteConsole 4 [65];
      SetConsoleCursorPosition 4 1; SetConsoleTextAttribute 4 15;
      WriteConsole 4 [66];
      SetConsoleCursorPosition 4 2; SetConsoleTextAttribute 4 7;
      WriteConsole 4 [67; 0];
      SetConsoleCursorPosition 4 65536; SetConsoleTextAttribute 4 7;
      WriteConsole 4 [0; 0; 0; 0];
      SetConsoleCursorInfo 4 {| ci_size := 1; ci_visible := 0 |} ].
Proof. vm_compute. reflexivity. Qed.

(** ** The buffer fits the viewport *)

Section fit_facts.
Context `{RT : Runtime} {H : Type} `{CH : !Console H}.
Implicit Types (wd : @World H) (s : cScreen).

Lemma fit_SetDirty s x y b :
  cells_fit s → cells_fit (set_cells (SetDirty (cells s) x y b) s).
Proof.
  intros (Hw & Hh & Hl). unfold cells_fit, SetDirty.
  cbn [cells set_cells s_w s_h].
  destruct (cb_in_range (cells s) x y); [|done].
  cbn [cb_w cb_h cb_cells]. by rewrite length_alter.
Qed.

Lemma fit_Invalidate s :
  cells_fit s → cells_fit (set_cells (Invalidate (cells s)) s).
Proof.
  intros (Hw & Hh & Hl). unfold cells_fit, Invalidate.
  cbn [cells set_cells s_w s_h cb_w cb_h cb_cells]. by rewrite length_fmap.
Qed.

Lemma fit_SetContent s x y mainc combc style :
  cells_fit s →
  cells_fit (set_cells (SetContent (cells s) x y mainc combc style) s).
Proof.
  intros (Hw & Hh & Hl). unfold cells_fit, SetContent.
  cbn [cells set_cells s_w s_h].
  destruct (cb_in_range (cells s) x y); [|done].
  cbn [cb_w cb_h cb_cells]. by rewrite length_alter.
Qed.

Lemma keeps_id_preserves {A : Type} (P : cScreen → Prop) (m : @M H A) :
  keeps (λ s, s) m → preserves P m.
Proof. intros Hk wd a wd' E HP. by rewrite (Hk _ _ _ E). Qed.

Lemma preserves_ret {A : Type} (P : cScreen → Prop) (a : A) :
  preserves P (mret a : @M H A).
Proof. intros wd a' wd' E HP. by injection E as <- <-. Qed.

Lemma preserves_forM (P : cScreen → Prop) (l : list Z)
    (body : Z → @M H unit) :
  (∀ i, preserves P (body i)) → preserves P (forM l body).
Proof.
  intros Hb. induction l as [|i l IH]; cbn [forM].
  - apply preserves_ret.
  - apply preserves_bind; [apply Hb|]. by intros _.
Qed.

Lemma fit_resize : preserves cells_fit (resize (H:=H)).
Proof.
  intros wd [] wd'. unfold resize, getConsoleInfo, setBufferSize.
  unfold mbind, M_bind, get_s, ask, call, modify_s, mret, M_ret.
  cbn [scr host trace winColors].
  destruct (_ && _).
  - by intros [= <-].
  - intros [= <-] _. cbn [scr].
    split; [done|]. split; [done|]. apply Resize_length.
Qed.

(** One step of a proof that the fit is kept. *)
Ltac fit_step :=
  match goal with
  | |- preserves _ (_ ≫= _) => apply preserves_bind; [|intros ?]
  | |- preserves _ (forM _ _) => apply preserves_forM; intros ?
  | |- preserves _ (modify_s _) =>
      apply preserves_modify; intros ? ?;
      first [ assumption | by apply fit_SetDirty | by apply fit_Invalidate
            | by apply fit_SetContent ]
  | |- preserves _ (if ?c then _ else _) => destruct c
  | |- preserves _ (match ?c with _ => _ end) => destruct c
  | |- preserves _ _ =>
      first [ assumption | apply fit_resize
            | apply keeps_id_preserves; solve [keeps_tac] ]
  end.

Lemma fit_draw_emit x y mainc combc style width d :
  preserves cells_fit (draw_emit (H:=H) x y mainc combc style width d).
Proof. unfold draw_emit. repeat fit_step. Qed.

Lemma fit_draw_cell vtBuf x y d :
  preserves cells_fit (draw_cell (H:=H) vtBuf x y d).
Proof.
  unfold draw_cell. repeat first [apply fit_draw_emit | fit_step].
Qed.

Lemma fit_draw_cols fuel vtBuf x y d :
  preserves cells_fit (draw_cols (H:=H) fuel vtBuf x y d).
Proof.
  revert x d. induction fuel as [|fuel IH]; intros x d; cbn [draw_cols];
    repeat first [apply fit_draw_cell | apply IH | fit_step].
Qed.

Lemma fit_draw_rows vtBuf ys d :
  preserves cells_fit (draw_rows (H:=H) vtBuf ys d).
Proof.
  revert d. induction ys as [|y ys IH]; intros d; cbn [draw_rows];
    unfold draw_row;
    repeat first [apply fit_draw_cols | apply IH | fit_step].
Qed.

Lemma fit_draw : preserves cells_fit (draw (H:=H)).
Proof. unfold draw. repeat first [apply fit_draw_rows | fit_step]. Qed.

Lemma fit_Show : preserves cells_fit (Show (H:=H)).
Proof. unfold Show. repeat first [apply fit_draw | fit_step]. Qed.

Lemma fit_Sync : preserves cells_fit (Sync (H:=H)).
Proof. unfold Sync. repeat first [apply fit_draw | fit_step]. Qed.

Lemma fit_SetSize w h : preserves cells_fit (SetSize (H:=H) w h).
Proof. unfold SetSize. repeat fit_step. Qed.

Lemma fit_engage : preserves cells_fit (engage (H:=H)).
Proof. unfold engage. repeat first [apply fit_draw | fit_step]. Qed.

Lemma fit_Fini : preserves cells_fit (Fini (H:=H)).
Proof. unfold Fini, disengage. repeat fit_step. Qed.

Lemma fit_Init : preserves cells_fit (Init (H:=H)).
Proof.
  unfold Init, Init_console, Init_truecolor, Init_vtmode, Init_vt.
  repeat first [apply fit_engage | fit_step].
Qed.

Lemma fit_put_cell x y mainc combc style :
  preserves cells_fit (put_cell (H:=H) x y mainc combc style).
Proof. unfold put_cell. repeat fit_step. Qed.

(** The zero screen fits, so every screen that Init and the operations
    above make of it does. *)
Lemma fit_zero : cells_fit cScreen_zero.
Proof. by split. Qed.

End fit_facts.
